(** * TinySpline: the de Boor core of [tinyspline.c]

    A shallow embedding of the functions of [src/library/tinyspline.c] and
    the properties of its specification that are decided on them.

    Conventions of the embedding.
    - [size_t] is a 64-bit unsigned integer, [int] a 32-bit signed one and
      [sizeof(float)] is 4 (LP64).  A [size_t] value is a [Z] in
      [0, 2^64); every [size_t] operation of the source is written with its
      wrap-around ([+!], [-!], [*!]); a conversion to [int] is [to_int].
    - [float] is a type [F] with the operations of the class [FloatOps];
      the instance [binary32] gives them their IEEE-754 single precision
      meaning through [SpecFloat]: every operation is rounded to nearest
      even on its own ([FLT_EVAL_METHOD] 0, no contraction).
    - A buffer is a [list F]; a pointer into it is an offset counted in
      floats; the NULL buffer is the empty list.  Reads out of range yield
      [F0] and writes out of range are dropped (both are undefined in C);
      [bspline_wf] says that the buffers have the sizes the header
      announces.  Fresh cells (indeterminate in C) hold [F0].
    - [malloc] and [realloc] fail exactly when the request exceeds
      [PTRDIFF_MAX]; memory is otherwise never exhausted.
    - [realloc] resizes a buffer where it is.  The in-place growth at the
      front of [ts_bspline_resize] moves the old content through pointers
      that it took before its [realloc]; this is defined only when the
      buffer was not moved, and the properties of the content of a
      resized b-spline exclude this case.
    - Where the source reads or writes outside a buffer the embedding has
      no meaning of its own, and the properties are stated for the runs
      that stay inside: [bspline_wf] for the buffers of a b-spline (a
      b-spline of [ts_bspline_new] has it when the byte counts did not
      wrap around), and [Net.n_points net = tri (Net.h net + 1)] for the
      net of an evaluation: its size is computed in [float], and in
      single precision it is one point short when the row 0 has 5793
      points.
    - An operation with an output parameter takes the flag [alias], which
      says whether input and output are the same object, and returns the
      final state of the output object. *)

From Stdlib Require Import ZArith List Bool Lia.
From Stdlib Require Import Floats.SpecFloat.
Import ListNotations.
Open Scope Z_scope.

(** ** Machine integers *)

Definition SIZE_MOD : Z := 2 ^ 64.
Definition PTRDIFF_MAX : Z := 2 ^ 63 - 1.
Definition INT_MOD : Z := 2 ^ 32.
Definition INT_MAX : Z := 2 ^ 31 - 1.
Definition size_flt : Z := 4.

Definition wrap (z : Z) : Z := z mod SIZE_MOD.
Definition to_int (z : Z) : Z :=
  let r := z mod INT_MOD in if r <=? INT_MAX then r else r - INT_MOD.

Definition sz_add (a b : Z) : Z := wrap (a + b).
Definition sz_sub (a b : Z) : Z := wrap (a - b).
Definition sz_mul (a b : Z) : Z := wrap (a * b).
Definition sz_neg (a : Z) : Z := wrap (- a).

Infix "+!" := sz_add (at level 50, left associativity).
Infix "-!" := sz_sub (at level 50, left associativity).
Infix "*!" := sz_mul (at level 40, left associativity).

Definition in_size (z : Z) : Prop := 0 <= z < SIZE_MOD.

(** ** Error codes

    Modelled from the spec: the header [tinyspline.h] with the enumeration
    [tsError] is not part of the sources.  The error kinds are those of
    section 7; the code relies on [TS_SUCCESS] being 0 and on the errors
    being negative, the values below are otherwise arbitrary.  The
    evaluator returns the classification codes 0, 1 and 2 in the same
    type. *)

Definition tsError : Type := Z.
Definition TS_SUCCESS : tsError := 0.
Definition TS_MALLOC : tsError := -1.
Definition TS_DIM_ZERO : tsError := -2.
Definition TS_DEG_GE_NCTRLP : tsError := -3.
Definition TS_U_UNDEFINED : tsError := -4.
Definition TS_MULTIPLICITY : tsError := -5.
Definition TS_INPUT_EQ_OUTPUT : tsError := -6.
Definition TS_OVER_UNDERFLOW : tsError := -7.

(** Modelled from the spec: [tsBSplineType] is declared in the missing
    header; section 4.2 names its three values. *)
Inductive tsBSplineType : Type := TS_NONE | TS_OPENED | TS_CLAMPED.

(** ** Floating point interface *)

Class FloatOps (F : Type) : Type := {
  F0 : F;                         (* 0.f *)
  F1 : F;                         (* 1.f *)
  Fhalf : F;                      (* 0.5f *)
  fadd : F -> F -> F;
  fsub : F -> F -> F;
  fmul : F -> F -> F;
  fdiv : F -> F -> F;
  fabs : F -> F;
  fle : F -> F -> bool;           (* x <= y *)
  flt : F -> F -> bool;           (* x < y *)
  of_size : Z -> F;               (* (float) n, n of type size_t *)
  to_size : F -> Z;               (* (size_t) x *)
  (* Modelled from the spec: the two tolerances are macros of the missing
     header; section 4.1 gives them as about 1e-7 and 1e-5.  [ts_fequals]
     compares a [float] with each of them; were the macro a constant of
     type [double], the comparison would be the one with the largest
     [float] not above it, so a value of [F] stands for either form. *)
  FLT_MAX_ABS_ERROR : F;
  FLT_MAX_REL_ERROR : F
}.

(** ** Data model *)

Record tsBSpline (F : Type) : Type := mkBSpline {
  deg : Z;
  order : Z;
  dim : Z;
  n_ctrlp : Z;
  n_knots : Z;
  ctrlp : list F;
  knots : list F
}.
Arguments mkBSpline {F}.
Arguments deg {F}.
Arguments order {F}.
Arguments dim {F}.
Arguments n_ctrlp {F}.
Arguments n_knots {F}.
Arguments ctrlp {F}.
Arguments knots {F}.

Module Net.
(** [tsDeBoorNet]; [result] is the offset of the result inside [points]. *)
Record t (F : Type) : Type := mk {
  u : F;
  k : Z;
  s : Z;
  h : Z;
  dim : Z;
  n_points : Z;
  points : list F;
  result : Z
}.
Arguments mk {F}.
Arguments u {F}.
Arguments k {F}.
Arguments s {F}.
Arguments h {F}.
Arguments dim {F}.
Arguments n_points {F}.
Arguments points {F}.
Arguments result {F}.
End Net.
Definition tsDeBoorNet : Type -> Type := Net.t.

(** ** Loops and buffers *)

Fixpoint seqZ (lo : Z) (n : nat) : list Z :=
  match n with
  | O => []
  | S n' => lo :: seqZ (lo + 1) n'
  end.

(** [for (i = lo; i < hi; i++) st = body i st] *)
Definition for_range {S : Type} (lo hi : Z) (body : Z -> S -> S) (st : S) : S :=
  fold_left (fun st i => body i st) (seqZ lo (Z.to_nat (hi - lo))) st.

(** the value of the counter [i] after [for (; i < hi; i++)] *)
Definition loop_exit (i hi : Z) : Z := Z.max i hi.

Fixpoint upd {A : Type} (l : list A) (n : nat) (v : A) : list A :=
  match l, n with
  | [], _ => []
  | _ :: t, O => v :: t
  | x :: t, S n' => x :: upd t n' v
  end.

Fixpoint resize_list {A : Type} (d : A) (l : list A) (n : nat) : list A :=
  match n with
  | O => []
  | S n' => match l with
            | [] => d :: resize_list d [] n'
            | x :: t => x :: resize_list d t n'
            end
  end.

Section Model.
Context {F : Type} {ops : FloatOps F}.

(** [l[i]] and [l[i] = v] *)
Definition lget (l : list F) (i : Z) : F :=
  if i <? 0 then F0 else nth (Z.to_nat i) l F0.
Definition lset (l : list F) (i : Z) (v : F) : list F :=
  if i <? 0 then l else upd l (Z.to_nat i) v.

(** [memmove(dst + doff, src + soff, bytes)]: the new contents of [dst] *)
Definition memmove (dst : list F) (doff : Z) (src : list F) (soff bytes : Z)
  : list F :=
  let cnt := bytes / size_flt in
  map (fun ix : Z * F =>
         let (i, x) := ix in
         if (doff <=? i) && (i <? doff + cnt)
         then lget src (soff + (i - doff)) else x)
      (combine (seqZ 0 (length dst)) dst).
Definition memcpy := memmove.

Definition malloc (bytes : Z) : option (list F) :=
  if bytes <=? PTRDIFF_MAX
  then Some (repeat F0 (Z.to_nat (bytes / size_flt))) else None.
Definition realloc (p : list F) (bytes : Z) : option (list F) :=
  if bytes <=? PTRDIFF_MAX
  then Some (resize_list F0 p (Z.to_nat (bytes / size_flt))) else None.

(** ** [ts_fequals] *)
Definition ts_fequals (x y : F) : bool :=
  if fle (fabs (fsub x y)) FLT_MAX_ABS_ERROR then true
  else
    let r := if flt (fabs y) (fabs x)
             then fabs (fdiv (fsub x y) x)
             else fabs (fdiv (fsub x y) y) in
    fle r FLT_MAX_REL_ERROR.

(** ** Defaults *)
Definition ts_deboornet_default : tsDeBoorNet F :=
  Net.mk F0 0 0 0 0 0 [] 0.
Definition ts_bspline_default : tsBSpline F :=
  mkBSpline 0 0 0 0 0 [] [].

(** ** [ts_bspline_copy] *)
Definition ts_bspline_copy (alias : bool) (original : tsBSpline F)
  : tsError * tsBSpline F :=
  if alias then (TS_INPUT_EQ_OUTPUT, original)
  else
    let dim := dim original in
    let n_ctrlp := n_ctrlp original in
    let n_knots := n_knots original in
    match malloc (n_ctrlp *! dim *! size_flt) with
    | None => (TS_MALLOC, ts_bspline_default)
    | Some c =>
      match malloc (n_knots *! size_flt) with
      | None => (TS_MALLOC, ts_bspline_default)
      | Some kn =>
        (TS_SUCCESS,
         mkBSpline (deg original) (order original) dim n_ctrlp n_knots
           (memcpy c 0 (ctrlp original) 0 (n_ctrlp *! dim *! size_flt))
           (memcpy kn 0 (knots original) 0 (n_knots *! size_flt)))
      end
    end.

(** ** [ts_bspline_setup_knots] *)
Definition with_knots (b : tsBSpline F) (kn : list F) : tsBSpline F :=
  mkBSpline (deg b) (order b) (dim b) (n_ctrlp b) (n_knots b) (ctrlp b) kn.

(** the loop [for (; current < end; current++, numerator++)] *)
Definition fill_uniform (current end_ numerator dominator : Z) (kn : list F)
  : list F * Z :=
  for_range current end_
    (fun current st =>
       let '(kn, numerator) := st in
       (lset kn current (fdiv (of_size numerator) (of_size dominator)),
        numerator +! 1))
    (kn, numerator).

(** the loop [for (; current < end; current++) knots[current] = v] *)
Definition fill_const (current end_ : Z) (v : F) (kn : list F) : list F :=
  for_range current end_ (fun current kn => lset kn current v) kn.

Definition clamped_dominator (n_knots deg : Z) : Z :=
  n_knots -! (2 *! deg) -! 1.

Definition ts_bspline_setup_knots (alias : bool) (original : tsBSpline F)
    (type : tsBSplineType) : tsError * tsBSpline F :=
  let (ret, result) :=
    if alias then (TS_SUCCESS, original) else ts_bspline_copy false original in
  if ret <? 0 then (ret, result)
  else
    match type with
    | TS_NONE => (TS_SUCCESS, result)
    | TS_OPENED =>
      let end_ := n_knots result in
      let dominator := end_ -! 1 in
      (TS_SUCCESS,
       with_knots result (fst (fill_uniform 0 end_ 0 dominator (knots result))))
    | TS_CLAMPED =>
      let n_knots := n_knots result in
      let deg := deg result in
      let order := order result in
      let kn := fill_const 0 order F0 (knots result) in
      let end_ := n_knots -! order in
      let dominator := clamped_dominator n_knots deg in
      let current := loop_exit 0 order in
      let kn := fst (fill_uniform current end_ 1 dominator kn) in
      let current := loop_exit current end_ in
      let kn := fill_const current n_knots F1 kn in
      (TS_SUCCESS, with_knots result kn)
    end.

(** ** [ts_bspline_new] *)
Definition ts_bspline_new (deg dim n_ctrlp : Z) (type : tsBSplineType)
  : tsError * tsBSpline F :=
  if dim <? 1 then (TS_DIM_ZERO, ts_bspline_default)
  else if deg >=? n_ctrlp then (TS_DEG_GE_NCTRLP, ts_bspline_default)
  else
    let order := deg +! 1 in
    if order <? deg then (TS_OVER_UNDERFLOW, ts_bspline_default)
    else
      let n_knots := n_ctrlp +! order in
      if n_knots <? n_ctrlp then (TS_OVER_UNDERFLOW, ts_bspline_default)
      else
        match malloc (n_ctrlp *! dim *! size_flt) with
        | None => (TS_MALLOC, ts_bspline_default)
        | Some c =>
          match malloc (n_knots *! size_flt) with
          | None => (TS_MALLOC, ts_bspline_default)
          | Some kn =>
            let bspline := mkBSpline deg order dim n_ctrlp n_knots c kn in
            (TS_SUCCESS, snd (ts_bspline_setup_knots true bspline type))
          end
        end.

(** ** [ts_bspline_evaluate] *)

(** the span search [for (k = 0; k < n_knots; k++)]; [todo] counts the
    iterations that are left *)
Fixpoint span_search (todo : nat) (kn : list F) (u : F) (k s : Z) : Z * Z :=
  match todo with
  | O => (k, s)
  | S todo' =>
    let uk := lget kn k in
    if ts_fequals u uk then span_search todo' kn u (k + 1) (s + 1)
    else if flt u uk then (k, s)
    else span_search todo' kn u (k + 1) s
  end.

(** the denominator of [a] in the de Boor recursion *)
Definition deboor_denominator (kn : list F) (deg r i : Z) : F :=
  fsub (lget kn (i +! deg -! r +! 1)) (lget kn i).

(** cursors of the de Boor loops: the net and [idx_l], [idx_r], [idx_to] *)
Record cursors : Type := mkCursors {
  c_points : list F;
  idx_l : Z;
  idx_r : Z;
  idx_to : Z
}.

Definition deboor_point (a a_hat : F) (d : Z) (c : cursors) : cursors :=
  mkCursors
    (lset (c_points c) (idx_to c)
       (fadd (fmul a_hat (lget (c_points c) (idx_l c)))
             (fmul a (lget (c_points c) (idx_r c)))))
    (idx_l c + 1) (idx_r c + 1) (idx_to c + 1).

Definition deboor_column (kn : list F) (u : F) (deg dim r i : Z) (c : cursors)
  : cursors :=
  let ui := lget kn i in
  let a := fdiv (fsub u ui) (deboor_denominator kn deg r i) in
  let a_hat := fsub F1 a in
  for_range 0 dim (deboor_point a a_hat) c.

Definition deboor_row (kn : list F) (u : F) (deg dim fst_ lst : Z) (r : Z)
    (c : cursors) : cursors :=
  let c := for_range (fst_ +! r) (lst + 1) (deboor_column kn u deg dim r) c in
  mkCursors (c_points c) (to_int (wrap (idx_l c) +! dim))
    (to_int (wrap (idx_r c) +! dim)) (idx_to c).

Definition ts_bspline_evaluate (bspline : tsBSpline F) (u : F)
  : tsError * tsDeBoorNet F :=
  let n_knots := n_knots bspline in
  let (k1, s) := span_search (Z.to_nat n_knots) (knots bspline) u 0 0 in
  let deg := deg bspline in
  if k1 =? 0 then (TS_U_UNDEFINED, ts_deboornet_default)
  else if (k1 =? n_knots) && (s =? 0)
  then (TS_U_UNDEFINED, ts_deboornet_default)
  else if (s <=? deg) &&
          ((k1 <=? deg) || (k1 >? n_knots -! deg +! s -! 1))
  then (TS_U_UNDEFINED, ts_deboornet_default)
  else
    let k := k1 -! 1 in
    let uk := lget (knots bspline) k in
    let u' := if ts_fequals u uk then uk else u in
    let h := if deg <? s then 0 else deg -! s in
    let order := order bspline in
    let dim := dim bspline in
    let size_ctrlp := size_flt *! dim in
    if s >? order then (TS_MULTIPLICITY, ts_deboornet_default)
    else if s =? order then
      if (k =? deg) || (k =? n_knots -! 1) then
        match malloc size_ctrlp with
        | None => (TS_MALLOC, ts_deboornet_default)
        | Some p =>
          let from := if k =? deg then 0 else (k -! s) *! dim in
          (1, Net.mk u' k s h dim 1
                (memcpy p 0 (ctrlp bspline) from size_ctrlp) 0)
        end
      else
        match malloc (2 *! size_ctrlp) with
        | None => (TS_MALLOC, ts_deboornet_default)
        | Some p =>
          let from := (k -! s) *! dim in
          (2, Net.mk u' k s h dim 2
                (memcpy p 0 (ctrlp bspline) from (2 *! size_ctrlp)) dim)
        end
    else
      let fst_ := k -! deg in
      let lst := k -! s in
      let N := lst -! fst_ +! 1 in
      let n_points := to_size (fmul (of_size (N *! (N +! 1))) Fhalf) in
      match malloc (n_points *! size_ctrlp) with
      | None => (TS_MALLOC, ts_deboornet_default)
      | Some p =>
        let p := memcpy p 0 (ctrlp bspline) (fst_ *! dim) (N *! size_ctrlp) in
        let c := for_range 1 (h + 1) (deboor_row (knots bspline) u' deg dim fst_ lst)
                   (mkCursors p 0 (to_int dim) (to_int (N *! dim))) in
        (0, Net.mk u' k s h dim n_points (c_points c) ((n_points -! 1) *! dim))
      end.

(** ** [ts_bspline_resize] *)
Definition with_ctrlp (b : tsBSpline F) (n : Z) (c : list F) : tsBSpline F :=
  mkBSpline (deg b) (order b) (dim b) n (n_knots b) c (knots b).
Definition with_knots_n (b : tsBSpline F) (n : Z) (kn : list F) : tsBSpline F :=
  mkBSpline (deg b) (order b) (dim b) (n_ctrlp b) n (ctrlp b) kn.
Definition with_buffers (b : tsBSpline F) (c kn : list F) : tsBSpline F :=
  mkBSpline (deg b) (order b) (dim b) (n_ctrlp b) (n_knots b) c kn.

Definition ts_bspline_resize (alias : bool) (bspline : tsBSpline F)
    (n : Z) (back : bool) : tsError * tsBSpline F :=
  if (n =? 0) && negb alias then ts_bspline_copy false bspline
  else if (n =? 0) && alias then (TS_SUCCESS, bspline)
  else
    let cleanup := if alias then bspline else ts_bspline_default in
    let deg := deg bspline in
    let n_ctrlp := n_ctrlp bspline in
    let new_n_ctrlp := n_ctrlp +! n in
    if new_n_ctrlp <=? deg then (TS_DEG_GE_NCTRLP, cleanup)
    else if (n <? 0) && (new_n_ctrlp >? n_ctrlp)
    then (TS_OVER_UNDERFLOW, cleanup)
    else if (n >? 0) && (new_n_ctrlp <? n_ctrlp)
    then (TS_OVER_UNDERFLOW, cleanup)
    else
      let dim := dim bspline in
      let n_knots := n_knots bspline in
      let new_n_knots := n_knots +! n in
      let min_n_ctrlp := if n <? 0 then new_n_ctrlp else n_ctrlp in
      let min_n_knots := if n <? 0 then new_n_knots else n_knots in
      let (err, resized) :=
        if alias then (TS_SUCCESS, bspline)
        else ts_bspline_new deg dim new_n_ctrlp TS_NONE in
      if err <? 0 then (err, resized)
      else
        (* offsets of from_ctrlp, from_knots, to_ctrlp, to_knots *)
        let shrink_front := negb back && (n <? 0) in
        let grow_front := negb back && (n >? 0) in
        let from_c := if shrink_front then - (n * dim) else 0 in
        let from_k := if shrink_front then - n else 0 in
        let to_c := if shrink_front then 0 else if grow_front then n * dim else 0 in
        let to_k := if shrink_front then 0 else if grow_front then n else 0 in
        let size_ctrlp := dim *! size_flt in
        if negb alias then
          (TS_SUCCESS,
           with_buffers resized
             (memcpy (ctrlp resized) to_c (ctrlp bspline) from_c
                (min_n_ctrlp *! size_ctrlp))
             (memcpy (knots resized) to_k (knots bspline) from_k
                (min_n_knots *! size_flt)))
        else
          let resized :=
            if shrink_front then
              with_buffers resized
                (memmove (ctrlp resized) to_c (ctrlp resized) from_c
                   (min_n_ctrlp *! size_ctrlp))
                (memmove (knots resized) to_k (knots resized) from_k
                   (min_n_knots *! size_flt))
            else resized in
          match realloc (ctrlp resized) (new_n_ctrlp *! size_ctrlp) with
          | None => (TS_MALLOC, resized)
          | Some c =>
            let resized := with_ctrlp resized new_n_ctrlp c in
            match realloc (knots resized) (new_n_knots *! size_flt) with
            | None => (TS_MALLOC, resized)
            | Some kn =>
              let resized := with_knots_n resized new_n_knots kn in
              (TS_SUCCESS,
               if grow_front then
                 with_buffers resized
                   (memmove (ctrlp resized) to_c (ctrlp resized) from_c
                      (min_n_ctrlp *! size_ctrlp))
                   (memmove (knots resized) to_k (knots resized) from_k
                      (min_n_knots *! size_flt))
               else resized)
            end
          end.

(** ** [ts_internal_bspline_insert_knot] *)

(** cursors of the loops a) and c): the control points written so far,
    [from] (an offset into the net), [to] and [stride] *)
Record flank : Type := mkFlank {
  fl_ctrlp : list F;
  fl_from : Z;
  fl_to : Z;
  fl_stride : Z
}.

Definition flank_step (points : list F) (dim size_ctrlp : Z) (st : flank)
  : flank :=
  mkFlank (memcpy (fl_ctrlp st) (fl_to st) points (fl_from st) size_ctrlp)
    (fl_from st + fl_stride st)
    (fl_to st + dim)
    (to_int (wrap (fl_stride st) -! dim)).

Definition ts_internal_bspline_insert_knot (alias : bool)
    (bspline : tsBSpline F) (deBoorNet : tsDeBoorNet F) (n : Z)
  : tsError * tsBSpline F :=
  let cleanup (cur : tsBSpline F) := if alias then cur else ts_bspline_default in
  if Net.s deBoorNet +! n >? order bspline
  then (TS_MULTIPLICITY, cleanup bspline)
  else if to_int n <? 0 then (TS_OVER_UNDERFLOW, cleanup bspline)
  else
    let (err, result) := ts_bspline_resize alias bspline (to_int n) true in
    if err <? 0 then (err, result)
    else if n =? 0 then (TS_SUCCESS, result)
    else
      (* the fields of [bspline] as they are now: those of [result] when
         both are the same object *)
      let src := if alias then result else bspline in
      let deg := deg src in
      let dim := dim src in
      let k := Net.k deBoorNet in
      let N := Net.h deBoorNet +! 1 in
      let size_ctrlp := dim *! size_flt in
      let cidx := k -! deg +! N in
      let kidx := k +! 1 in
      (* 1. copy from the original b-spline *)
      let c := memmove (ctrlp result) 0 (ctrlp src) 0 ((k -! deg) *! size_ctrlp) in
      let c := memmove c ((cidx +! n) *! dim)
                 (if alias then c else ctrlp bspline) (cidx *! dim)
                 ((n_ctrlp result -! n -! cidx) *! size_ctrlp) in
      let kn := memmove (knots result) 0 (knots src) 0 ((k +! 1) *! size_flt) in
      let kn := memmove kn (kidx +! n)
                  (if alias then kn else knots bspline) kidx
                  ((n_knots result -! n -! kidx) *! size_flt) in
      let result := with_buffers result c kn in
      (* 2. copy from the de Boor net *)
      let stride := to_int (N *! dim) in
      if stride <? 0 then (TS_OVER_UNDERFLOW, cleanup result)
      else
        let points := Net.points deBoorNet in
        let st :=
          for_range 0 n (fun _ => flank_step points dim size_ctrlp)
            (mkFlank c 0 ((k -! deg) *! dim) stride) in                 (* a) *)
        let c := memcpy (fl_ctrlp st) (fl_to st) points (fl_from st)
                   ((N -! n) *! size_ctrlp) in                          (* b) *)
        let result := with_buffers result c kn in
        let stride := to_int (sz_neg (N -! n +! 1) *! dim) in
        if stride >=? 0 then (TS_OVER_UNDERFLOW, cleanup result)
        else
          let st :=
            for_range 0 n (fun _ => flank_step points dim size_ctrlp)
              (mkFlank c (fl_from st - dim) (fl_to st + (N -! n) *! dim)
                 stride) in                                             (* c) *)
          let kn :=
            for_range 0 n (fun i kn => lset kn (k + 1 + i) (Net.u deBoorNet))
              kn in                                                     (* d) *)
          (TS_SUCCESS, with_buffers result (fl_ctrlp st) kn).

(** ** [ts_bspline_insert_knot]: the error, the result and [*k] *)
Definition ts_bspline_insert_knot (alias : bool) (bspline : tsBSpline F)
    (u : F) (n : Z) : tsError * tsBSpline F * Z :=
  let (ret, net) := ts_bspline_evaluate bspline u in
  if ret >=? 0 then
    let (ret, result) := ts_internal_bspline_insert_knot alias bspline net n in
    (ret, result, if ret >=? 0 then Net.k net +! n else 0)
  else (ret, ts_bspline_default, 0).

(** ** [ts_bspline_split]: the error, the result and [*k] *)
Definition ts_bspline_split (alias : bool) (bspline : tsBSpline F) (u : F)
  : tsError * tsBSpline F * Z :=
  let (ret, net) := ts_bspline_evaluate bspline u in
  if ret >=? 1 then
    let (ret, split) :=
      if negb alias then ts_bspline_copy false bspline else (ret, bspline) in
    (ret, split, if ret >=? 0 then Net.k net else 0)
  else if ret =? 0 then
    let (ret, split) :=
      ts_internal_bspline_insert_knot alias bspline net (Net.h net +! 1) in
    (ret, split, if ret >=? 0 then Net.k net +! Net.h net +! 1 else 0)
  else (ret, if negb alias then ts_bspline_default else bspline, 0).

(** ** [ts_bspline_buckle] *)

(** the assignment to [buckled->ctrlp[i*dim + d]]; [p0] and [pn_1] point
    into the buffer that is written *)
Definition buckle_scalar (b b_hat : F) (dim N i d : Z) (c : list F) : list F :=
  let p0 := 0 in
  let pn_1 := p0 + (N -! 1) *! dim in
  lset c (i *! dim +! d)
    (fadd (fmul b (lget c (i *! dim +! d)))
          (fmul b_hat
             (fadd (lget c (p0 + d))
                   (fmul (fdiv (of_size i) (of_size (N -! 1)))
                         (fsub (lget c (pn_1 + d)) (lget c (p0 + d))))))).

Definition ts_bspline_buckle (alias : bool) (bspline : tsBSpline F) (b : F)
  : tsError * tsBSpline F :=
  let (err, buckled) :=
    if alias then (TS_SUCCESS, bspline) else ts_bspline_copy false bspline in
  if err <? 0 then (err, buckled)
  else
    let b_hat := fsub F1 b in
    let dim := dim buckled in
    let N := n_ctrlp buckled in
    (TS_SUCCESS,
     with_buffers buckled
       (for_range 0 N
          (fun i c => for_range 0 dim (buckle_scalar b b_hat dim N i) c)
          (ctrlp buckled))
       (knots buckled)).

(** ** [ts_bspline_to_beziers] *)

(** the loop [while (k < beziers->n_knots - order)]; [None] when [fuel]
    iterations did not reach its end *)
Fixpoint beziers_loop (fuel : nat) (order : Z) (beziers : tsBSpline F) (k : Z)
  : option (tsError * tsBSpline F) :=
  match fuel with
  | O => None
  | S fuel' =>
    if k <? n_knots beziers -! order then
      let '(err, beziers', k') :=
        ts_bspline_split true beziers (lget (knots beziers) k) in
      if err <? 0 then Some (err, beziers')
      else beziers_loop fuel' order beziers' (k' +! 1)
    else Some (TS_SUCCESS, beziers)
  end.

(** the block "fix first control point if necessary" *)
Definition beziers_fix_first (deg : Z) (beziers : tsBSpline F)
  : tsError * tsBSpline F :=
  let u_min := lget (knots beziers) deg in
  if negb (ts_fequals (lget (knots beziers) 0) u_min) then
    let '(err, beziers', k) := ts_bspline_split true beziers u_min in
    if err <? 0 then (err, beziers')
    else
      let resize := to_int (wrap (-1) *! deg +! (deg *! 2 -! k)) in
      ts_bspline_resize true beziers' resize false
  else (TS_SUCCESS, beziers).

(** the block "fix last control point if necessary" *)
Definition beziers_fix_last (deg order : Z) (beziers : tsBSpline F)
  : tsError * tsBSpline F :=
  let u_max := lget (knots beziers) (n_knots beziers -! order) in
  if negb (ts_fequals (lget (knots beziers) (n_knots beziers -! 1)) u_max) then
    let '(err, beziers', k) := ts_bspline_split true beziers u_max in
    if err <? 0 then (err, beziers')
    else
      let resize :=
        to_int (wrap (-1) *! deg +! (k -! (n_knots beziers' -! order))) in
      ts_bspline_resize true beziers' resize true
  else (TS_SUCCESS, beziers).

Definition ts_bspline_to_beziers (fuel : nat) (alias : bool)
    (bspline : tsBSpline F) : option (tsError * tsBSpline F) :=
  let (err, beziers) :=
    if negb alias then ts_bspline_copy false bspline else (TS_SUCCESS, bspline) in
  if err <? 0 then Some (err, beziers)
  else
    let deg := deg beziers in
    let order := order beziers in
    let (err, beziers) := beziers_fix_first deg beziers in
    if err <? 0 then Some (err, beziers)
    else
      let (err, beziers) := beziers_fix_last deg order beziers in
      if err <? 0 then Some (err, beziers)
      else beziers_loop fuel order beziers order.

(** ** [ts_bspline_equals] *)
Definition ts_bspline_equals (x y : tsBSpline F) : Z :=
  if negb (deg x =? deg y) || negb (order x =? order y) ||
     negb (dim x =? dim y) || negb (n_ctrlp x =? n_ctrlp y) ||
     negb (n_knots x =? n_knots y)
  then 0
  else if negb (forallb (fun i => ts_fequals (lget (ctrlp x) i) (lget (ctrlp y) i))
                  (seqZ 0 (Z.to_nat (n_ctrlp x))))
  then 0
  else if negb (forallb (fun i => ts_fequals (lget (knots x) i) (lget (knots y) i))
                  (seqZ 0 (Z.to_nat (n_knots x))))
  then 0
  else 1.

(** ** Well-formed b-splines *)

(** the invariants of section 3 on the header fields *)
Definition bspline_inv (b : tsBSpline F) : Prop :=
  order b = deg b + 1 /\ n_knots b = n_ctrlp b + order b /\
  n_ctrlp b > deg b /\ dim b >= 1.

(** a b-spline as the library holds it in memory: the header fields are
    [size_t] values that satisfy the invariants, both buffers have the
    sizes the header announces, and each is an object of at most
    [PTRDIFF_MAX] bytes *)
Record bspline_wf (b : tsBSpline F) : Prop := mkWf {
  wf_deg : 0 <= deg b;
  wf_inv : bspline_inv b;
  wf_ctrlp : Z.of_nat (length (ctrlp b)) = n_ctrlp b * dim b;
  wf_knots : Z.of_nat (length (knots b)) = n_knots b;
  wf_ctrlp_size : n_ctrlp b * dim b * size_flt <= PTRDIFF_MAX;
  wf_knots_size : n_knots b * size_flt <= PTRDIFF_MAX
}.

(** the i-th control point and the point a net refers to *)
Definition ctrlp_at (b : tsBSpline F) (i : Z) : list F :=
  map (fun c => lget (ctrlp b) (i * dim b + c)) (seqZ 0 (Z.to_nat (dim b))).
Definition net_result (net : tsDeBoorNet F) : list F :=
  map (fun c => lget (Net.points net) (Net.result net + c))
      (seqZ 0 (Z.to_nat (Net.dim net))).
End Model.

(** ** IEEE-754 single precision *)

Module B32.
Definition prec : Z := 24.
Definition emax : Z := 128.

(** the conversion of an integer, rounded to nearest even *)
Definition of_Z (z : Z) : spec_float := binary_normalize prec emax z 0 false.

(** the conversion to an integer, truncated towards zero *)
Definition to_Z (x : spec_float) : Z :=
  match x with
  | S754_finite s m e =>
    cond_Zopp s (if 0 <=? e then Zpos m * 2 ^ e else Zpos m / 2 ^ (- e))
  | _ => 0
  end.

Definition zero : spec_float := S754_zero false.
Definition one : spec_float := of_Z 1.
Definition half : spec_float := SFdiv prec emax (of_Z 1) (of_Z 2).

(** the decimal constant [n / d], correctly rounded *)
Definition ratio (n d : Z) : spec_float := SFdiv prec emax (of_Z n) (of_Z d).

Definition valid (x : spec_float) : bool := valid_binary prec emax x.
Definition is_zero (x : spec_float) : bool :=
  match x with S754_zero _ => true | _ => false end.
End B32.

(** the order of two values as a comparison of integers *)
Definition rank (x : spec_float) : Z * Z * Z :=
  match x with
  | S754_nan => (0, 0, 0)
  | S754_infinity true => (-2, 0, 0)
  | S754_infinity false => (2, 0, 0)
  | S754_zero _ => (0, 0, 0)
  | S754_finite true m e => (-1, - e, - Zpos m)
  | S754_finite false m e => (1, e, Zpos m)
  end.

Definition rank_lt (p q : Z * Z * Z) : Prop :=
  let '(a1, a2, a3) := p in
  let '(b1, b2, b3) := q in
  a1 < b1 \/ (a1 = b1 /\ (a2 < b2 \/ (a2 = b2 /\ a3 < b3))).

Definition is_nan (x : spec_float) : bool :=
  match x with S754_nan => true | _ => false end.

(** a zero or a finite number: neither NaN nor an infinity *)
Definition is_finite (x : spec_float) : bool :=
  match x with S754_zero _ | S754_finite _ _ _ => true | _ => false end.

#[export] Instance binary32 : FloatOps spec_float := {|
  F0 := B32.zero;
  F1 := B32.one;
  Fhalf := B32.half;
  fadd := SFadd B32.prec B32.emax;
  fsub := SFsub B32.prec B32.emax;
  fmul := SFmul B32.prec B32.emax;
  fdiv := SFdiv B32.prec B32.emax;
  fabs := SFabs;
  fle := SFleb;
  flt := SFltb;
  of_size := B32.of_Z;
  to_size := fun x => wrap (B32.to_Z x);
  FLT_MAX_ABS_ERROR := B32.ratio 1 10000000;
  FLT_MAX_REL_ERROR := B32.ratio 1 100000
|}.

(** ** Definitions that follow the words of the specification *)

Section SpecWords.
Context {F : Type} {ops : FloatOps F}.

(** section 4.2, CLAMPED: the first [order] knots are 0, the last [order]
    knots are 1, the [n_knots - 2 * order] interior knots are
    [j / (n_knots - 2 * deg - 1)] for [j = 1, 2, ...] *)
Definition clamped_knots_spec (deg n_knots : Z) : list F :=
  let order := deg + 1 in
  repeat F0 (Z.to_nat order) ++
  map (fun j => fdiv (of_size j) (of_size (n_knots - 2 * deg - 1)))
      (seqZ 1 (Z.to_nat (n_knots - 2 * order))) ++
  repeat F1 (Z.to_nat order).

(** the header of a b-spline in memory: the invariants of section 3 on
    [size_t] fields, and a knot buffer of at most [PTRDIFF_MAX] bytes *)
Definition header_ok (b : tsBSpline F) : Prop :=
  0 <= deg b /\ bspline_inv b /\ dim b < SIZE_MOD /\
  n_knots b * size_flt <= PTRDIFF_MAX.

(** the largest net of a b-spline can be indexed with [int] cursors, as
    [ts_bspline_evaluate] and [ts_internal_bspline_insert_knot] do *)
Definition net_fits_int (b : tsBSpline F) : Prop :=
  order b * (order b + 1) / 2 * dim b <= INT_MAX.

(** a clamped knot vector: [order] zeros, [order] ones, and interior
    knots above 0 and not above 1 *)
Definition clamped (b : tsBSpline F) : Prop :=
  (forall i, 0 <= i < order b -> lget (knots b) i = F0) /\
  (forall i, n_knots b - order b <= i < n_knots b -> lget (knots b) i = F1) /\
  (forall i, order b <= i < n_knots b - order b ->
     flt F0 (lget (knots b) i) = true /\ flt F1 (lget (knots b) i) = false).

(** no interior knot is tolerantly equal to 0 or to 1 *)
Definition interior_apart (b : tsBSpline F) : Prop :=
  forall i, order b <= i < n_knots b - order b ->
    ts_fequals F0 (lget (knots b) i) = false /\
    ts_fequals F1 (lget (knots b) i) = false.

(** [x == 0] *)
Definition is_zero (x : F) : bool := fle x F0 && fle F0 x.

(** a weakly increasing knot vector *)
Definition knots_sorted (b : tsBSpline F) : Prop :=
  forall i j, 0 <= i <= j -> j < n_knots b ->
    fle (lget (knots b) i) (lget (knots b) j) = true.

(** a value of type [int] *)
Definition in_int (n : Z) : Prop := - INT_MAX - 1 <= n <= INT_MAX.

(** section 4.2, OPENED: [u_i = i / (n_knots - 1)] for [i] in [0, n_knots) *)
Definition opened_knots_spec (n_knots : Z) : list F :=
  map (fun i => fdiv (of_size i) (of_size (n_knots - 1)))
      (seqZ 0 (Z.to_nat n_knots)).

(** section 4.3: a triangular net with [N] points in its row 0 has
    [N (N + 1) / 2] points; its row [r] has [N - r] points and starts at
    the point [row_off N r] *)
Definition tri (N : Z) : Z := N * (N + 1) / 2.
Definition row_off (N r : Z) : Z := r * N - r * (r - 1) / 2.

(** section 4.3, de Boor's recurrence: the coordinate [c] of the point
    [i] of the row [r] is [(1 - a) * left + a * right] with
    [a = (u - u_i) / (u_(i + deg - r + 1) - u_i)], where [left] and
    [right] are the points [i - 1] and [i] of the row [r - 1]; the row 0
    holds the control points *)
Fixpoint deboor_spec (kn ctrl : list F) (u : F) (deg dim : Z) (r : nat)
    (i c : Z) : F :=
  match r with
  | O => lget ctrl (i * dim + c)
  | S r' =>
    let ui := lget kn i in
    let a := fdiv (fsub u ui)
               (fsub (lget kn (i + deg - Z.of_nat r + 1)) ui) in
    fadd (fmul (fsub F1 a) (deboor_spec kn ctrl u deg dim r' (i - 1) c))
         (fmul a (deboor_spec kn ctrl u deg dim r' i c))
  end.

(** the cells of the net of [N] rows below the index [t] hold de Boor's
    points; [fst_] is the index of the first affected control point *)
Definition net_done (kn ctrl : list F) (u : F) (dg d fst_ N : Z)
    (pts : list F) (t : Z) : Prop :=
  forall r j c, 0 <= r < N -> 0 <= j < N - r -> 0 <= c < d ->
    (row_off N r + j) * d + c < t ->
    lget pts ((row_off N r + j) * d + c) =
    deboor_spec kn ctrl u dg d (Z.to_nat r) (fst_ + r + j) c.


(** the point [j] of the row [r] of a net whose row 0 has [N] points *)
Definition net_point (net : tsDeBoorNet F) (N r j : Z) : list F :=
  map (fun t => lget (Net.points net) ((row_off N r + j) * Net.dim net + t))
      (seqZ 0 (Z.to_nat (Net.dim net))).

(** the coordinate [d] of the control point [i] after buckling the
    control points [c] by [b]: the point is moved towards the point at
    [i / (N - 1)] of the line from the first to the last control point;
    for [i > 0] the line starts at the first control point as it is
    after its own buckling *)
Definition buckle_spec (b : F) (dim N : Z) (c : list F) (i d : Z) : F :=
  let b_hat := fsub F1 b in
  let last := lget c ((N - 1) * dim + d) in
  let towards (x p0 : F) (i : Z) :=
    fadd (fmul b x)
         (fmul b_hat
            (fadd p0 (fmul (fdiv (of_size i) (of_size (N - 1))) (fsub last p0)))) in
  let first := towards (lget c d) (lget c d) 0 in
  if i =? 0 then first else towards (lget c (i * dim + d)) first i.
End SpecWords.

(** [N * (N + 1) * 0.5f] as [ts_bspline_evaluate] computes it *)
Definition net_size_ok (N : Z) : bool :=
  to_size (fmul (of_size (N *! (N +! 1))) (Fhalf : spec_float)) =? tri N.

(** ** The laws of the floating point order

    What the safety of the de Boor recursion needs from the arithmetic:
    [<=] and [<] form a total preorder on the values that are not NaN,
    [ts_fequals] does not tell apart two values that compare equal, and
    the difference of two distinct values of the type is not zero (as it
    is with gradual underflow). *)

Class FloatLaws {F : Type} (ops : FloatOps F) : Type := {
  fvalid : F -> Prop;
  flt_fle_trans : forall a b c : F,
    flt a b = true -> fle b c = true -> flt a c = true;
  fle_flt_trans : forall a b c : F,
    fle a b = true -> flt b c = true -> flt a c = true;
  fle_total : forall a b : F,
    fle a a = true -> fle b b = true -> flt a b = false -> fle b a = true;
  flt_ordered : forall a b : F, flt a b = true -> fle a a = true;
  fequals_compat : forall u a b : F,
    fle a b = true -> flt a b = false -> ts_fequals u a = ts_fequals u b;
  fsub_nonzero : forall a b : F,
    fvalid a -> fvalid b -> flt a b = true -> is_zero (fsub b a) = false
}.

(** ** Concrete b-splines in single precision *)

Module Examples.
Definition f32 (n d : Z) : spec_float := B32.ratio n d.

(** the parameter [1.0 + 2 * FLT_MAX_ABS_ERROR] as a [float] *)
Definition u_above_one : spec_float :=
  fadd F1 (fmul (B32.of_Z 2) FLT_MAX_ABS_ERROR).

(** the same parameter computed in double precision and then converted
    to [float], as a C compiler does with a constant of type [double] *)
Definition u_above_one_via_double : spec_float :=
  let of_Z64 z := binary_normalize 53 1024 z 0 false in
  let abs64 := SFdiv 53 1024 (of_Z64 1) (of_Z64 10000000) in
  match SFadd 53 1024 (of_Z64 1) (SFmul 53 1024 (of_Z64 2) abs64) with
  | S754_finite s m e => binary_normalize B32.prec B32.emax (cond_Zopp s (Zpos m)) e false
  | x => x
  end.

(** the line from (0) to (3): degree 1, knots (0, 0, 1, 1) *)
Definition line : tsBSpline spec_float :=
  mkBSpline 1 2 1 2 4 [f32 0 1; f32 3 1] [F0; F0; F1; F1].

(** a clamped b-spline of degree 1 with an interior knot close to 1:
    knots (0, 0, 0.999995, 1, 1) *)
Definition near_one : tsBSpline spec_float :=
  mkBSpline 1 2 1 3 5 [f32 0 1; f32 1 1; f32 2 1]
    [F0; F0; f32 999995 1000000; F1; F1].

(** the cubic Bezier curve of scenario 3 with the control points
    (0), (1), (2), (3) *)
Definition bezier3 : tsBSpline spec_float :=
  mkBSpline 3 4 1 4 8 [f32 0 1; f32 1 1; f32 2 1; f32 3 1]
    [F0; F0; F0; F0; F1; F1; F1; F1].

(** a clamped cubic with 7 control points in the plane *)
Definition cubic7 : tsBSpline spec_float :=
  mkBSpline 3 4 2 7 11
    [f32 0 1; f32 0 1; f32 1 1; f32 2 1; f32 2 1; f32 3 1; f32 3 1; f32 1 1;
     f32 4 1; f32 0 1; f32 5 1; f32 2 1; f32 6 1; f32 0 1]
    [F0; F0; F0; F0; f32 1 4; f32 2 4; f32 3 4; F1; F1; F1; F1].



(** the net of the cubic Bezier curve at 0.5 *)
Definition bezier3_net : tsDeBoorNet spec_float :=
  Eval vm_compute in snd (ts_bspline_evaluate bezier3 B32.half).

(** a clamped Bezier curve of degree 5792 *)
Definition high_degree : tsBSpline spec_float :=
  mkBSpline 5792 5793 1 5793 11586
    (repeat F0 (Z.to_nat 5793))
    (repeat F0 (Z.to_nat 5793) ++ repeat F1 (Z.to_nat 5793)).

(** a b-spline of degree 0 with the single control point (1, 2) *)
Definition single_point : tsBSpline spec_float :=
  mkBSpline 0 1 2 1 2 [f32 1 1; f32 2 1] [F0; F1].

(** [new(0, 1, 2^62 + 1, NONE)]: the sizes of both buffers wrap around *)
Definition wrapped : tsBSpline spec_float :=
  Eval vm_compute in snd (ts_bspline_new 0 1 (2 ^ 62 + 1) TS_NONE).

(** the b-spline of [new(1, 1, 3, TS_OPENED)] with the control points
    (0), (1), (2): knots (0, 1/4, 2/4, 3/4, 1) *)
Definition opened3 : tsBSpline spec_float :=
  mkBSpline 1 2 1 3 5 [f32 0 1; f32 1 1; f32 2 1]
    [F0; f32 1 4; f32 2 4; f32 3 4; F1].
End Examples.

(** * Properties *)

(** ** Machine integers *)

Lemma SIZE_MOD_eq : SIZE_MOD = 18446744073709551616.
Proof. reflexivity. Qed.
Lemma PTRDIFF_MAX_eq : PTRDIFF_MAX = 9223372036854775807.
Proof. reflexivity. Qed.
Lemma INT_MOD_eq : INT_MOD = 4294967296.
Proof. reflexivity. Qed.
Lemma INT_MAX_eq : INT_MAX = 2147483647.
Proof. reflexivity. Qed.

Lemma wrap_small (z : Z) : 0 <= z < SIZE_MOD -> wrap z = z.
Proof. intros H. unfold wrap. apply Z.mod_small. exact H. Qed.

Lemma to_int_small (z : Z) : 0 <= z <= INT_MAX -> to_int z = z.
Proof.
  intros H. unfold to_int. rewrite INT_MAX_eq in *.
  rewrite Z.mod_small by (rewrite INT_MOD_eq; lia).
  destruct (z <=? 2147483647) eqn:E; [reflexivity | lia].
Qed.

Lemma to_int_range (z : Z) : - INT_MAX - 1 <= to_int z <= INT_MAX.
Proof.
  unfold to_int. pose proof (Z.mod_pos_bound z INT_MOD eq_refl) as H.
  rewrite INT_MAX_eq, INT_MOD_eq in *.
  destruct (z mod 4294967296 <=? 2147483647) eqn:E; lia.
Qed.

(** linear arithmetic with the machine constants unfolded *)
Ltac zlia :=
  unfold in_size in *;
  rewrite ?SIZE_MOD_eq, ?PTRDIFF_MAX_eq, ?INT_MOD_eq, ?INT_MAX_eq in *;
  unfold size_flt in *; lia.

(** rewrites the wrap-around away where the operands are known to fit *)
Ltac unwrap :=
  unfold sz_add, sz_sub, sz_mul, sz_neg in *;
  repeat match goal with
         | |- context [wrap ?z] => rewrite (wrap_small z) by zlia
         | H : context [wrap ?z] |- _ => rewrite (wrap_small z) in H by zlia
         end.

(** projections of explicit records *)
Ltac fields :=
  cbn [deg order dim n_ctrlp n_knots ctrlp knots fst snd
       with_buffers with_ctrlp with_knots_n with_knots
       Net.u Net.k Net.s Net.h Net.dim Net.n_points Net.points Net.result] in *.

(** decides a property of the indices of a short range one by one *)
Ltac each_index i :=
  repeat match goal with
         | H : ?lo <= i < ?hi |- _ =>
           first
             [ exfalso; lia
             | destruct (Z.eq_dec i lo) as [->|];
               [ clear H | assert (lo + 1 <= i < hi) by lia; clear H ] ]
         end.

(** ** Loops *)

Lemma for_range_done {S : Type} (lo hi : Z) (body : Z -> S -> S) (st : S) :
  hi <= lo -> for_range lo hi body st = st.
Proof.
  intros H. unfold for_range.
  replace (Z.to_nat (hi - lo)) with O by lia. reflexivity.
Qed.

Lemma for_range_step {S : Type} (lo hi : Z) (body : Z -> S -> S) (st : S) :
  lo < hi -> for_range lo hi body st = for_range (lo + 1) hi body (body lo st).
Proof.
  intros H. unfold for_range.
  replace (Z.to_nat (hi - lo)) with (Datatypes.S (Z.to_nat (hi - (lo + 1)))) by lia.
  reflexivity.
Qed.

(** a loop invariant: [P i st] holds before the iteration [i] *)
Lemma for_range_inv {S : Type} (P : Z -> S -> Prop) (lo hi : Z)
    (body : Z -> S -> S) (st : S) :
  lo <= hi -> P lo st ->
  (forall i st, lo <= i < hi -> P i st -> P (i + 1) (body i st)) ->
  P hi (for_range lo hi body st).
Proof.
  intros Hle H0 Hstep.
  remember (Z.to_nat (hi - lo)) as n eqn:En.
  revert lo st Hle H0 Hstep En.
  induction n as [|n IH]; intros lo st Hle H0 Hstep En.
  - assert (lo = hi) by lia. subst lo. rewrite for_range_done by lia. exact H0.
  - rewrite for_range_step by lia. apply IH; try lia.
    + apply Hstep; [lia | exact H0].
    + intros i st' Hi. apply Hstep. lia.
Qed.

Lemma length_seqZ (lo : Z) (n : nat) : length (seqZ lo n) = n.
Proof. revert lo. induction n as [|n IH]; intros lo; simpl; [|rewrite IH]; reflexivity. Qed.

Lemma in_seqZ (lo : Z) (n : nat) (i : Z) :
  In i (seqZ lo n) <-> lo <= i < lo + Z.of_nat n.
Proof.
  revert lo. induction n as [|n IH]; intros lo; simpl.
  - lia.
  - rewrite IH. lia.
Qed.

Lemma nth_seqZ (lo : Z) (n j : nat) (d : Z) :
  (j < n)%nat -> nth j (seqZ lo n) d = lo + Z.of_nat j.
Proof.
  revert lo j. induction n as [|n IH]; intros lo j Hj; [lia|].
  destruct j as [|j]; simpl.
  - lia.
  - rewrite IH by lia. lia.
Qed.

(** ** Buffers *)

Lemma length_upd {A : Type} (l : list A) (n : nat) (v : A) :
  length (upd l n v) = length l.
Proof.
  revert n. induction l as [|x l IH]; intros n; simpl; [reflexivity|].
  destruct n; simpl; [|rewrite IH]; reflexivity.
Qed.

Lemma nth_upd {A : Type} (l : list A) (n j : nat) (v d : A) :
  nth j (upd l n v) d =
  if (Nat.eqb j n && Nat.ltb n (length l))%bool then v else nth j l d.
Proof.
  revert n j. induction l as [|x l IH]; intros n j; simpl.
  - rewrite andb_false_r. reflexivity.
  - destruct n as [|n]; destruct j as [|j]; simpl; try reflexivity.
    rewrite IH. reflexivity.
Qed.

Lemma length_resize_list {A : Type} (d : A) (l : list A) (n : nat) :
  length (resize_list d l n) = n.
Proof.
  revert l. induction n as [|n IH]; intros l; simpl; [reflexivity|].
  destruct l; simpl; rewrite IH; reflexivity.
Qed.

Lemma nth_resize_list {A : Type} (d : A) (l : list A) (n j : nat) :
  (j < n)%nat -> nth j (resize_list d l n) d = nth j l d.
Proof.
  revert l j. induction n as [|n IH]; intros l j Hj; [lia|].
  destruct l as [|x l]; destruct j as [|j]; simpl; try reflexivity.
  - rewrite IH by lia. destruct j; reflexivity.
  - apply IH. lia.
Qed.

Section Buffers.
Context {F : Type} {ops : FloatOps F}.

Lemma length_lset (l : list F) (i : Z) (v : F) : length (lset l i v) = length l.
Proof. unfold lset. destruct (i <? 0); [reflexivity | apply length_upd]. Qed.

Lemma lget_lset (l : list F) (i j : Z) (v : F) :
  lget (lset l i v) j =
  if (j =? i) && (0 <=? i) && (i <? Z.of_nat (length l)) then v else lget l j.
Proof.
  unfold lget, lset.
  destruct (i <? 0) eqn:Ei.
  - replace (0 <=? i) with false by lia. rewrite andb_false_r. reflexivity.
  - replace (0 <=? i) with true by lia. rewrite andb_true_r.
    destruct (j <? 0) eqn:Ej.
    + replace (j =? i) with false by lia. reflexivity.
    + rewrite nth_upd.
      replace (Nat.eqb (Z.to_nat j) (Z.to_nat i)) with (j =? i)
        by (destruct (j =? i) eqn:E;
            [symmetry; apply Nat.eqb_eq; lia | symmetry; apply Nat.eqb_neq; lia]).
      replace (Nat.ltb (Z.to_nat i) (length l)) with (i <? Z.of_nat (length l))
        by (destruct (i <? Z.of_nat (length l)) eqn:E;
            [symmetry; apply Nat.ltb_lt; lia | symmetry; apply Nat.ltb_ge; lia]).
      reflexivity.
Qed.

Lemma list_ext (l1 l2 : list F) :
  length l1 = length l2 ->
  (forall j, 0 <= j < Z.of_nat (length l1) -> lget l1 j = lget l2 j) ->
  l1 = l2.
Proof.
  intros Hlen H. apply (nth_ext l1 l2 F0 F0 Hlen).
  intros n Hn. specialize (H (Z.of_nat n)). unfold lget in H.
  replace (Z.of_nat n <? 0) with false in H by lia.
  rewrite Nat2Z.id in H. apply H. lia.
Qed.

Lemma lget_app (l1 l2 : list F) (j : Z) :
  0 <= j ->
  lget (l1 ++ l2) j =
  if j <? Z.of_nat (length l1) then lget l1 j else lget l2 (j - Z.of_nat (length l1)).
Proof.
  intros Hj. unfold lget.
  replace (j <? 0) with false by lia.
  destruct (j <? Z.of_nat (length l1)) eqn:E.
  - apply app_nth1. lia.
  - replace (j - Z.of_nat (length l1) <? 0) with false by lia.
    rewrite app_nth2 by lia. f_equal. lia.
Qed.

Lemma lget_repeat (v : F) (n : nat) (j : Z) :
  0 <= j < Z.of_nat n -> lget (repeat v n) j = v.
Proof.
  intros Hj. unfold lget. replace (j <? 0) with false by lia.
  apply nth_repeat_lt. lia.
Qed.

Lemma lget_map_seqZ (f : Z -> F) (lo : Z) (n : nat) (j : Z) :
  0 <= j < Z.of_nat n -> lget (map f (seqZ lo n)) j = f (lo + j).
Proof.
  intros Hj. unfold lget. replace (j <? 0) with false by lia.
  rewrite (nth_indep _ F0 (f 0)) by (rewrite length_map, length_seqZ; lia).
  rewrite map_nth, nth_seqZ by lia. f_equal. lia.
Qed.

Lemma length_memmove (dst : list F) (doff : Z) (src : list F) (soff bytes : Z) :
  length (memmove dst doff src soff bytes) = length dst.
Proof.
  unfold memmove. rewrite length_map, length_combine, length_seqZ. lia.
Qed.

Lemma nth_memmove_aux (f : Z * F -> F) (a : Z) (l : list F) (j : nat) :
  (j < length l)%nat ->
  nth j (map f (combine (seqZ a (length l)) l)) F0 = f (a + Z.of_nat j, nth j l F0).
Proof.
  revert a j. induction l as [|x l IH]; intros a j Hj; simpl in *; [lia|].
  destruct j as [|j].
  - replace (a + Z.of_nat 0) with a by lia. reflexivity.
  - rewrite IH by lia. do 2 f_equal. lia.
Qed.

Lemma lget_memmove (dst : list F) (doff : Z) (src : list F) (soff bytes j : Z) :
  0 <= j < Z.of_nat (length dst) ->
  lget (memmove dst doff src soff bytes) j =
  if (doff <=? j) && (j <? doff + bytes / size_flt)
  then lget src (soff + (j - doff)) else lget dst j.
Proof.
  intros Hj. unfold memmove, lget at 1.
  replace (j <? 0) with false by lia.
  rewrite nth_memmove_aux by lia.
  rewrite Z2Nat.id by lia. simpl.
  destruct ((doff <=? j) && (j <? doff + bytes / size_flt)); [reflexivity|].
  unfold lget. replace (j <? 0) with false by lia. reflexivity.
Qed.

Lemma malloc_ok (bytes : Z) :
  bytes <= PTRDIFF_MAX ->
  malloc bytes = Some (repeat F0 (Z.to_nat (bytes / size_flt))).
Proof. intros H. unfold malloc. destruct (bytes <=? PTRDIFF_MAX) eqn:E; [reflexivity|lia]. Qed.

Lemma malloc_Some (bytes : Z) (p : list F) :
  malloc bytes = Some p ->
  bytes <= PTRDIFF_MAX /\ p = repeat F0 (Z.to_nat (bytes / size_flt)).
Proof.
  unfold malloc. destruct (bytes <=? PTRDIFF_MAX) eqn:E; [|discriminate].
  intros H. inversion H. split; [lia | reflexivity].
Qed.

Lemma realloc_Some (p q : list F) (bytes : Z) :
  realloc p bytes = Some q ->
  bytes <= PTRDIFF_MAX /\ q = resize_list F0 p (Z.to_nat (bytes / size_flt)).
Proof.
  unfold realloc. destruct (bytes <=? PTRDIFF_MAX) eqn:E; [|discriminate].
  intros H. inversion H. split; [lia | reflexivity].
Qed.
End Buffers.

(** ** Knot setup *)

Section KnotSetup.
Context {F : Type} {ops : FloatOps F}.

Lemma fill_const_spec (lo hi : Z) (v : F) (l : list F) :
  length (fill_const lo hi v l) = length l /\
  forall j,
    lget (fill_const lo hi v l) j =
    if (lo <=? j) && (j <? hi) && (0 <=? j) && (j <? Z.of_nat (length l))
    then v else lget l j.
Proof.
  unfold fill_const.
  destruct (Z.le_gt_cases lo hi) as [Hle|Hgt].
  - apply (for_range_inv
             (fun i st => length st = length l /\
                forall j, lget st j =
                  if (lo <=? j) && (j <? i) && (0 <=? j) && (j <? Z.of_nat (length l))
                  then v else lget l j)); [exact Hle | |].
    + split; [reflexivity|]. intros j.
      replace ((lo <=? j) && (j <? lo)) with false by lia. reflexivity.
    + intros i st Hi [Hlen Hget]. split; [rewrite length_lset; exact Hlen|].
      intros j. rewrite lget_lset, Hget, Hlen.
      destruct (j =? i) eqn:Eji.
      * assert (j = i) by lia. subst j.
        replace (lo <=? i) with true by lia.
        replace (i <? i + 1) with true by lia.
        replace (i <? i) with false by lia. simpl.
        destruct (0 <=? i); destruct (i <? Z.of_nat (length l)); reflexivity.
      * simpl. replace (j <? i + 1) with (j <? i) by lia. reflexivity.
  - rewrite for_range_done by lia. split; [reflexivity|]. intros j.
    replace ((lo <=? j) && (j <? hi)) with false by lia. reflexivity.
Qed.

Lemma fill_uniform_spec (lo hi num d : Z) (l : list F) :
  0 <= num -> num + (hi - lo) < SIZE_MOD ->
  length (fst (fill_uniform lo hi num d l)) = length l /\
  forall j,
    lget (fst (fill_uniform lo hi num d l)) j =
    if (lo <=? j) && (j <? hi) && (0 <=? j) && (j <? Z.of_nat (length l))
    then fdiv (of_size (num + (j - lo))) (of_size d) else lget l j.
Proof.
  intros Hnum Hfit. unfold fill_uniform.
  destruct (Z.le_gt_cases lo hi) as [Hle|Hgt].
  - pose (P := fun (i : Z) (st : list F * Z) =>
                 snd st = num + (i - lo) /\ length (fst st) = length l /\
                 forall j, lget (fst st) j =
                   if (lo <=? j) && (j <? i) && (0 <=? j) && (j <? Z.of_nat (length l))
                   then fdiv (of_size (num + (j - lo))) (of_size d) else lget l j).
    match goal with
    | |- context [for_range lo hi ?body ?st] =>
      assert (H : P hi (for_range lo hi body st))
    end.
    { apply for_range_inv; [exact Hle | |].
      - unfold P. simpl. split; [lia|]. split; [reflexivity|]. intros j.
        replace ((lo <=? j) && (j <? lo)) with false by lia. reflexivity.
      - intros i [kn numerator] Hi (Hn & Hlen & Hget). unfold P in *. simpl in *.
        subst numerator. split; [unwrap; lia|].
        split; [rewrite length_lset; exact Hlen|].
        intros j. rewrite lget_lset, Hget, Hlen.
        destruct (j =? i) eqn:Eji.
        + assert (j = i) by lia. subst j.
          replace (lo <=? i) with true by lia.
          replace (i <? i + 1) with true by lia.
          replace (i <? i) with false by lia. simpl.
          destruct (0 <=? i); destruct (i <? Z.of_nat (length l)); reflexivity.
        + simpl. replace (j <? i + 1) with (j <? i) by lia. reflexivity. }
    destruct H as (_ & Hlen & Hget). split; [exact Hlen | exact Hget].
  - rewrite for_range_done by lia. simpl. split; [reflexivity|]. intros j.
    replace ((lo <=? j) && (j <? hi)) with false by lia. reflexivity.
Qed.

(** the three loops of the clamped setup, on a buffer of [n_knots] cells *)
Lemma clamped_fill (deg n_ctrlp : Z) (kn0 : list F) :
  0 <= deg < n_ctrlp -> n_ctrlp + deg + 1 < SIZE_MOD ->
  Z.of_nat (length kn0) = n_ctrlp + deg + 1 ->
  let order := deg + 1 in
  let n_knots := n_ctrlp + order in
  let end_ := n_knots -! order in
  let kn := fill_const 0 order F0 kn0 in
  let current := loop_exit 0 order in
  let kn := fst (fill_uniform current end_ 1 (clamped_dominator n_knots deg) kn) in
  let current := loop_exit current end_ in
  fill_const current n_knots F1 kn = clamped_knots_spec deg n_knots.
Proof.
  intros Hdeg Hfit Hlen order n_knots end_. cbv zeta.
  assert (Hend : end_ = n_ctrlp) by (subst end_ n_knots order; unwrap; lia).
  assert (Hdom : clamped_dominator n_knots deg = n_knots - 2 * deg - 1)
    by (unfold clamped_dominator; subst n_knots order; unwrap; lia).
  rewrite Hend, Hdom. unfold loop_exit.
  replace (Z.max 0 order) with order by lia.
  replace (Z.max order n_ctrlp) with n_ctrlp by lia.
  clear Hend Hdom end_.
  assert (Ho : order = deg + 1) by reflexivity.
  assert (Hk : n_knots = n_ctrlp + deg + 1) by (subst n_knots order; lia).
  clearbody order n_knots.
  destruct (fill_const_spec 0 order F0 kn0) as [L1 G1].
  destruct (fill_uniform_spec order n_ctrlp 1 (n_knots - 2 * deg - 1)
              (fill_const 0 order F0 kn0)) as [L2 G2]; [lia | lia |].
  destruct (fill_const_spec n_ctrlp n_knots F1
              (fst (fill_uniform order n_ctrlp 1 (n_knots - 2 * deg - 1)
                      (fill_const 0 order F0 kn0)))) as [L3 G3].
  apply list_ext.
  - rewrite L3, L2, L1. unfold clamped_knots_spec.
    rewrite !length_app, !repeat_length, length_map, length_seqZ. lia.
  - intros j Hj. rewrite L3, L2, L1 in Hj.
    rewrite G3, L2, L1, G2, L1, G1.
    unfold clamped_knots_spec. rewrite <- Ho.
    rewrite lget_app by lia. rewrite repeat_length.
    destruct (j <? Z.of_nat (Z.to_nat order)) eqn:E1;
      [apply Z.ltb_lt in E1 | apply Z.ltb_ge in E1].
    + rewrite lget_repeat by lia.
      replace (n_ctrlp <=? j) with false by lia.
      replace (order <=? j) with false by lia. simpl.
      replace (j <? order) with true by lia.
      replace (0 <=? j) with true by lia.
      replace (j <? Z.of_nat (length kn0)) with true by lia. reflexivity.
    + rewrite lget_app by lia. rewrite length_map, length_seqZ.
      destruct (j - Z.of_nat (Z.to_nat order) <? Z.of_nat (Z.to_nat (n_knots - 2 * order)))
        eqn:E2; [apply Z.ltb_lt in E2 | apply Z.ltb_ge in E2].
      * rewrite lget_map_seqZ by lia.
        replace (n_ctrlp <=? j) with false by lia.
        replace (order <=? j) with true by lia.
        replace (j <? n_ctrlp) with true by lia.
        replace (0 <=? j) with true by lia.
        replace (j <? Z.of_nat (length kn0)) with true by lia. cbn [andb].
        do 2 f_equal. lia.
      * rewrite lget_repeat by lia.
        replace (n_ctrlp <=? j) with true by lia.
        replace (j <? n_knots) with true by lia.
        replace (0 <=? j) with true by lia.
        replace (j <? Z.of_nat (length kn0)) with true by lia. reflexivity.
Qed.

Lemma ts_bspline_new_header (p d m : Z) (type : tsBSplineType)
    (b : tsBSpline F) :
  in_size p -> in_size d -> in_size m ->
  ts_bspline_new p d m type = (TS_SUCCESS, b) ->
  1 <= d /\ p < m /\ m + p + 1 < SIZE_MOD /\
  m *! d *! size_flt <= PTRDIFF_MAX /\
  (m + p + 1) *! size_flt <= PTRDIFF_MAX /\
  deg b = p /\ order b = p + 1 /\ dim b = d /\
  n_ctrlp b = m /\ n_knots b = m + p + 1.
Proof.
  unfold in_size. intros Hdeg Hdim Hn. unfold ts_bspline_new.
  destruct (d <? 1) eqn:E1; [discriminate|].
  destruct (p >=? m) eqn:E2; [discriminate|].
  destruct (p +! 1 <? p) eqn:E3; [discriminate|].
  destruct (m +! (p +! 1) <? m) eqn:E4; [discriminate|].
  assert (Ho : p +! 1 = p + 1).
  { unfold sz_add, wrap in *. rewrite SIZE_MOD_eq in *.
    destruct (Z.eq_dec p 18446744073709551615) as [->|Hne];
      [vm_compute in E3; discriminate | apply Z.mod_small; lia]. }
  rewrite Ho in *.
  assert (Hk : m + p + 1 < SIZE_MOD).
  { unfold sz_add, wrap in E4. rewrite SIZE_MOD_eq in *.
    destruct (Z_lt_ge_dec (m + (p + 1)) 18446744073709551616) as [Hlt|Hge];
      [lia|].
    replace (m + (p + 1)) with
      ((m + p + 1 - 18446744073709551616) + 1 * 18446744073709551616) in E4 by lia.
    rewrite Z.mod_add in E4 by lia. rewrite Z.mod_small in E4 by lia. lia. }
  assert (Hnk : m +! (p + 1) = m + p + 1) by (unwrap; lia).
  rewrite Hnk.
  destruct (malloc (m *! d *! size_flt)) as [c|] eqn:M1; [|discriminate].
  destruct (malloc ((m + p + 1) *! size_flt)) as [kn|] eqn:M2; [|discriminate].
  apply malloc_Some in M1. apply malloc_Some in M2.
  intros H. inversion H as [Hb]. clear H.
  unfold ts_bspline_setup_knots. simpl.
  repeat split; try lia; try tauto; destruct type; reflexivity.
Qed.

Lemma ts_bspline_new_clamped (p d m : Z) :
  0 <= p -> d >= 1 -> m > p ->
  m * d * size_flt <= PTRDIFF_MAX ->
  (m + p + 1) * size_flt <= PTRDIFF_MAX ->
  ts_bspline_new p d m TS_CLAMPED =
  (TS_SUCCESS,
   mkBSpline p (p + 1) d m (m + p + 1)
     (repeat F0 (Z.to_nat (m * d)))
     (clamped_knots_spec p (m + p + 1))).
Proof.
  intros Hdeg Hdim Hn Hc Hk. unfold ts_bspline_new.
  assert (Hcd : 0 <= m * d) by nia.
  assert (Hcd' : m <= m * d) by nia.
  replace (d <? 1) with false by lia.
  replace (p >=? m) with false by lia.
  assert (Ho : p +! 1 = p + 1) by (unwrap; lia). rewrite Ho.
  replace (p + 1 <? p) with false by lia.
  assert (Hnk : m +! (p + 1) = m + p + 1) by (unwrap; zlia).
  rewrite Hnk.
  replace (m + p + 1 <? m) with false by lia.
  assert (H1 : m *! d *! size_flt = m * d * size_flt)
    by (unwrap; zlia).
  assert (H2 : (m + p + 1) *! size_flt = (m + p + 1) * size_flt)
    by (unwrap; zlia).
  rewrite H1, H2, !malloc_ok by assumption.
  unfold size_flt. rewrite !Z.div_mul by lia.
  unfold ts_bspline_setup_knots, with_knots. cbn [fst snd deg order dim n_ctrlp n_knots ctrlp knots].
  replace (TS_SUCCESS <? 0) with false by reflexivity.
  cbn [snd]. do 2 f_equal.
  pose proof (clamped_fill p m (repeat F0 (Z.to_nat (m + p + 1)))) as H.
  cbv zeta in H. replace (m + (p + 1)) with (m + p + 1) in H by lia.
  apply H; [lia | zlia | rewrite repeat_length; lia].
Qed.

(** C7.  For every [deg >= 0], [dim >= 1] and [n_ctrlp > deg] whose buffer
    sizes do not overflow, [new(deg, dim, n_ctrlp, CLAMPED)] succeeds and
    its knot vector is the one of section 4.2: [order] zeros, the interior
    knots [j / (n_knots - 2 * deg - 1)] for [j = 1, 2, ...] and [order]
    ones; [new(3, 1, 7, CLAMPED)] has the knots
    (0, 0, 0, 0, 1/4, 2/4, 3/4, 1, 1, 1, 1). *)
Theorem clamped_knot_setup (p d m : Z) :
  0 <= p -> d >= 1 -> m > p ->
  m * d * size_flt <= PTRDIFF_MAX ->
  (m + p + 1) * size_flt <= PTRDIFF_MAX ->
  (exists b : tsBSpline F,
      ts_bspline_new p d m TS_CLAMPED = (TS_SUCCESS, b) /\
      n_knots b = m + p + 1 /\
      knots b = clamped_knots_spec p (n_knots b)) /\
  knots (snd (ts_bspline_new 3 1 7 TS_CLAMPED)) =
  [F0; F0; F0; F0;
   fdiv (of_size 1) (of_size 4); fdiv (of_size 2) (of_size 4);
   fdiv (of_size 3) (of_size 4);
   F1; F1; F1; F1].
Proof.
  intros Hdeg Hdim Hn Hc Hk. split.
  - eexists. split; [apply ts_bspline_new_clamped; assumption|].
    split; reflexivity.
  - reflexivity.
Qed.

(** C10.  For every input that [new] accepts, the clamped setup divides
    by [n_knots - 2 * deg - 1 = n_ctrlp - deg >= 1]; [n_knots >= 2 * order]
    holds, and with [n_ctrlp = order] the interior loop does not run: it
    leaves the knots and the numerator as they are, whatever the
    dominator. *)
Theorem clamped_setup_divides_by_positive (p d m : Z)
    (b : tsBSpline F) :
  in_size p -> in_size d -> in_size m ->
  ts_bspline_new p d m TS_CLAMPED = (TS_SUCCESS, b) ->
  n_knots b >= 2 * order b /\
  clamped_dominator (n_knots b) (deg b) = n_knots b - 2 * p - 1 /\
  clamped_dominator (n_knots b) (deg b) = m - p /\
  clamped_dominator (n_knots b) (deg b) >= 1 /\
  Z.to_nat ((n_knots b -! order b) - loop_exit 0 (order b)) =
    Z.to_nat (m - order b) /\
  (m = order b ->
   forall kn numerator dominator,
     fill_uniform (loop_exit 0 (order b)) (n_knots b -! order b)
       numerator dominator kn = (kn, numerator)).
Proof.
  intros Hdeg Hdim Hn Hnew.
  destruct (ts_bspline_new_header _ _ _ _ _ Hdeg Hdim Hn Hnew)
    as (H1 & H2 & H3 & _ & _ & Hd & Ho & _ & Hc & Hk).
  rewrite Hd, Ho, Hk. unfold clamped_dominator, loop_exit, in_size in *.
  assert (E : m + p + 1 -! (p + 1) = m) by (unwrap; lia).
  rewrite E.
  replace (m + p + 1 -! 2 *! p -! 1) with (m - p)
    by (unwrap; lia).
  repeat split; try lia.
  intros Heq kn numerator dominator. unfold fill_uniform.
  apply for_range_done. lia.
Qed.
End KnotSetup.

(** ** Equality of b-splines *)

Section Equals.
Context {F : Type} {ops : FloatOps F}.

Lemma forallb_seqZ (f : Z -> bool) (n : Z) :
  forallb f (seqZ 0 (Z.to_nat n)) = true <-> (forall i, 0 <= i < n -> f i = true).
Proof.
  rewrite forallb_forall. split.
  - intros H i Hi. apply H. apply in_seqZ. lia.
  - intros H i Hi. apply in_seqZ in Hi. apply H. lia.
Qed.

(** C9.  [ts_bspline_equals(x, y)] returns 1 exactly when the five header
    fields agree, the first [n_ctrlp] scalars of the two control point
    buffers are pairwise [ts_fequals] and all [n_knots] knots are pairwise
    [ts_fequals].  Hence a b-spline and a b-spline that differs from it
    only in control point scalars from index [n_ctrlp] on are reported
    equal (with [dim >= 2] these are scalars of the control points). *)
Theorem ts_bspline_equals_first_scalars (x y : tsBSpline F) :
  (ts_bspline_equals x y = 1 <->
   deg x = deg y /\ order x = order y /\ dim x = dim y /\
   n_ctrlp x = n_ctrlp y /\ n_knots x = n_knots y /\
   (forall i, 0 <= i < n_ctrlp x ->
      ts_fequals (lget (ctrlp x) i) (lget (ctrlp y) i) = true) /\
   (forall i, 0 <= i < n_knots x ->
      ts_fequals (lget (knots x) i) (lget (knots y) i) = true)) /\
  (forall c' : list F,
      (forall i, 0 <= i < n_ctrlp x ->
         ts_fequals (lget (ctrlp x) i) (lget c' i) = true) ->
      (forall i, 0 <= i < n_knots x ->
         ts_fequals (lget (knots x) i) (lget (knots x) i) = true) ->
      ts_bspline_equals x (with_buffers x c' (knots x)) = 1).
Proof.
  assert (Hiff : forall y0 : tsBSpline F,
    ts_bspline_equals x y0 = 1 <->
    deg x = deg y0 /\ order x = order y0 /\ dim x = dim y0 /\
    n_ctrlp x = n_ctrlp y0 /\ n_knots x = n_knots y0 /\
    (forall i, 0 <= i < n_ctrlp x ->
       ts_fequals (lget (ctrlp x) i) (lget (ctrlp y0) i) = true) /\
    (forall i, 0 <= i < n_knots x ->
       ts_fequals (lget (knots x) i) (lget (knots y0) i) = true)).
  { intros y0. unfold ts_bspline_equals.
    destruct (deg x =? deg y0) eqn:E1; cbn [negb orb];
      [|split; [discriminate | intros (H & _); lia]].
    destruct (order x =? order y0) eqn:E2; cbn [negb orb];
      [|split; [discriminate | intros (_ & H & _); lia]].
    destruct (dim x =? dim y0) eqn:E3; cbn [negb orb];
      [|split; [discriminate | intros (_ & _ & H & _); lia]].
    destruct (n_ctrlp x =? n_ctrlp y0) eqn:E4; cbn [negb orb];
      [|split; [discriminate | intros (_ & _ & _ & H & _); lia]].
    destruct (n_knots x =? n_knots y0) eqn:E5; cbn [negb orb];
      [|split; [discriminate | intros (_ & _ & _ & _ & H & _); lia]].
    destruct (forallb _ (seqZ 0 (Z.to_nat (n_ctrlp x)))) eqn:E6; cbn [negb].
    - destruct (forallb _ (seqZ 0 (Z.to_nat (n_knots x)))) eqn:E7; cbn [negb].
      + split; [intros _ | reflexivity].
        rewrite forallb_seqZ in E6, E7. repeat split; try lia; assumption.
      + split; [discriminate|]. intros (_ & _ & _ & _ & _ & _ & H).
        apply forallb_seqZ in H. congruence.
    - split; [discriminate|]. intros (_ & _ & _ & _ & _ & H & _).
      apply forallb_seqZ in H. congruence. }
  split; [apply Hiff|].
  intros c' Hc Hk. apply Hiff. unfold with_buffers. cbn.
  repeat split; assumption.
Qed.
End Equals.

(** ** Evaluation: span search and domain check *)

Section Evaluate.
Context {F : Type} {ops : FloatOps F}.

Lemma span_search_range (todo : nat) (kn : list F) (u : F) (k s k' s' : Z) :
  span_search todo kn u k s = (k', s') ->
  k <= k' <= k + Z.of_nat todo /\ s <= s' <= s + (k' - k).
Proof.
  revert k s. induction todo as [|todo IH]; intros k s H; simpl in H.
  - inversion H. lia.
  - destruct (ts_fequals u (lget kn k)).
    + apply IH in H. lia.
    + destruct (flt u (lget kn k)).
      * inversion H. lia.
      * apply IH in H. lia.
Qed.

(** what [ts_bspline_evaluate] returns once the span search gave [k1] and
    [s]: the domain error, or one of the other outcomes *)
Lemma evaluate_domain (b : tsBSpline F) (u : F) (k1 s : Z) :
  span_search (Z.to_nat (n_knots b)) (knots b) u 0 0 = (k1, s) ->
  if (k1 =? 0) || ((k1 =? n_knots b) && (s =? 0)) ||
     ((s <=? deg b) && ((k1 <=? deg b) || (k1 >? n_knots b -! deg b +! s -! 1)))
  then ts_bspline_evaluate b u = (TS_U_UNDEFINED, ts_deboornet_default)
  else fst (ts_bspline_evaluate b u) <> TS_U_UNDEFINED.
Proof.
  intros Hs. unfold ts_bspline_evaluate. rewrite Hs.
  destruct (k1 =? 0); cbn [orb]; [reflexivity|].
  destruct ((k1 =? n_knots b) && (s =? 0)); cbn [orb]; [reflexivity|].
  destruct ((s <=? deg b) && ((k1 <=? deg b) || (k1 >? n_knots b -! deg b +! s -! 1)));
    [reflexivity|].
  destruct (s >? order b); [cbn; discriminate|].
  destruct (s =? order b).
  - destruct ((k1 -! 1 =? deg b) || (k1 -! 1 =? n_knots b -! 1)).
    + destruct (malloc (size_flt *! dim b)); cbn; discriminate.
    + destruct (malloc (2 *! (size_flt *! dim b))); cbn; discriminate.
  - match goal with |- context [malloc ?n] => destruct (malloc n) end;
      cbn; discriminate.
Qed.

(** C4.  For a well-formed b-spline, [ts_bspline_evaluate] fails with
    [TS_U_UNDEFINED] exactly when the span search ends with [k = 0], or
    with [k = n_knots] and [s = 0], or with [s <= deg] and
    ([k <= deg] or [k > n_knots - deg + s - 1]); the net is then the
    default (empty, zeroed) one. *)
Theorem evaluate_undefined_iff (b : tsBSpline F) (u : F) (k1 s : Z) :
  bspline_wf b ->
  span_search (Z.to_nat (n_knots b)) (knots b) u 0 0 = (k1, s) ->
  (fst (ts_bspline_evaluate b u) = TS_U_UNDEFINED <->
   k1 = 0 \/ (k1 = n_knots b /\ s = 0) \/
   (s <= deg b /\ (k1 <= deg b \/ k1 > n_knots b - deg b + s - 1))) /\
  (fst (ts_bspline_evaluate b u) = TS_U_UNDEFINED ->
   snd (ts_bspline_evaluate b u) = ts_deboornet_default).
Proof.
  intros [Hdeg (Ho & Hk & Hc & Hd) _ _ _ Hks] Hs.
  pose proof (span_search_range _ _ _ _ _ _ _ Hs) as [Hk1 Hs1].
  pose proof (evaluate_domain b u k1 s Hs) as H.
  assert (E : n_knots b -! deg b +! s -! 1 = n_knots b - deg b + s - 1)
    by (unwrap; zlia).
  rewrite E in H.
  destruct ((k1 =? 0) || ((k1 =? n_knots b) && (s =? 0)) ||
            ((s <=? deg b) && ((k1 <=? deg b) || (k1 >? n_knots b - deg b + s - 1))))
    eqn:C.
  - rewrite H. cbn [fst snd]. split; [|reflexivity].
    split; [intros _ | reflexivity]. lia.
  - split; [|intros H'; contradiction].
    split; [intros H'; contradiction|]. lia.
Qed.

(** the span search over a run of knots tolerantly equal to [u] *)
Lemma span_search_count (n todo : nat) (kn : list F) (u : F) (k s : Z) :
  (forall i, k <= i < k + Z.of_nat n -> ts_fequals u (lget kn i) = true) ->
  span_search (n + todo) kn u k s =
  span_search todo kn u (k + Z.of_nat n) (s + Z.of_nat n).
Proof.
  revert k s. induction n as [|n IH]; intros k s H.
  - simpl. f_equal; lia.
  - cbn [Nat.add span_search]. rewrite H by lia.
    rewrite IH by (intros i Hi; apply H; lia). f_equal; lia.
Qed.

(** the span search over a run of knots that are neither tolerantly
    equal to [u] nor above it *)
Lemma span_search_skip (n todo : nat) (kn : list F) (u : F) (k s : Z) :
  (forall i, k <= i < k + Z.of_nat n ->
     ts_fequals u (lget kn i) = false /\ flt u (lget kn i) = false) ->
  span_search (n + todo) kn u k s = span_search todo kn u (k + Z.of_nat n) s.
Proof.
  revert k s. induction n as [|n IH]; intros k s H.
  - simpl. f_equal; lia.
  - cbn [Nat.add span_search].
    destruct (H k ltac:(lia)) as [E1 E2]. rewrite E1, E2.
    rewrite IH by (intros i Hi; apply H; lia). f_equal; lia.
Qed.

Lemma span_search_break (todo : nat) (kn : list F) (u : F) (k s : Z) :
  ts_fequals u (lget kn k) = false -> flt u (lget kn k) = true ->
  span_search (S todo) kn u k s = (k, s).
Proof. intros E1 E2. simpl. rewrite E1, E2. reflexivity. Qed.

(** the search depends on the knots it visits only *)
Lemma span_search_ext (todo : nat) (kn kn' : list F) (u : F) (k s : Z) :
  (forall i, k <= i < k + Z.of_nat todo -> lget kn i = lget kn' i) ->
  span_search todo kn u k s = span_search todo kn' u k s.
Proof.
  revert k s. induction todo as [|todo IH]; intros k s H; [reflexivity|].
  simpl. rewrite <- (H k) by lia.
  rewrite !(IH (k + 1)) by (intros i Hi; apply H; lia). reflexivity.
Qed.

(** what the span search tells about the knots, when it stopped at [k']
    with multiplicity [s']: every knot before [k'] is tolerantly equal
    to [u] or not above [u]; the search stopped at the end of the knots
    or at a knot above [u] that is not tolerantly equal to it *)
Lemma span_search_stop (todo : nat) (kn : list F) (u : F) (k s k' s' : Z) :
  span_search todo kn u k s = (k', s') ->
  (forall i, k <= i < k' ->
     ts_fequals u (lget kn i) = true \/
     (ts_fequals u (lget kn i) = false /\ flt u (lget kn i) = false)) /\
  (k' = k + Z.of_nat todo \/
   (k' < k + Z.of_nat todo /\
    ts_fequals u (lget kn k') = false /\ flt u (lget kn k') = true)).
Proof.
  revert k s. induction todo as [|todo IH]; intros k s H; simpl in H.
  - inversion H. subst. split; [intros i Hi; lia | left; lia].
  - destruct (ts_fequals u (lget kn k)) eqn:E1.
    + destruct (IH _ _ H) as [H1 H2].
      pose proof (span_search_range _ _ _ _ _ _ _ H) as [R _].
      split.
      * intros i Hi. destruct (Z.eq_dec i k) as [->|Hne];
          [left; exact E1 | apply H1; lia].
      * destruct H2 as [H2|H2]; [left; lia | right; split; [lia | tauto]].
    + destruct (flt u (lget kn k)) eqn:E2.
      * inversion H. subst. split; [intros i Hi; lia|].
        right. split; [lia|]. split; assumption.
      * destruct (IH _ _ H) as [H1 H2].
        pose proof (span_search_range _ _ _ _ _ _ _ H) as [R _].
        split.
        -- intros i Hi. destruct (Z.eq_dec i k) as [->|Hne];
             [right; split; assumption | apply H1; lia].
        -- destruct H2 as [H2|H2]; [left; lia | right; split; [lia | tauto]].
Qed.

(** ** Evaluation: the outcomes *)

Lemma copy_wf (b : tsBSpline F) :
  bspline_wf b -> ts_bspline_copy false b = (TS_SUCCESS, b).
Proof.
  intros [Hdeg (Ho & Hk & Hc & Hd) Hlc Hlk Hcs Hks].
  unfold ts_bspline_copy.
  assert (Hcd : 0 <= n_ctrlp b * dim b) by nia.
  assert (E1 : n_ctrlp b *! dim b *! size_flt = n_ctrlp b * dim b * size_flt)
    by (unwrap; zlia).
  assert (E2 : n_knots b *! size_flt = n_knots b * size_flt) by (unwrap; zlia).
  rewrite E1, E2, !malloc_ok by assumption.
  unfold size_flt. rewrite !Z.div_mul by lia.
  destruct b as [dg o dm nc nk c kn]. cbn in *. do 2 f_equal.
  f_equal.
  - apply list_ext.
    + rewrite length_memmove, repeat_length. lia.
    + intros j Hj. rewrite length_memmove, repeat_length in Hj.
      unfold memcpy. rewrite lget_memmove by (rewrite repeat_length; lia).
      unfold size_flt. rewrite Z.div_mul by lia.
      replace ((0 <=? j) && (j <? 0 + nc * dm)) with true by lia.
      f_equal. lia.
  - apply list_ext.
    + rewrite length_memmove, repeat_length. lia.
    + intros j Hj. rewrite length_memmove, repeat_length in Hj.
      unfold memcpy. rewrite lget_memmove by (rewrite repeat_length; lia).
      unfold size_flt. rewrite Z.div_mul by lia.
      replace ((0 <=? j) && (j <? 0 + nk)) with true by lia.
      f_equal. lia.
Qed.

(** an evaluation whose span search found the full multiplicity at the
    first or at the last knots returns the code 1 and the first or the
    last control point *)
Lemma evaluate_endpoint (b : tsBSpline F) (u : F) (k1 : Z) :
  bspline_wf b ->
  span_search (Z.to_nat (n_knots b)) (knots b) u 0 0 = (k1, order b) ->
  k1 - 1 = deg b \/ k1 = n_knots b ->
  exists net,
    ts_bspline_evaluate b u = (1, net) /\
    Net.k net = k1 - 1 /\ Net.s net = order b /\
    net_result net =
    ctrlp_at b (if k1 - 1 =? deg b then 0 else n_ctrlp b - 1).
Proof.
  intros [Hdeg (Ho & Hk & Hc & Hd) Hlc Hlk Hcs Hks] Hs Hend.
  unfold ts_bspline_evaluate. rewrite Hs.
  assert (Hcd : dim b <= n_ctrlp b * dim b) by nia.
  replace (k1 =? 0) with false by lia.
  replace ((k1 =? n_knots b) && (order b =? 0)) with false by lia.
  replace (order b <=? deg b) with false by lia. cbn [andb].
  replace (order b >? order b) with false by lia.
  replace (order b =? order b) with true by lia.
  assert (E1 : k1 -! 1 = k1 - 1) by (unwrap; zlia).
  assert (E2 : n_knots b -! 1 = n_knots b - 1) by (unwrap; zlia).
  assert (E3 : size_flt *! dim b = size_flt * dim b) by (unwrap; zlia).
  rewrite E1, E2, E3.
  replace ((k1 - 1 =? deg b) || (k1 - 1 =? n_knots b - 1)) with true by lia.
  rewrite malloc_ok by zlia.
  eexists. split; [reflexivity|]. cbn [Net.k Net.s].
  split; [reflexivity|]. split; [reflexivity|].
  unfold net_result, ctrlp_at. cbn [Net.points Net.result Net.dim].
  apply map_ext_in. intros c Hin. apply in_seqZ in Hin.
  unfold memcpy. rewrite lget_memmove.
  2:{ rewrite repeat_length. unfold size_flt. rewrite Z.mul_comm, Z.div_mul by lia. lia. }
  unfold size_flt. rewrite (Z.mul_comm 4), Z.div_mul by lia.
  replace ((0 <=? 0 + c) && (0 + c <? 0 + dim b)) with true by lia.
  f_equal. destruct (k1 - 1 =? deg b) eqn:C; [lia|].
  assert (k1 = n_knots b) by lia. subst k1.
  assert (0 <= (n_ctrlp b - 1) * dim b <= n_ctrlp b * dim b) by nia.
  replace (n_knots b - 1 -! order b) with (n_ctrlp b - 1) by (unwrap; zlia).
  unwrap. lia.
Qed.

(** at a parameter that is tolerantly equal to the first [order] knots
    and clearly below the next one *)
Lemma evaluate_left_end (b : tsBSpline F) (u : F) :
  bspline_wf b ->
  (forall i, 0 <= i < order b -> ts_fequals u (lget (knots b) i) = true) ->
  ts_fequals u (lget (knots b) (order b)) = false ->
  flt u (lget (knots b) (order b)) = true ->
  exists net,
    ts_bspline_evaluate b u = (1, net) /\
    Net.k net = deg b /\ Net.s net = order b /\
    net_result net = ctrlp_at b 0.
Proof.
  intros Hwf Hz Hne Hlt.
  pose proof Hwf as [Hdeg (Ho & Hk & Hc & Hd) Hlc Hlk Hcs Hks].
  assert (Hs : span_search (Z.to_nat (n_knots b)) (knots b) u 0 0 =
               (order b, order b)).
  { replace (Z.to_nat (n_knots b))
      with (Z.to_nat (order b) + S (Z.to_nat (n_knots b - order b - 1)))%nat by lia.
    rewrite span_search_count by (intros i Hi; apply Hz; lia).
    rewrite Z2Nat.id by lia. cbn [Z.add].
    apply span_search_break; assumption. }
  destruct (evaluate_endpoint b u (order b)) as (net & E & K & S' & R);
    [constructor; unfold bspline_inv; auto | exact Hs | lia |].
  exists net. replace (order b - 1 =? deg b) with true in R by lia.
  repeat split; try assumption. lia.
Qed.

(** at a parameter that is clearly above every knot but the last
    [order] ones, to which it is tolerantly equal *)
Lemma evaluate_right_end (b : tsBSpline F) (u : F) :
  bspline_wf b ->
  (forall i, 0 <= i < n_knots b - order b ->
     ts_fequals u (lget (knots b) i) = false /\ flt u (lget (knots b) i) = false) ->
  (forall i, n_knots b - order b <= i < n_knots b ->
     ts_fequals u (lget (knots b) i) = true) ->
  exists net,
    ts_bspline_evaluate b u = (1, net) /\
    Net.k net = n_knots b - 1 /\ Net.s net = order b /\
    net_result net = ctrlp_at b (n_ctrlp b - 1).
Proof.
  intros Hwf Hlow Hone.
  pose proof Hwf as [Hdeg (Ho & Hk & Hc & Hd) Hlc Hlk Hcs Hks].
  assert (Hs : span_search (Z.to_nat (n_knots b)) (knots b) u 0 0 =
               (n_knots b, order b)).
  { replace (Z.to_nat (n_knots b))
      with (Z.to_nat (n_knots b - order b) + (Z.to_nat (order b) + 0))%nat by lia.
    rewrite span_search_skip by (intros i Hi; apply Hlow; lia).
    rewrite span_search_count by (intros i Hi; apply Hone; lia).
    cbn [span_search]. f_equal; lia. }
  destruct (evaluate_endpoint b u (n_knots b)) as (net & E & K & S' & R);
    [constructor; unfold bspline_inv; auto | exact Hs | lia |].
  exists net. replace (n_knots b - 1 =? deg b) with false in R by lia.
  repeat split; assumption.
Qed.

(** above every knot and tolerantly equal to none *)
Lemma evaluate_above (b : tsBSpline F) (u : F) :
  bspline_wf b ->
  (forall i, 0 <= i < n_knots b ->
     ts_fequals u (lget (knots b) i) = false /\ flt u (lget (knots b) i) = false) ->
  ts_bspline_evaluate b u = (TS_U_UNDEFINED, ts_deboornet_default).
Proof.
  intros [Hdeg (Ho & Hk & Hc & Hd) Hlc Hlk Hcs Hks] Hall.
  assert (Hs : span_search (Z.to_nat (n_knots b)) (knots b) u 0 0 =
               (n_knots b, 0)).
  { replace (Z.to_nat (n_knots b)) with (Z.to_nat (n_knots b) + 0)%nat by lia.
    rewrite span_search_skip by (intros i Hi; apply Hall; lia).
    cbn [span_search]. f_equal; lia. }
  pose proof (evaluate_domain b u _ _ Hs) as H.
  replace ((n_knots b =? n_knots b) && (0 =? 0)) with true in H by lia.
  rewrite orb_true_r in H. exact H.
Qed.
End Evaluate.

(** ** The invariants of section 3 *)

Section Invariants.
Context {F : Type} {ops : FloatOps F}.

Lemma bspline_wf_header_ok (b : tsBSpline F) : bspline_wf b -> header_ok b.
Proof.
  intros [Hdeg (Ho & Hk & Hc & Hd) _ _ Hcs Hks].
  unfold header_ok, bspline_inv. repeat split; try lia.
  assert (dim b <= n_ctrlp b * dim b) by nia. zlia.
Qed.

Lemma copy_header (alias : bool) (b b' : tsBSpline F) (e : tsError) :
  ts_bspline_copy alias b = (e, b') -> e >= 0 ->
  deg b' = deg b /\ order b' = order b /\ dim b' = dim b /\
  n_ctrlp b' = n_ctrlp b /\ n_knots b' = n_knots b.
Proof.
  unfold ts_bspline_copy. destruct alias.
  - intros H. inversion H. unfold TS_INPUT_EQ_OUTPUT. lia.
  - destruct (malloc _); [|intros H; inversion H; unfold TS_MALLOC; lia].
    destruct (malloc _); [|intros H; inversion H; unfold TS_MALLOC; lia].
    intros H _. inversion H. cbn. repeat split.
Qed.

Lemma copy_header_ok (alias : bool) (b b' : tsBSpline F) (e : tsError) :
  header_ok b -> ts_bspline_copy alias b = (e, b') -> e >= 0 -> header_ok b'.
Proof.
  intros H Hc He. destruct (copy_header _ _ _ _ Hc He) as (E1 & E2 & E3 & E4 & E5).
  unfold header_ok, bspline_inv in *. rewrite E1, E2, E3, E4, E5. exact H.
Qed.

Lemma new_inv (p d m : Z) (type : tsBSplineType) (b : tsBSpline F) (e : tsError) :
  in_size p -> in_size d -> in_size m ->
  ts_bspline_new p d m type = (e, b) -> e >= 0 ->
  e = TS_SUCCESS /\ bspline_inv b /\ deg b = p /\ dim b = d /\ n_ctrlp b = m /\
  (m + p + 1) *! size_flt <= PTRDIFF_MAX.
Proof.
  intros Hp Hd Hm Hnew He.
  assert (e = TS_SUCCESS).
  { revert Hnew. unfold ts_bspline_new.
    repeat match goal with
           | |- context [if ?c then _ else _] => destruct c
           | |- context [match malloc ?n with _ => _ end] => destruct (malloc n)
           end;
      intros H; inversion H; subst e;
      unfold TS_DIM_ZERO, TS_DEG_GE_NCTRLP, TS_OVER_UNDERFLOW, TS_MALLOC in He;
      try lia; reflexivity. }
  subst e.
  destruct (ts_bspline_new_header _ _ _ _ _ Hp Hd Hm Hnew)
    as (H1 & H2 & H3 & _ & H5 & E1 & E2 & E3 & E4 & E5).
  unfold bspline_inv. rewrite E1, E2, E3, E4, E5.
  repeat split; lia.
Qed.

Lemma resize_header_ok (alias : bool) (b b' : tsBSpline F) (n : Z)
    (back : bool) (e : tsError) :
  header_ok b -> in_int n ->
  ts_bspline_resize alias b n back = (e, b') -> e >= 0 ->
  header_ok b' /\ deg b' = deg b /\ dim b' = dim b /\
  n_ctrlp b' = n_ctrlp b + n /\ n_knots b' = n_knots b + n.
Proof.
  intros Hok Hn. unfold ts_bspline_resize.
  destruct ((n =? 0) && negb alias) eqn:C1.
  { intros Hc He. assert (n = 0) by lia. subst n.
    pose proof (copy_header_ok _ _ _ _ Hok Hc He).
    destruct (copy_header _ _ _ _ Hc He) as (E1 & E2 & E3 & E4 & E5).
    split; [assumption|]. repeat split; lia. }
  destruct ((n =? 0) && alias) eqn:C2.
  { intros H _. inversion H. subst b'. assert (n = 0) by lia. subst n.
    split; [assumption|]. repeat split; lia. }
  assert (Hn0 : n <> 0) by (destruct alias; lia).
  destruct Hok as (Hdeg & (Ho & Hk & Hc & Hd) & Hdm & Hks).
  unfold in_int in Hn.
  assert (Hkn : n_knots b < 4611686018427387904) by zlia.
  destruct (n_ctrlp b +! n <=? deg b) eqn:C3.
  { intros H He. inversion H. subst e. unfold TS_DEG_GE_NCTRLP in He. lia. }
  destruct ((n <? 0) && (n_ctrlp b +! n >? n_ctrlp b)) eqn:C4.
  { intros H He. inversion H. subst e. unfold TS_OVER_UNDERFLOW in He. lia. }
  destruct ((n >? 0) && (n_ctrlp b +! n <? n_ctrlp b)) eqn:C5.
  { intros H He. inversion H. subst e. unfold TS_OVER_UNDERFLOW in He. lia. }
  assert (Hnc : n_ctrlp b +! n = n_ctrlp b + n).
  { destruct (Z_lt_ge_dec (n_ctrlp b + n) 0) as [Hneg|Hpos].
    - exfalso. unfold sz_add, wrap in C4. rewrite SIZE_MOD_eq in C4.
      replace (n_ctrlp b + n) with
        ((n_ctrlp b + n + 18446744073709551616) + (-1) * 18446744073709551616)
        in C4 by lia.
      rewrite Z.mod_add in C4 by lia. rewrite Z.mod_small in C4 by zlia. zlia.
    - unwrap; zlia. }
  assert (Hnk : n_knots b +! n = n_knots b + n) by (unwrap; zlia).
  rewrite Hnc, Hnk in *.
  destruct alias.
  - (* in place *)
    cbn [negb].
    set (b1 := if negb back && (n <? 0) then _ else b).
    assert (Hb1 : deg b1 = deg b /\ order b1 = order b /\ dim b1 = dim b /\
                  n_knots b1 = n_knots b).
    { subst b1. destruct (negb back && (n <? 0)); cbn; repeat split. }
    destruct Hb1 as (D1 & D2 & D3 & D4).
    replace (TS_SUCCESS <? 0) with false by reflexivity.
    destruct (realloc (ctrlp b1) _) as [c|];
      [|intros H He; inversion H; subst e; unfold TS_MALLOC in He; lia].
    cbn [knots with_ctrlp].
    destruct (realloc (knots b1) _) as [kn|] eqn:R;
      [|intros H He; inversion H; subst e; unfold TS_MALLOC in He; lia].
    apply realloc_Some in R. destruct R as [R _].
    assert ((n_knots b + n) *! size_flt = (n_knots b + n) * size_flt)
      as E by (unwrap; zlia).
    rewrite E in R.
    intros H _. inversion H. subst b'.
    destruct (negb back && (n >? 0)); cbn; rewrite ?D1, ?D2, ?D3;
      unfold header_ok, bspline_inv; cbn; rewrite ?D1, ?D2, ?D3;
      repeat split; zlia.
  - (* into a new object *)
    cbn [negb].
    destruct (ts_bspline_new (deg b) (dim b) (n_ctrlp b + n) TS_NONE)
      as [err resized] eqn:Hnew.
    destruct (err <? 0) eqn:Cerr.
    { intros H He. inversion H. subst e. lia. }
    assert (Hnew' := Hnew).
    apply new_inv in Hnew'; [|zlia|zlia|zlia|lia].
    destruct Hnew' as (_ & (I1 & I2 & I3 & I4) & E1 & E2 & E3 & Hsz).
    assert ((n_ctrlp b + n + deg b + 1) *! size_flt =
            (n_ctrlp b + n + deg b + 1) * size_flt) as E by (unwrap; zlia).
    rewrite E in Hsz.
    intros H _. inversion H. subst b'.
    unfold header_ok, bspline_inv. cbn.
    rewrite ?E1, ?E2, ?E3 in *. repeat split; zlia.
Qed.

Lemma in_int_to_int (z : Z) : in_int (to_int z).
Proof. unfold in_int. pose proof (to_int_range z). lia. Qed.

Lemma insert_header_ok (alias : bool) (b b' : tsBSpline F)
    (net : tsDeBoorNet F) (n : Z) (e : tsError) :
  header_ok b ->
  ts_internal_bspline_insert_knot alias b net n = (e, b') -> e >= 0 ->
  header_ok b' /\ deg b' = deg b /\ dim b' = dim b /\
  n_ctrlp b' = n_ctrlp b + to_int n /\ n_knots b' = n_knots b + to_int n /\
  Net.s net +! n <= order b /\ 0 <= to_int n.
Proof.
  intros Hok. unfold ts_internal_bspline_insert_knot.
  destruct (Net.s net +! n >? order b) eqn:C1.
  { intros H He. inversion H. subst e. unfold TS_MULTIPLICITY in He. lia. }
  destruct (to_int n <? 0) eqn:C2.
  { intros H He. inversion H. subst e. unfold TS_OVER_UNDERFLOW in He. lia. }
  destruct (ts_bspline_resize alias b (to_int n) true) as [err result] eqn:R.
  destruct (err <? 0) eqn:C3.
  { intros H He. inversion H. subst e. lia. }
  apply resize_header_ok in R; [|exact Hok|apply in_int_to_int|lia].
  destruct R as (Hok' & D1 & D2 & D3 & D4).
  destruct (n =? 0).
  { intros H _. inversion H. subst b'. split; [assumption|]. repeat split; lia. }
  match goal with
  | |- context [if to_int ?z <? 0 then _ else _] => destruct (to_int z <? 0)
  end.
  { intros H He. inversion H. subst e. unfold TS_OVER_UNDERFLOW in He. lia. }
  match goal with
  | |- context [if to_int ?z >=? 0 then _ else _] => destruct (to_int z >=? 0)
  end.
  { intros H He. inversion H. subst e. unfold TS_OVER_UNDERFLOW in He. lia. }
  intros H _. inversion H. subst b'. unfold with_buffers. cbn.
  unfold header_ok, bspline_inv in *. cbn. repeat split; try tauto; lia.
Qed.

Lemma split_header_ok (alias : bool) (b b' : tsBSpline F) (u : F) (k : Z)
    (e : tsError) :
  header_ok b -> ts_bspline_split alias b u = (e, b', k) -> e >= 0 ->
  header_ok b'.
Proof.
  intros Hok. unfold ts_bspline_split.
  destruct (ts_bspline_evaluate b u) as [ret net] eqn:Ev.
  destruct (ret >=? 1) eqn:C1.
  - destruct alias; cbn [negb].
    + intros H _. inversion H. subst b'. exact Hok.
    + destruct (ts_bspline_copy false b) as [ret' sp] eqn:Cp.
      intros H He. inversion H. subst. eapply copy_header_ok; eassumption.
  - destruct (ret =? 0) eqn:C2.
    + destruct (ts_internal_bspline_insert_knot alias b net (Net.h net +! 1))
        as [ret' sp] eqn:Ins.
      intros H He. inversion H. subst.
      eapply insert_header_ok in Ins; [|exact Hok|exact He]. tauto.
    + intros H He. inversion H. subst. lia.
Qed.

Lemma beziers_loop_header_ok (fuel : nat) (o : Z) (b b' : tsBSpline F) (k : Z)
    (e : tsError) :
  header_ok b -> beziers_loop fuel o b k = Some (e, b') -> e >= 0 ->
  header_ok b'.
Proof.
  revert b k. induction fuel as [|fuel IH]; intros b k Hok; simpl; [discriminate|].
  destruct (k <? n_knots b -! o).
  - destruct (ts_bspline_split true b (lget (knots b) k)) as [[err bz] k'] eqn:Sp.
    destruct (err <? 0) eqn:C.
    + intros H He. inversion H. subst. lia.
    + apply IH. eapply split_header_ok; [exact Hok | exact Sp | lia].
  - intros H _. inversion H. subst. exact Hok.
Qed.

Lemma split_resize_header_ok (b b' : tsBSpline F) (u : F) (back : bool)
    (resize : Z -> Z) (e : tsError) :
  header_ok b ->
  (let '(err, bz, k) := ts_bspline_split true b u in
   if err <? 0 then (err, bz)
   else ts_bspline_resize true bz (to_int (resize k)) back) = (e, b') ->
  e >= 0 -> header_ok b'.
Proof.
  intros Hok.
  destruct (ts_bspline_split true b u) as [[err bz] k] eqn:Sp.
  destruct (err <? 0) eqn:C.
  - intros H He. inversion H. subst. lia.
  - intros R He.
    apply resize_header_ok in R;
      [tauto | | apply in_int_to_int | exact He].
    eapply split_header_ok; [exact Hok | exact Sp | lia].
Qed.

Lemma to_beziers_header_ok (fuel : nat) (alias : bool) (b b' : tsBSpline F)
    (e : tsError) :
  header_ok b -> ts_bspline_to_beziers fuel alias b = Some (e, b') -> e >= 0 ->
  header_ok b'.
Proof.
  intros Hok. unfold ts_bspline_to_beziers.
  destruct (if negb alias then ts_bspline_copy false b else (TS_SUCCESS, b))
    as [err0 bz0] eqn:S0.
  destruct (err0 <? 0) eqn:C0.
  { intros H He. inversion H. subst. lia. }
  assert (Hok0 : header_ok bz0).
  { destruct alias; cbn [negb] in S0.
    - inversion S0. subst. exact Hok.
    - eapply copy_header_ok; [exact Hok | exact S0 | lia]. }
  destruct (beziers_fix_first (deg bz0) bz0) as [err1 bz1] eqn:S1.
  destruct (err1 <? 0) eqn:C1.
  { intros H He. inversion H. subst. lia. }
  assert (Hok1 : header_ok bz1).
  { unfold beziers_fix_first in S1.
    destruct (negb (ts_fequals _ _)).
    - eapply (split_resize_header_ok _ _ _ _
                (fun k => wrap (-1) *! deg bz0 +! (deg bz0 *! 2 -! k)));
        [exact Hok0 | exact S1 | lia].
    - inversion S1. subst. exact Hok0. }
  destruct (beziers_fix_last (deg bz0) (order bz0) bz1) as [err2 bz2] eqn:S2.
  destruct (err2 <? 0) eqn:C2.
  { intros H He. inversion H. subst. lia. }
  assert (Hok2 : header_ok bz2).
  { unfold beziers_fix_last in S2.
    destruct (negb (ts_fequals _ _)).
    - destruct (ts_bspline_split true bz1 _) as [[err bz] k] eqn:Sp.
      destruct (err <? 0) eqn:C.
      + inversion S2. subst. lia.
      + apply resize_header_ok in S2;
          [tauto | | apply in_int_to_int | lia].
        eapply split_header_ok; [exact Hok1 | exact Sp | lia].
    - inversion S2. subst. exact Hok1. }
  apply beziers_loop_header_ok. exact Hok2.
Qed.

(** C3.  Every operation that returns success leaves the invariants of
    section 3 on its output: [order = deg + 1], [n_knots = n_ctrlp + order],
    [n_ctrlp > deg] and [dim >= 1].  This holds for [new] on any [size_t]
    arguments, and for [copy], [resize], [insert_knot], [split] and
    [to_beziers] on a b-spline that satisfies the invariants, in place
    or not. *)
Theorem invariants_preserved :
  (forall p d m type e (b' : tsBSpline F),
      in_size p -> in_size d -> in_size m ->
      ts_bspline_new p d m type = (e, b') -> e >= 0 -> bspline_inv b') /\
  (forall alias (b : tsBSpline F) e b',
      header_ok b -> ts_bspline_copy alias b = (e, b') -> e >= 0 ->
      bspline_inv b') /\
  (forall alias (b : tsBSpline F) n back e b',
      header_ok b -> in_int n ->
      ts_bspline_resize alias b n back = (e, b') -> e >= 0 ->
      bspline_inv b') /\
  (forall alias (b : tsBSpline F) u n e b' k,
      header_ok b ->
      ts_bspline_insert_knot alias b u n = (e, b', k) -> e >= 0 ->
      bspline_inv b') /\
  (forall alias (b : tsBSpline F) u e b' k,
      header_ok b -> ts_bspline_split alias b u = (e, b', k) -> e >= 0 ->
      bspline_inv b') /\
  (forall fuel alias (b : tsBSpline F) e b',
      header_ok b -> ts_bspline_to_beziers fuel alias b = Some (e, b') ->
      e >= 0 -> bspline_inv b').
Proof.
  split; [|split; [|split; [|split; [|split]]]].
  - intros p d m type e b' Hp Hd Hm Hnew He.
    apply (new_inv _ _ _ _ _ _ Hp Hd Hm Hnew He).
  - intros alias b e b' Hok Hc He.
    apply (copy_header_ok _ _ _ _ Hok Hc He).
  - intros alias b n back e b' Hok Hn Hr He.
    apply (resize_header_ok _ _ _ _ _ _ Hok Hn Hr He).
  - intros alias b u n e b' k Hok. unfold ts_bspline_insert_knot.
    destruct (ts_bspline_evaluate b u) as [ret net].
    destruct (ret >=? 0) eqn:C.
    + destruct (ts_internal_bspline_insert_knot alias b net n) as [ret' r] eqn:Ins.
      intros H He. inversion H. subst.
      apply (insert_header_ok _ _ _ _ _ _ Hok Ins He).
    + intros H He. inversion H. subst. lia.
  - intros alias b u e b' k Hok Hs He.
    apply (split_header_ok _ _ _ _ _ _ Hok Hs He).
  - intros fuel alias b e b' Hok Ht He.
    apply (to_beziers_header_ok _ _ _ _ _ Hok Ht He).
Qed.
End Invariants.

(** ** Clamped b-splines in single precision *)

Lemma f32_zero_one :
  ts_fequals (F0 : spec_float) F0 = true /\ ts_fequals (F0 : spec_float) F1 = false /\
  flt (F0 : spec_float) F1 = true /\ ts_fequals (F1 : spec_float) F0 = false /\
  flt (F1 : spec_float) F0 = false /\ ts_fequals (F1 : spec_float) F1 = true.
Proof. repeat split; vm_compute; reflexivity. Qed.

Lemma clamped_left (b : tsBSpline spec_float) :
  bspline_wf b -> clamped b -> interior_apart b ->
  exists net, ts_bspline_evaluate b F0 = (1, net) /\
              net_result net = ctrlp_at b 0.
Proof.
  intros Hwf (Hz & Ho & Hi) Ha.
  destruct f32_zero_one as (E00 & E01 & L01 & _).
  pose proof Hwf as [Hdeg (I1 & I2 & I3 & I4) _ _ _ _].
  destruct (evaluate_left_end b F0 Hwf) as (net & E & _ & _ & R).
  - intros i Hr. rewrite Hz by lia. exact E00.
  - destruct (Z_lt_ge_dec (order b) (n_knots b - order b)) as [Hlt|Hge].
    + apply Ha. lia.
    + rewrite Ho by lia. exact E01.
  - destruct (Z_lt_ge_dec (order b) (n_knots b - order b)) as [Hlt|Hge].
    + apply Hi. lia.
    + rewrite Ho by lia. exact L01.
  - exists net. split; assumption.
Qed.

(** a parameter [u] that behaves like 1.0 on a clamped knot vector *)
Lemma clamped_right (b : tsBSpline spec_float) (u : spec_float) :
  bspline_wf b -> clamped b ->
  ts_fequals u F0 = false -> flt u F0 = false -> ts_fequals u F1 = true ->
  (forall i, order b <= i < n_knots b - order b ->
     ts_fequals u (lget (knots b) i) = false /\ flt u (lget (knots b) i) = false) ->
  exists net, ts_bspline_evaluate b u = (1, net) /\
              net_result net = ctrlp_at b (n_ctrlp b - 1).
Proof.
  intros Hwf (Hz & Ho & Hi) E0 L0 E1 Ha.
  pose proof Hwf as [Hdeg (I1 & I2 & I3 & I4) _ _ _ _].
  destruct (evaluate_right_end b u Hwf) as (net & E & _ & _ & R).
  - intros i Hr. destruct (Z_lt_ge_dec i (order b)) as [Hlt|Hge].
    + rewrite Hz by lia. split; assumption.
    + apply Ha. lia.
  - intros i Hr. rewrite Ho by lia. exact E1.
  - exists net. split; assumption.
Qed.

(** C6, as amended.  For every well-formed clamped b-spline none of whose
    interior knots is tolerantly equal to 0 or to 1, the evaluation at 0
    returns the code 1 and the first control point, and the evaluation
    at 1 returns the code 1 and the last control point. *)
Theorem clamped_endpoint_interpolation (b : tsBSpline spec_float) :
  bspline_wf b -> clamped b -> interior_apart b ->
  (exists net, ts_bspline_evaluate b F0 = (1, net) /\
               net_result net = ctrlp_at b 0) /\
  (exists net, ts_bspline_evaluate b F1 = (1, net) /\
               net_result net = ctrlp_at b (n_ctrlp b - 1)).
Proof.
  intros Hwf Hc Ha. split; [apply clamped_left; assumption|].
  destruct f32_zero_one as (_ & _ & _ & E10 & L10 & E11).
  apply clamped_right; try assumption.
  intros i Hr. split; [apply Ha; exact Hr | apply Hc; exact Hr].
Qed.

Lemma line_wf : bspline_wf Examples.line.
Proof. constructor; unfold bspline_inv; cbn; zlia. Qed.

Lemma near_one_wf : bspline_wf Examples.near_one.
Proof. constructor; unfold bspline_inv; cbn; zlia. Qed.

Lemma line_clamped : clamped Examples.line /\ interior_apart Examples.line.
Proof.
  unfold clamped, interior_apart. cbn.
  split; [split; [|split]|]; intros i Hi; each_index i; reflexivity.
Qed.

Lemma near_one_clamped : clamped Examples.near_one.
Proof.
  unfold clamped. cbn.
  split; [|split]; intros i Hi; each_index i; split; reflexivity.
Qed.

(** C6 as stated fails: a well-formed clamped b-spline of degree 1 with
    the knots (0, 0, 0.999995, 1, 1); at [u = 1] the interior knot counts
    as a third knot equal to 1 and the evaluation fails with
    [TS_MULTIPLICITY]. *)
Lemma clamped_endpoint_counterexample :
  bspline_wf Examples.near_one /\ clamped Examples.near_one /\
  ts_bspline_evaluate Examples.near_one F1 =
  (TS_MULTIPLICITY, ts_deboornet_default).
Proof.
  split; [exact near_one_wf|]. split; [exact near_one_clamped|].
  vm_compute. reflexivity.
Qed.

Lemma clamped_endpoint_interpolation_witness :
  (exists net, ts_bspline_evaluate Examples.line F0 = (1, net) /\
               net_result net = ctrlp_at Examples.line 0) /\
  (exists net, ts_bspline_evaluate Examples.line F1 = (1, net) /\
               net_result net = ctrlp_at Examples.line (n_ctrlp Examples.line - 1)).
Proof.
  apply (clamped_endpoint_interpolation Examples.line).
  - exact line_wf.
  - exact (proj1 line_clamped).
  - exact (proj2 line_clamped).
Defined.

Lemma u_above_one_value :
  Examples.u_above_one = S754_finite false 8388610 (-23) /\
  Examples.u_above_one_via_double = Examples.u_above_one.
Proof. split; vm_compute; reflexivity. Qed.

(** C5 as stated fails: [1.0 + 2 * FLT_MAX_ABS_ERROR] is the [float]
    1 + 2^-22, which [ts_fequals] takes for 1.0 by the relative
    tolerance; on the line with the knots (0, 0, 1, 1) the evaluation
    there returns the code 1 and the last control point (3). *)
Lemma boundary_counterexample :
  bspline_wf Examples.line /\ clamped Examples.line /\
  ts_fequals Examples.u_above_one F1 = true /\
  fst (ts_bspline_evaluate Examples.line Examples.u_above_one) = 1 /\
  net_result (snd (ts_bspline_evaluate Examples.line Examples.u_above_one)) =
  [Examples.f32 3 1].
Proof.
  split; [exact line_wf|]. split; [exact (proj1 line_clamped)|].
  repeat split; vm_compute; reflexivity.
Qed.

(** C5, as amended.  For every well-formed clamped b-spline: if no
    interior knot is tolerantly equal to 1, the evaluation at 1.0 returns
    the last control point; [1.0 + 2 * FLT_MAX_ABS_ERROR] is tolerantly
    equal to 1.0, and if no interior knot is tolerantly equal to it or
    above it, the evaluation there returns the last control point as
    well; the evaluation fails with [TS_U_UNDEFINED] at every parameter
    that is above every knot and tolerantly equal to none. *)
Theorem boundary_with_tolerances (b : tsBSpline spec_float) :
  bspline_wf b -> clamped b ->
  ((forall i, order b <= i < n_knots b - order b ->
      ts_fequals F1 (lget (knots b) i) = false) ->
   exists net, ts_bspline_evaluate b F1 = (1, net) /\
               net_result net = ctrlp_at b (n_ctrlp b - 1)) /\
  ts_fequals Examples.u_above_one F1 = true /\
  ((forall i, order b <= i < n_knots b - order b ->
      ts_fequals Examples.u_above_one (lget (knots b) i) = false /\
      flt Examples.u_above_one (lget (knots b) i) = false) ->
   exists net, ts_bspline_evaluate b Examples.u_above_one = (1, net) /\
               net_result net = ctrlp_at b (n_ctrlp b - 1)) /\
  (forall u,
      (forall i, 0 <= i < n_knots b ->
         ts_fequals u (lget (knots b) i) = false /\
         flt u (lget (knots b) i) = false) ->
      ts_bspline_evaluate b u = (TS_U_UNDEFINED, ts_deboornet_default)).
Proof.
  intros Hwf Hc.
  destruct f32_zero_one as (_ & _ & _ & E10 & L10 & E11).
  split; [|split; [|split]].
  - intros Ha. apply clamped_right; try assumption.
    intros i Hr. split; [apply Ha; exact Hr | apply Hc; exact Hr].
  - vm_compute. reflexivity.
  - intros Ha. apply clamped_right; try assumption; vm_compute; reflexivity.
  - intros u Hu. apply evaluate_above; assumption.
Qed.

Lemma boundary_with_tolerances_witness :
  ((forall i, order Examples.line <= i < n_knots Examples.line - order Examples.line ->
      ts_fequals F1 (lget (knots Examples.line) i) = false) ->
   exists net, ts_bspline_evaluate Examples.line F1 = (1, net) /\
               net_result net = ctrlp_at Examples.line (n_ctrlp Examples.line - 1)) /\
  ts_fequals Examples.u_above_one F1 = true /\
  ((forall i, order Examples.line <= i < n_knots Examples.line - order Examples.line ->
      ts_fequals Examples.u_above_one (lget (knots Examples.line) i) = false /\
      flt Examples.u_above_one (lget (knots Examples.line) i) = false) ->
   exists net, ts_bspline_evaluate Examples.line Examples.u_above_one = (1, net) /\
               net_result net = ctrlp_at Examples.line (n_ctrlp Examples.line - 1)) /\
  (forall u,
      (forall i, 0 <= i < n_knots Examples.line ->
         ts_fequals u (lget (knots Examples.line) i) = false /\
         flt u (lget (knots Examples.line) i) = false) ->
      ts_bspline_evaluate Examples.line u = (TS_U_UNDEFINED, ts_deboornet_default)).
Proof.
  apply (boundary_with_tolerances Examples.line).
  - exact line_wf.
  - exact (proj1 line_clamped).
Defined.

(** ** Knot insertion *)

Section Insert.
Context {F : Type} {ops : FloatOps F}.

Lemma lget_resize_list (l : list F) (n : nat) (i : Z) :
  0 <= i < Z.of_nat n -> lget (resize_list F0 l n) i = lget l i.
Proof.
  intros Hi. unfold lget. replace (i <? 0) with false by lia.
  apply nth_resize_list. lia.
Qed.

(** growing a b-spline by [n] control points and knots at the back keeps
    the control points and knots it has *)
Lemma resize_back_grow (alias : bool) (b : tsBSpline F) (n : Z) :
  bspline_wf b -> 0 < n <= INT_MAX ->
  (n_ctrlp b + n) * dim b * size_flt <= PTRDIFF_MAX ->
  (n_knots b + n) * size_flt <= PTRDIFF_MAX ->
  exists r,
    ts_bspline_resize alias b n true = (TS_SUCCESS, r) /\
    deg r = deg b /\ order r = order b /\ dim r = dim b /\
    n_ctrlp r = n_ctrlp b + n /\ n_knots r = n_knots b + n /\
    Z.of_nat (length (ctrlp r)) = (n_ctrlp b + n) * dim b /\
    Z.of_nat (length (knots r)) = n_knots b + n /\
    (forall i, 0 <= i < n_ctrlp b * dim b -> lget (ctrlp r) i = lget (ctrlp b) i) /\
    (forall i, 0 <= i < n_knots b -> lget (knots r) i = lget (knots b) i).
Proof.
  intros [Hdeg (Ho & Hk & Hc & Hd) Hlc Hlk Hcs Hks] Hn Hcs' Hks'.
  assert (Hcd : 0 <= n_ctrlp b * dim b) by nia.
  assert (Hcd' : n_ctrlp b * dim b <= (n_ctrlp b + n) * dim b) by nia.
  assert (Hdim : dim b <= n_ctrlp b * dim b) by nia.
  unfold ts_bspline_resize.
  replace (n =? 0) with false by lia. cbn [andb].
  assert (E1 : n_ctrlp b +! n = n_ctrlp b + n) by (unwrap; zlia).
  assert (E2 : n_knots b +! n = n_knots b + n) by (unwrap; zlia).
  assert (E3 : dim b *! size_flt = dim b * size_flt) by (unwrap; zlia).
  rewrite E1, E2, E3.
  replace (n_ctrlp b + n <=? deg b) with false by lia.
  replace (n <? 0) with false by lia. cbn [andb].
  replace (n >? 0) with true by lia. cbn [andb negb].
  replace (n_ctrlp b + n <? n_ctrlp b) with false by lia.
  assert (E4 : (n_ctrlp b + n) *! (dim b * size_flt) = (n_ctrlp b + n) * dim b * size_flt)
    by (unwrap; zlia).
  assert (E5 : (n_knots b + n) *! size_flt = (n_knots b + n) * size_flt)
    by (unwrap; zlia).
  assert (E6 : n_ctrlp b *! (dim b * size_flt) = n_ctrlp b * dim b * size_flt)
    by (unwrap; zlia).
  assert (E7 : n_knots b *! size_flt = n_knots b * size_flt) by (unwrap; zlia).
  destruct alias; cbn [negb].
  - replace (TS_SUCCESS <? 0) with false by reflexivity.
    unfold realloc. rewrite E4.
    replace ((n_ctrlp b + n) * dim b * size_flt <=? PTRDIFF_MAX) with true by lia.
    cbn [knots with_ctrlp]. rewrite E5.
    replace ((n_knots b + n) * size_flt <=? PTRDIFF_MAX) with true by lia.
    eexists. split; [reflexivity|]. fields.
    unfold size_flt. rewrite !Z.div_mul by lia.
    rewrite !length_resize_list.
    repeat split; try lia.
    + intros i Hi. apply lget_resize_list. lia.
    + intros i Hi. apply lget_resize_list. lia.
  - assert (Hnew : ts_bspline_new (deg b) (dim b) (n_ctrlp b + n) TS_NONE =
                   (TS_SUCCESS,
                    mkBSpline (deg b) (deg b + 1) (dim b) (n_ctrlp b + n)
                      (n_ctrlp b + n + deg b + 1)
                      (repeat F0 (Z.to_nat ((n_ctrlp b + n) * dim b)))
                      (repeat F0 (Z.to_nat (n_ctrlp b + n + deg b + 1))))).
    { unfold ts_bspline_new.
      replace (dim b <? 1) with false by lia.
      replace (deg b >=? n_ctrlp b + n) with false by lia.
      assert (X1 : deg b +! 1 = deg b + 1) by (unwrap; zlia). rewrite X1.
      replace (deg b + 1 <? deg b) with false by lia.
      assert (X2 : n_ctrlp b + n +! (deg b + 1) = n_ctrlp b + n + deg b + 1)
        by (unwrap; zlia).
      rewrite X2.
      replace (n_ctrlp b + n + deg b + 1 <? n_ctrlp b + n) with false by lia.
      assert (X3 : (n_ctrlp b + n) *! dim b *! size_flt =
                   (n_ctrlp b + n) * dim b * size_flt) by (unwrap; zlia).
      assert (X4 : (n_ctrlp b + n + deg b + 1) *! size_flt =
                   (n_ctrlp b + n + deg b + 1) * size_flt) by (unwrap; zlia).
      rewrite X3, X4, !malloc_ok by zlia.
      unfold size_flt. rewrite !Z.div_mul by lia. reflexivity. }
    rewrite Hnew. replace (TS_SUCCESS <? 0) with false by reflexivity.
    eexists. split; [reflexivity|]. fields.
    unfold memcpy. rewrite !length_memmove, !repeat_length.
    repeat split; try lia.
    + intros i Hi. rewrite lget_memmove by (rewrite repeat_length; lia).
      rewrite E6. unfold size_flt. rewrite Z.div_mul by lia.
      replace ((0 <=? i) && (i <? 0 + n_ctrlp b * dim b)) with true by lia.
      f_equal. lia.
    + intros i Hi. rewrite lget_memmove by (rewrite repeat_length; lia).
      rewrite E7. unfold size_flt. rewrite Z.div_mul by lia.
      replace ((0 <=? i) && (i <? 0 + n_knots b)) with true by lia.
      f_equal. lia.
Qed.

Lemma to_int_neg_stride (x d : Z) :
  0 < x * d <= INT_MAX -> to_int (sz_neg x *! d) = - (x * d).
Proof.
  intros H. unfold sz_neg, sz_mul, wrap, to_int.
  rewrite SIZE_MOD_eq, INT_MOD_eq, INT_MAX_eq in *.
  rewrite Z.mul_mod_idemp_l by lia.
  replace (- x * d) with
    ((18446744073709551616 - x * d) + (-1) * 18446744073709551616) by lia.
  rewrite Z.mod_add by lia.
  rewrite (Z.mod_small (18446744073709551616 - x * d)) by lia.
  replace (18446744073709551616 - x * d) with
    ((4294967296 - x * d) + 4294967295 * 4294967296) by lia.
  rewrite Z.mod_add by lia.
  rewrite Z.mod_small by lia.
  destruct (4294967296 - x * d <=? 2147483647) eqn:E; lia.
Qed.

(** the loop d): [n] copies of [v] from the position [off] on *)
Lemma fill_from_spec (off n : Z) (v : F) (l : list F) :
  0 <= off ->
  length (for_range 0 n (fun i kn => lset kn (off + i) v) l) = length l /\
  forall j,
    lget (for_range 0 n (fun i kn => lset kn (off + i) v) l) j =
    if (off <=? j) && (j <? off + n) && (j <? Z.of_nat (length l))
    then v else lget l j.
Proof.
  intros Hoff.
  destruct (Z.le_gt_cases 0 n) as [Hle|Hgt].
  - apply (for_range_inv
             (fun i st => length st = length l /\
                forall j, lget st j =
                  if (off <=? j) && (j <? off + i) && (j <? Z.of_nat (length l))
                  then v else lget l j)); [exact Hle | |].
    + split; [reflexivity|]. intros j.
      replace ((off <=? j) && (j <? off + 0)) with false by lia. reflexivity.
    + intros i st Hi [Hlen Hget]. split; [rewrite length_lset; exact Hlen|].
      intros j. rewrite lget_lset, Hget, Hlen.
      replace (0 <=? off + i) with true by lia. rewrite andb_true_r.
      destruct (j =? off + i) eqn:Eji.
      * assert (j = off + i) by lia. subst j.
        replace (off <=? off + i) with true by lia.
        replace (off + i <? off + (i + 1)) with true by lia.
        replace (off + i <? off + i) with false by lia. cbn [andb].
        destruct (off + i <? Z.of_nat (length l)); reflexivity.
      * cbn [andb]. replace (j <? off + (i + 1)) with (j <? off + i) by lia.
        reflexivity.
  - rewrite for_range_done by lia. split; [reflexivity|]. intros j.
    replace ((off <=? j) && (j <? off + n)) with false by lia. reflexivity.
Qed.

Lemma flank_length (points : list F) (d size_ctrlp n : Z) (st : flank) :
  length (fl_ctrlp (for_range 0 n (fun _ => flank_step points d size_ctrlp) st)) =
  length (fl_ctrlp st).
Proof.
  destruct (Z.le_gt_cases 0 n) as [Hle|Hgt].
  - apply (for_range_inv (fun _ s => length (fl_ctrlp s) = length (fl_ctrlp st)));
      [exact Hle | reflexivity |].
    intros i s _ H. unfold flank_step, memcpy. cbn [fl_ctrlp].
    rewrite length_memmove. exact H.
  - rewrite for_range_done by lia. reflexivity.
Qed.

(** the knots after the insertion of [n > 0] knots: those up to [k] stay,
    [n] copies of [net.u] follow, the others move up by [n] *)
Lemma insert_knots_layout (alias : bool) (b : tsBSpline F)
    (net : tsDeBoorNet F) (n : Z) :
  bspline_wf b -> order b * dim b <= INT_MAX ->
  0 < n -> 0 <= Net.s net -> Net.s net + n <= order b ->
  Net.h net = deg b - Net.s net ->
  deg b <= Net.k net -> Net.k net + 1 < n_knots b ->
  (n_ctrlp b + n) * dim b * size_flt <= PTRDIFF_MAX ->
  (n_knots b + n) * size_flt <= PTRDIFF_MAX ->
  exists b',
    ts_internal_bspline_insert_knot alias b net n = (TS_SUCCESS, b') /\
    bspline_wf b' /\
    deg b' = deg b /\ order b' = order b /\ dim b' = dim b /\
    n_ctrlp b' = n_ctrlp b + n /\ n_knots b' = n_knots b + n /\
    (forall i, 0 <= i < n_knots b + n ->
       lget (knots b') i =
       if i <=? Net.k net then lget (knots b) i
       else if i <=? Net.k net + n then Net.u net
       else lget (knots b) (i - n)).
Proof.
  intros Hwf Hfit Hn Hs Hsn Hh Hkd Hkn Hcs' Hks'.
  pose proof Hwf as [Hdeg (Ho & Hk & Hc & Hd) Hlc Hlk Hcs Hks].
  assert (Hod : order b <= order b * dim b) by nia.
  assert (Hnd : 0 < n * dim b <= order b * dim b) by nia.
  destruct (resize_back_grow alias b n Hwf ltac:(lia) Hcs' Hks')
    as (r & Hr & R1 & R2 & R3 & R4 & R5 & R6 & R7 & R8 & R9).
  unfold ts_internal_bspline_insert_knot.
  assert (E1 : Net.s net +! n = Net.s net + n) by (unwrap; zlia).
  rewrite E1. replace (Net.s net + n >? order b) with false by lia.
  rewrite to_int_small by lia.
  replace (n <? 0) with false by lia.
  rewrite Hr. replace (TS_SUCCESS <? 0) with false by reflexivity.
  replace (n =? 0) with false by lia.
  assert (Esrc : deg (if alias then r else b) = deg b /\
                 dim (if alias then r else b) = dim b)
    by (destruct alias; split; first [assumption | reflexivity]).
  destruct Esrc as [Esd Esm]. rewrite Esd, Esm.
  assert (EN : Net.h net +! 1 = deg b - Net.s net + 1) by (rewrite Hh; unwrap; zlia).
  rewrite EN.
  assert (HN : 0 < (deg b - Net.s net + 1) * dim b <= order b * dim b) by nia.
  assert (E2 : (deg b - Net.s net + 1) *! dim b = (deg b - Net.s net + 1) * dim b)
    by (unwrap; zlia).
  rewrite E2, to_int_small by lia.
  replace ((deg b - Net.s net + 1) * dim b <? 0) with false by lia.
  assert (E3 : deg b - Net.s net + 1 -! n +! 1 = deg b - Net.s net + 1 - n + 1)
    by (unwrap; zlia).
  rewrite E3.
  assert (HN2 : 0 < (deg b - Net.s net + 1 - n + 1) * dim b <= order b * dim b) by nia.
  rewrite to_int_neg_stride by lia.
  replace (- ((deg b - Net.s net + 1 - n + 1) * dim b) >=? 0) with false by lia.
  eexists. split; [reflexivity|]. fields.
  assert (Ek1 : Net.k net +! 1 = Net.k net + 1) by (unwrap; zlia).
  assert (Ek2 : Net.k net + 1 +! n = Net.k net + 1 + n) by (unwrap; zlia).
  assert (Ek3 : (Net.k net + 1) *! size_flt = (Net.k net + 1) * size_flt)
    by (unwrap; zlia).
  assert (Ek4 : n_knots r -! n -! (Net.k net + 1) = n_knots b - (Net.k net + 1))
    by (rewrite R5; unwrap; zlia).
  assert (Ek5 : (n_knots b - (Net.k net + 1)) *! size_flt =
                (n_knots b - (Net.k net + 1)) * size_flt) by (unwrap; zlia).
  rewrite Ek1, Ek2, Ek3, Ek4, Ek5.
  set (kn1 := memmove (knots r) 0 (knots (if alias then r else b)) 0
                ((Net.k net + 1) * size_flt)).
  set (kn2 := memmove kn1 (Net.k net + 1 + n) (if alias then kn1 else knots b)
                (Net.k net + 1) ((n_knots b - (Net.k net + 1)) * size_flt)).
  assert (L1 : Z.of_nat (length kn1) = n_knots b + n)
    by (subst kn1; rewrite length_memmove; exact R7).
  assert (L2 : Z.of_nat (length kn2) = n_knots b + n)
    by (subst kn2; rewrite length_memmove; exact L1).
  assert (G1 : forall i, 0 <= i < n_knots b -> lget kn1 i = lget (knots b) i).
  { intros i Hi. subst kn1. rewrite lget_memmove by lia.
    unfold size_flt. rewrite Z.div_mul by lia.
    destruct ((0 <=? i) && (i <? 0 + (Net.k net + 1))) eqn:C.
    - replace (0 + (i - 0)) with i by lia. destruct alias; [apply R9; lia | reflexivity].
    - apply R9. lia. }
  assert (G2 : forall i, 0 <= i < n_knots b + n ->
                 lget kn2 i =
                 if i <=? Net.k net then lget (knots b) i
                 else if i <=? Net.k net + n then lget kn1 i
                 else lget (knots b) (i - n)).
  { intros i Hi. subst kn2. rewrite lget_memmove by lia.
    unfold size_flt. rewrite Z.div_mul by lia.
    destruct (i <=? Net.k net) eqn:C1.
    - replace (Net.k net + 1 + n <=? i) with false by lia. cbn [andb].
      apply G1. lia.
    - destruct (i <=? Net.k net + n) eqn:C2.
      + replace (Net.k net + 1 + n <=? i) with false by lia. reflexivity.
      + replace ((Net.k net + 1 + n <=? i) &&
                 (i <? Net.k net + 1 + n + (n_knots b - (Net.k net + 1))))
          with true by lia.
        replace (Net.k net + 1 + (i - (Net.k net + 1 + n))) with (i - n) by lia.
        destruct alias; [apply G1; lia | reflexivity]. }
  destruct (fill_from_spec (Net.k net + 1) n (Net.u net) kn2 ltac:(lia)) as [L3 G3].
  split.
  - constructor; fields; unfold bspline_inv; fields.
    + lia.
    + rewrite R1, R2, R3, R4, R5. repeat split; lia.
    + rewrite flank_length. cbn [fl_ctrlp]. unfold memcpy.
      rewrite length_memmove, flank_length. cbn [fl_ctrlp].
      rewrite !length_memmove. rewrite R6, R4, R3. reflexivity.
    + rewrite L3, L2. lia.
    + rewrite R4, R3. exact Hcs'.
    + rewrite R5. exact Hks'.
  - repeat split; try assumption.
    intros i Hi. rewrite G3, G2, L2 by lia.
    destruct (i <=? Net.k net) eqn:C1.
    + replace (Net.k net + 1 <=? i) with false by lia. reflexivity.
    + destruct (i <=? Net.k net + n) eqn:C2.
      * replace ((Net.k net + 1 <=? i) && (i <? Net.k net + 1 + n) &&
                 (i <? n_knots b + n)) with true by lia. reflexivity.
      * replace (i <? Net.k net + 1 + n) with false by lia.
        rewrite andb_false_r. reflexivity.
Qed.

(** a successful evaluation: where the span search stopped, and what the
    net records *)
Lemma evaluate_success (b : tsBSpline F) (u : F) (c : tsError)
    (net : tsDeBoorNet F) :
  bspline_wf b -> ts_bspline_evaluate b u = (c, net) -> c >= 0 ->
  exists k1,
    span_search (Z.to_nat (n_knots b)) (knots b) u 0 0 = (k1, Net.s net) /\
    Net.k net = k1 - 1 /\ 1 <= k1 <= n_knots b /\
    0 <= Net.s net <= order b /\
    (c = 0 \/ c = 1 \/ c = 2) /\
    (c = 0 -> Net.s net <= deg b /\ deg b < k1 /\
              k1 <= n_knots b - deg b + Net.s net - 1 /\
              Net.h net = deg b - Net.s net) /\
    (c <> 0 -> Net.s net = order b) /\
    Net.u net = (if ts_fequals u (lget (knots b) (k1 - 1))
                 then lget (knots b) (k1 - 1) else u).
Proof.
  intros [Hdeg (Ho & Hk & Hc & Hd) _ _ _ Hks].
  unfold ts_bspline_evaluate.
  destruct (span_search _ _ _ _ _) as [k1 s] eqn:Hs.
  pose proof (span_search_range _ _ _ _ _ _ _ Hs) as [Hk1 Hs1].
  destruct (k1 =? 0) eqn:C1;
    [intros H He; inversion H; subst c; unfold TS_U_UNDEFINED in He; lia|].
  destruct ((k1 =? n_knots b) && (s =? 0)) eqn:C2;
    [intros H He; inversion H; subst c; unfold TS_U_UNDEFINED in He; lia|].
  assert (E : n_knots b -! deg b +! s -! 1 = n_knots b - deg b + s - 1)
    by (unwrap; zlia).
  rewrite E.
  destruct ((s <=? deg b) && _) eqn:C3;
    [intros H He; inversion H; subst c; unfold TS_U_UNDEFINED in He; lia|].
  assert (E1 : k1 -! 1 = k1 - 1) by (unwrap; zlia). rewrite E1.
  destruct (s >? order b) eqn:C4;
    [intros H He; inversion H; subst c; unfold TS_MULTIPLICITY in He; lia|].
  destruct (s =? order b) eqn:C5.
  { destruct ((k1 - 1 =? deg b) || (k1 - 1 =? n_knots b -! 1)).
    - destruct (malloc _);
        [|intros H He; inversion H; subst c; unfold TS_MALLOC in He; lia].
      intros H _. inversion H. subst. fields. exists k1.
      repeat split; try lia; try tauto.
    - destruct (malloc _);
        [|intros H He; inversion H; subst c; unfold TS_MALLOC in He; lia].
      intros H _. inversion H. subst. fields. exists k1.
      repeat split; try lia; try tauto. }
  match goal with |- context [malloc ?n] => destruct (malloc n) end;
    [|intros H He; inversion H; subst c; unfold TS_MALLOC in He; lia].
  intros H _. inversion H. subst. fields.
  exists k1. replace (deg b <? s) with false by lia.
  assert (E2 : deg b -! s = deg b - s) by (unwrap; zlia).
  rewrite E2. repeat split; try lia; try tauto.
Qed.

Lemma net_fits_int_row (b : tsBSpline F) :
  bspline_wf b -> net_fits_int b -> order b * dim b <= INT_MAX.
Proof.
  intros [Hdeg (Ho & Hk & Hc & Hd) _ _ _ _] Hf. unfold net_fits_int in Hf.
  assert (order b <= order b * (order b + 1) / 2)
    by (apply Z.div_le_lower_bound; nia).
  nia.
Qed.


(** the search seen as stopped after the knots it visited *)
Lemma span_search_prefix (todo : nat) (kn : list F) (u : F) (k s k' s' : Z) :
  span_search todo kn u k s = (k', s') ->
  span_search (Z.to_nat (k' - k)) kn u k s = (k', s').
Proof.
  revert k s. induction todo as [|todo IH]; intros k s H; simpl in H.
  - inversion H. subst. replace (k' - k') with 0 by lia. reflexivity.
  - destruct (ts_fequals u (lget kn k)) eqn:E1.
    + pose proof (span_search_range _ _ _ _ _ _ _ H) as [R _].
      apply IH in H.
      replace (Z.to_nat (k' - k)) with (S (Z.to_nat (k' - (k + 1)))) by lia.
      simpl. rewrite E1. exact H.
    + destruct (flt u (lget kn k)) eqn:E2.
      * inversion H. subst. replace (k' - k') with 0 by lia. reflexivity.
      * pose proof (span_search_range _ _ _ _ _ _ _ H) as [R _].
        apply IH in H.
        replace (Z.to_nat (k' - k)) with (S (Z.to_nat (k' - (k + 1)))) by lia.
        simpl. rewrite E1, E2. exact H.
Qed.

(** a search that visited all of its [a] knots goes on with the next ones *)
Lemma span_search_app (a c : nat) (kn : list F) (u : F) (k s s' : Z) :
  span_search a kn u k s = (k + Z.of_nat a, s') ->
  span_search (a + c) kn u k s = span_search c kn u (k + Z.of_nat a) s'.
Proof.
  revert k s. induction a as [|a IH]; intros k s H; cbn [span_search] in H.
  - inversion H. simpl. f_equal. lia.
  - cbn [Nat.add span_search].
    destruct (ts_fequals u (lget kn k)) eqn:E1.
    + replace (k + Z.of_nat (S a)) with (k + 1 + Z.of_nat a) in * by lia.
      apply IH. exact H.
    + destruct (flt u (lget kn k)) eqn:E2.
      * inversion H. lia.
      * replace (k + Z.of_nat (S a)) with (k + 1 + Z.of_nat a) in * by lia.
        apply IH. exact H.
Qed.

(** the span search in a knot vector into which [n] knots tolerantly
    equal to [u] were inserted after the span of [u] *)
Lemma span_search_inserted (kn kn' : list F) (u : F) (nk k1 s n : Z) :
  span_search (Z.to_nat nk) kn u 0 0 = (k1, s) ->
  k1 < nk -> 0 <= n ->
  (forall i, 0 <= i < k1 -> lget kn' i = lget kn i) ->
  (forall i, k1 <= i < k1 + n -> ts_fequals u (lget kn' i) = true) ->
  lget kn' (k1 + n) = lget kn k1 ->
  span_search (Z.to_nat (nk + n)) kn' u 0 0 = (k1 + n, s + n).
Proof.
  intros Hs Hlt Hn Hpre Hmid Hnext.
  pose proof (span_search_range _ _ _ _ _ _ _ Hs) as [R _].
  destruct (span_search_stop _ _ _ _ _ _ _ Hs) as [_ [Hend|(_ & E1 & E2)]]; [lia|].
  apply span_search_prefix in Hs. replace (k1 - 0) with k1 in Hs by lia.
  replace (Z.to_nat (nk + n))
    with (Z.to_nat k1 + (Z.to_nat n + S (Z.to_nat (nk - k1 - 1))))%nat by lia.
  rewrite (span_search_app _ _ _ _ _ _ s).
  - rewrite span_search_count by (intros i Hi; apply Hmid; lia).
    rewrite !Z2Nat.id by lia. cbn [Z.add].
    apply span_search_break; rewrite Hnext; assumption.
  - rewrite Z2Nat.id by lia. cbn [Z.add].
    rewrite <- Hs. symmetry. apply span_search_ext.
    intros i Hi. symmetry. apply Hpre. lia.
Qed.

(** C2.  Let the evaluation of a well-formed [B] at [u] return the code [c]
    and the net [net].  With [c = 1] or [c = 2], [split] returns [B] itself
    (as a copy when the output is another object) and [k' = net.k].  With
    [c = 0], [split] returns what the insertion of [net.h + 1] knots
    returns, errors included; when [u] is tolerantly equal to itself, the
    net has its [N (N + 1) / 2] points ([N = net.h + 1]) and the larger
    buffers can be allocated, that insertion succeeds with
    [k' = net.k + net.h + 1], the inserted knots equal [net.u], and the span
    search of the result at [u] counts the multiplicity [order].  With an
    error [c < 0], [split] returns [c] and [k' = 0]. *)
Theorem split_behaviour (alias : bool) (b : tsBSpline F) (u : F)
    (c : tsError) (net : tsDeBoorNet F) :
  bspline_wf b -> net_fits_int b ->
  ts_bspline_evaluate b u = (c, net) ->
  (c >= 1 ->
   ts_bspline_split alias b u =
   ((if alias then c else TS_SUCCESS), b, Net.k net)) /\
  (c = 0 ->
   ts_bspline_split alias b u =
   (let (e, r) := ts_internal_bspline_insert_knot alias b net (Net.h net +! 1) in
    (e, r, if e >=? 0 then Net.k net +! Net.h net +! 1 else 0))) /\
  (c = 0 -> ts_fequals u u = true ->
   Net.n_points net = tri (Net.h net + 1) ->
   (n_ctrlp b + (Net.h net + 1)) * dim b * size_flt <= PTRDIFF_MAX ->
   (n_knots b + (Net.h net + 1)) * size_flt <= PTRDIFF_MAX ->
   exists b',
     ts_bspline_split alias b u = (TS_SUCCESS, b', Net.k net + Net.h net + 1) /\
     bspline_wf b' /\ order b' = order b /\
     n_ctrlp b' = n_ctrlp b + (Net.h net + 1) /\
     n_knots b' = n_knots b + (Net.h net + 1) /\
     (forall i, 0 <= i < n_knots b' ->
        lget (knots b') i =
        if i <=? Net.k net then lget (knots b) i
        else if i <=? Net.k net + (Net.h net + 1) then Net.u net
        else lget (knots b) (i - (Net.h net + 1))) /\
     span_search (Z.to_nat (n_knots b')) (knots b') u 0 0 =
     (Net.k net + Net.h net + 2, order b)) /\
  (c < 0 ->
   ts_bspline_split alias b u =
   (c, (if alias then b else ts_bspline_default), 0)).
Proof.
  intros Hwf Hfit Hev.
  pose proof Hwf as [Hdeg (Ho & Hk & Hcc & Hd) Hlc Hlk Hcs Hks].
  split; [|split; [|split]].
  - intros Hc. unfold ts_bspline_split. rewrite Hev.
    replace (c >=? 1) with true by lia.
    destruct alias; cbn [negb].
    + replace (c >=? 0) with true by lia. reflexivity.
    + rewrite copy_wf by exact Hwf. reflexivity.
  - intros ->. unfold ts_bspline_split. rewrite Hev. reflexivity.
  - intros -> Hu _ Hcs' Hks'.
    destruct (evaluate_success b u 0 net Hwf Hev ltac:(lia))
      as (k1 & Hs & K & Hk1 & S & _ & H0 & _ & U).
    destruct (H0 eq_refl) as (S1 & K1 & K2 & Hh).
    assert (EN : Net.h net +! 1 = Net.h net + 1) by (unwrap; zlia).
    destruct (insert_knots_layout alias b net (Net.h net + 1))
      as (b' & Hins & Hwf' & D1 & D2 & D3 & D4 & D5 & G); try assumption; try lia.
    { apply net_fits_int_row; assumption. }
    exists b'. unfold ts_bspline_split. rewrite Hev.
    replace (0 >=? 1) with false by reflexivity.
    replace (0 =? 0) with true by reflexivity.
    rewrite EN, Hins.
    replace (TS_SUCCESS >=? 0) with true by reflexivity.
    assert (EK : Net.k net +! Net.h net +! 1 = Net.k net + Net.h net + 1)
      by (unwrap; zlia).
    rewrite EK. split; [reflexivity|]. split; [exact Hwf'|].
    rewrite D5. repeat split; try assumption.
    replace (Net.k net + Net.h net + 2) with (k1 + (Net.h net + 1)) by lia.
    replace (order b) with (Net.s net + (Net.h net + 1)) by lia.
    apply (span_search_inserted (knots b)); try assumption; try lia.
    + intros i Hi. rewrite G by lia. replace (i <=? Net.k net) with true by lia.
      reflexivity.
    + intros i Hi. rewrite G by lia. replace (i <=? Net.k net) with false by lia.
      replace (i <=? Net.k net + (Net.h net + 1)) with true by lia.
      rewrite U. destruct (ts_fequals u (lget (knots b) (k1 - 1))) eqn:E;
        assumption.
    + rewrite G by lia.
      replace (k1 + (Net.h net + 1) <=? Net.k net) with false by lia.
      replace (k1 + (Net.h net + 1) <=? Net.k net + (Net.h net + 1)) with false by lia.
      f_equal. lia.
  - intros Hc. unfold ts_bspline_split. rewrite Hev.
    replace (c >=? 1) with false by lia.
    replace (c =? 0) with false by lia.
    destruct alias; reflexivity.
Qed.
End Insert.

(** ** The denominators of the de Boor recursion *)

Section Denominators.
Context {F : Type} {ops : FloatOps F} {laws : FloatLaws ops}.

(** the knots on the two sides of the span of [u] are strictly ordered *)
Lemma span_strict (b : tsBSpline F) (u : F) (net : tsDeBoorNet F) (i j : Z) :
  bspline_wf b -> knots_sorted b ->
  ts_bspline_evaluate b u = (0, net) ->
  0 <= i <= Net.k net -> Net.k net + 1 <= j < n_knots b ->
  flt (lget (knots b) i) (lget (knots b) j) = true.
Proof.
  intros Hwf Hsort Hev Hi Hj.
  pose proof Hwf as [Hdeg (Ho & Hk & Hcc & Hd) Hlc Hlk Hcs Hks].
  destruct (evaluate_success b u 0 net Hwf Hev ltac:(lia))
    as (k1 & Hs & K & Hk1 & S & _ & H0 & _ & U).
  destruct (H0 eq_refl) as (S1 & K1 & K2 & Hh).
  destruct (span_search_stop _ _ _ _ _ _ _ Hs) as [Hpre [Hend|(_ & E1 & E2)]]; [lia|].
  assert (Hmid : flt (lget (knots b) (k1 - 1)) (lget (knots b) k1) = true).
  { pose proof (Hsort (k1 - 1) k1 ltac:(lia) ltac:(lia)) as Hle.
    destruct (Hpre (k1 - 1) ltac:(lia)) as [A|[B1 B2]].
    - destruct (flt (lget (knots b) (k1 - 1)) (lget (knots b) k1)) eqn:C;
        [reflexivity|].
      rewrite (fequals_compat u _ _ Hle C) in A. congruence.
    - apply (fle_flt_trans _ u); [|exact E2].
      apply fle_total; [|apply (Hsort (k1 - 1) (k1 - 1)); lia | exact B2].
      apply (flt_ordered _ _ E2). }
  apply (flt_fle_trans _ (lget (knots b) k1)); [|apply Hsort; lia].
  apply (fle_flt_trans _ (lget (knots b) (k1 - 1))); [apply Hsort; lia | exact Hmid].
Qed.

(** C8.  For every well-formed b-spline with a weakly increasing knot
    vector of values of the type and every parameter whose evaluation runs
    the de Boor recursion (code 0, [s <= deg]), the denominator
    [u_(i+deg-r+1) - u_i] is not zero at any level [r] in [1, h] and any
    index [i] in [fst + r, lst], where [fst = k - deg] and [lst = k - s]. *)
Theorem deboor_division_safe (b : tsBSpline F) (u : F) (net : tsDeBoorNet F)
    (r i : Z) :
  bspline_wf b -> knots_sorted b ->
  (forall j, 0 <= j < n_knots b -> fvalid (lget (knots b) j)) ->
  ts_bspline_evaluate b u = (0, net) ->
  1 <= r <= Net.h net ->
  Net.k net - deg b + r <= i <= Net.k net - Net.s net ->
  is_zero (deboor_denominator (knots b) (deg b) r i) = false.
Proof.
  intros Hwf Hsort Hval Hev Hr Hi.
  pose proof Hwf as [Hdeg (Ho & Hk & Hcc & Hd) Hlc Hlk Hcs Hks].
  destruct (evaluate_success b u 0 net Hwf Hev ltac:(lia))
    as (k1 & Hs & K & Hk1 & S & _ & H0 & _ & U).
  destruct (H0 eq_refl) as (S1 & K1 & K2 & Hh).
  unfold deboor_denominator.
  assert (E : i +! deg b -! r +! 1 = i + deg b - r + 1) by (unwrap; zlia).
  rewrite E.
  apply fsub_nonzero; [apply Hval; lia | apply Hval; lia |].
  apply (span_strict b u net); try assumption; lia.
Qed.
End Denominators.

(** ** The laws in single precision *)

Ltac rank_cases :=
  cbn [SFcompare is_nan rank rank_lt CompOpp];
  split;
  [ let X := fresh "X" in intros X; try discriminate X; repeat split; lia
  | let X1 := fresh "X" in let X2 := fresh "X" in let X3 := fresh "X" in
    intros (X1 & X2 & X3); try discriminate; try reflexivity; lia ].

Lemma SFltb_rank (a b : spec_float) :
  SFltb a b = true <->
  is_nan a = false /\ is_nan b = false /\ rank_lt (rank a) (rank b).
Proof.
  unfold SFltb.
  destruct a as [[]|[]| |[] ma ea], b as [[]|[]| |[] mb eb];
    cbn [SFcompare]; change (PosDef.Pos.compare_cont Eq) with Pos.compare;
    try (destruct (Z.compare_spec ea eb); destruct (Pos.compare_spec ma mb));
    rank_cases.
Qed.

Lemma SFleb_rank (a b : spec_float) :
  SFleb a b = true <->
  is_nan a = false /\ is_nan b = false /\ ~ rank_lt (rank b) (rank a).
Proof.
  unfold SFleb.
  destruct a as [[]|[]| |[] ma ea], b as [[]|[]| |[] mb eb];
    cbn [SFcompare]; change (PosDef.Pos.compare_cont Eq) with Pos.compare;
    try (destruct (Z.compare_spec ea eb); destruct (Pos.compare_spec ma mb));
    rank_cases.
Qed.

Lemma b32_flt_fle_trans (a b c : spec_float) :
  SFltb a b = true -> SFleb b c = true -> SFltb a c = true.
Proof.
  rewrite !SFltb_rank, SFleb_rank. unfold rank_lt.
  destruct (rank a) as [[a1 a2] a3], (rank b) as [[b1 b2] b3],
           (rank c) as [[c1 c2] c3].
  intros (N1 & N2 & L) (_ & N3 & G). repeat split; try assumption. lia.
Qed.

Lemma b32_fle_flt_trans (a b c : spec_float) :
  SFleb a b = true -> SFltb b c = true -> SFltb a c = true.
Proof.
  rewrite !SFltb_rank, SFleb_rank. unfold rank_lt.
  destruct (rank a) as [[a1 a2] a3], (rank b) as [[b1 b2] b3],
           (rank c) as [[c1 c2] c3].
  intros (N1 & N2 & G) (_ & N3 & L). repeat split; try assumption. lia.
Qed.

Lemma b32_fle_total (a b : spec_float) :
  SFleb a a = true -> SFleb b b = true -> SFltb a b = false -> SFleb b a = true.
Proof.
  intros Ha Hb Hlt. apply SFleb_rank in Ha. apply SFleb_rank in Hb.
  apply SFleb_rank. repeat split; try tauto.
  intros L. assert (SFltb a b = true) by (apply SFltb_rank; tauto). congruence.
Qed.

Lemma b32_flt_ordered (a b : spec_float) : SFltb a b = true -> SFleb a a = true.
Proof.
  rewrite SFltb_rank, SFleb_rank. unfold rank_lt.
  destruct (rank a) as [[a1 a2] a3]. intros (N1 & _ & _).
  repeat split; try assumption. lia.
Qed.

(** two values that compare equal are the same value or two zeros *)
Lemma b32_equal_values (a b : spec_float) :
  SFleb a b = true -> SFltb a b = false ->
  a = b \/ (B32.is_zero a = true /\ B32.is_zero b = true).
Proof.
  unfold SFleb, SFltb.
  destruct a as [[]|[]| |[] ma ea], b as [[]|[]| |[] mb eb];
    cbn [SFcompare B32.is_zero]; change (PosDef.Pos.compare_cont Eq) with Pos.compare;
    try (destruct (Z.compare_spec ea eb); destruct (Pos.compare_spec ma mb));
    cbn [CompOpp]; intros X1 X2; try discriminate;
    try (left; reflexivity); try (right; split; reflexivity);
    left; subst; reflexivity.
Qed.

Lemma b32_fequals_zero (u : spec_float) (s1 s2 : bool) :
  ts_fequals u (S754_zero s1) = ts_fequals u (S754_zero s2).
Proof.
  destruct u as [[]|[]| |[] m e], s1, s2; reflexivity.
Qed.

Lemma b32_fequals_compat (u a b : spec_float) :
  SFleb a b = true -> SFltb a b = false -> ts_fequals u a = ts_fequals u b.
Proof.
  intros H1 H2. destruct (b32_equal_values a b H1 H2) as [->|[Za Zb]];
    [reflexivity|].
  destruct a; try discriminate. destruct b; try discriminate.
  apply b32_fequals_zero.
Qed.

(** ** Rounding never produces a zero from a non-zero mantissa *)

Lemma digits2_pos_size (p : positive) : digits2_pos p = Pos.size p.
Proof. induction p as [p IH|p IH|]; simpl; rewrite ?IH; reflexivity. Qed.

Lemma digits2_bounds (p : positive) :
  2 ^ (Zpos (digits2_pos p) - 1) <= Zpos p < 2 ^ Zpos (digits2_pos p).
Proof.
  rewrite digits2_pos_size.
  pose proof (Pos.size_gt p) as Hgt. pose proof (Pos.size_le p) as Hle.
  apply Pos2Z.pos_lt_pos in Hgt. apply Pos2Z.pos_le_pos in Hle.
  rewrite Pos2Z.inj_pow in Hgt, Hle.
  split; [|exact Hgt].
  replace (2 ^ Zpos (Pos.size p)) with (2 * 2 ^ (Zpos (Pos.size p) - 1)) in Hle.
  - lia.
  - rewrite <- Z.pow_succ_r by lia. f_equal. lia.
Qed.

Lemma shr_1_half (x : shr_record) :
  0 <= shr_m x -> 2 * shr_m (shr_1 x) <= shr_m x <= 2 * shr_m (shr_1 x) + 1.
Proof.
  destruct x as [m r s]. cbn [shr_m]. intros Hm.
  destruct m as [|[p|p|]|p]; cbn [shr_1 shr_m]; lia.
Qed.

Lemma shr_iter_lower (p : positive) (x : shr_record) (c : Z) :
  0 <= c -> c * 2 ^ Zpos p <= shr_m x -> c <= shr_m (iter_pos shr_1 p x).
Proof.
  revert x c. induction p as [p IH|p IH|]; intros x c Hc Hx; cbn [iter_pos].
  - assert (E : 2 ^ Zpos p~1 = 2 * (2 ^ Zpos p * 2 ^ Zpos p)).
    { replace (Zpos p~1) with (Zpos p + Zpos p + 1) by lia.
      rewrite !Z.pow_add_r by lia. change (2 ^ 1) with 2. lia. }
    rewrite E in Hx.
    assert (P : 0 < 2 ^ Zpos p) by (apply Z.pow_pos_nonneg; lia).
    apply IH; [exact Hc|]. apply IH; [nia|].
    pose proof (shr_1_half x ltac:(nia)). nia.
  - assert (E : 2 ^ Zpos p~0 = 2 ^ Zpos p * 2 ^ Zpos p).
    { replace (Zpos p~0) with (Zpos p + Zpos p) by lia.
      apply Z.pow_add_r; lia. }
    rewrite E in Hx.
    assert (P : 0 < 2 ^ Zpos p) by (apply Z.pow_pos_nonneg; lia).
    apply IH; [exact Hc|]. apply IH; nia.
  - change (2 ^ 1) with 2 in Hx.
    pose proof (shr_1_half x ltac:(lia)). lia.
Qed.

Lemma shr_record_of_loc_m (m : Z) (l : location) :
  shr_m (shr_record_of_loc m l) = m.
Proof. destruct l as [|[]]; reflexivity. Qed.

(** the shift of [shr_fexp] keeps a positive mantissa positive, and the
    exponent above the least one *)
Lemma shr_fexp_positive (m : positive) (e : Z) (l : location) :
  -149 <= e ->
  1 <= shr_m (fst (shr_fexp B32.prec B32.emax (Zpos m) e l)) /\
  -149 <= snd (shr_fexp B32.prec B32.emax (Zpos m) e l).
Proof.
  intros He. unfold shr_fexp, shr, fexp, emin, B32.prec, B32.emax.
  cbn [Zdigits2].
  pose proof (digits2_bounds m) as [Hlo _].
  set (d := Zpos (digits2_pos m)) in *.
  destruct (Z.max (d + e - 24) (3 - 128 - 24) - e) as [|p|p] eqn:En;
    cbn [fst snd]; rewrite ?shr_record_of_loc_m; try lia.
  split; [|lia].
  assert (Hd : d - 1 = 23 + Zpos p) by lia.
  apply shr_iter_lower; [lia|].
  rewrite shr_record_of_loc_m. rewrite Hd in Hlo.
  rewrite Z.pow_add_r in Hlo by lia.
  assert (1 <= 2 ^ 23) by (vm_compute; discriminate). 
  assert (0 < 2 ^ Zpos p) by (apply Z.pow_pos_nonneg; lia). nia.
Qed.

Lemma round_nearest_even_lower (m : Z) (l : location) :
  m <= round_nearest_even m l.
Proof.
  destruct l as [|[]]; cbn [round_nearest_even]; try lia.
  destruct (Z.even m); lia.
Qed.

Lemma binary_round_aux_nonzero (s : bool) (m : positive) (e : Z) (l : location) :
  -149 <= e ->
  B32.is_zero (binary_round_aux B32.prec B32.emax s (Zpos m) e l) = false.
Proof.
  intros He. unfold binary_round_aux.
  pose proof (shr_fexp_positive m e l He) as [M1 E1].
  destruct (shr_fexp B32.prec B32.emax (Zpos m) e l) as [mrs' e'].
  cbn [fst snd] in M1, E1.
  pose proof (round_nearest_even_lower (shr_m mrs') (loc_of_shr_record mrs')) as R.
  destruct (round_nearest_even (shr_m mrs') (loc_of_shr_record mrs')) as [|m2|m2];
    try lia.
  pose proof (shr_fexp_positive m2 e' loc_Exact E1) as [M3 E3].
  destruct (shr_fexp B32.prec B32.emax (Zpos m2) e' loc_Exact) as [mrs'' e''].
  cbn [fst snd] in M3, E3.
  destruct (shr_m mrs'') as [|m3|m3]; try lia.
  destruct (e'' <=? B32.emax - B32.prec); reflexivity.
Qed.

Lemma binary_round_nonzero (s : bool) (m : positive) (e : Z) :
  -149 <= e -> B32.is_zero (binary_round B32.prec B32.emax s m e) = false.
Proof.
  intros He. unfold binary_round, shl_align.
  set (e' := fexp B32.prec B32.emax (Zpos (digits2_pos m) + e)).
  assert (He' : -149 <= e')
    by (subst e'; unfold fexp, emin, B32.prec, B32.emax; lia).
  destruct (e' - e); apply binary_round_aux_nonzero; assumption.
Qed.

Lemma binary_normalize_nonzero (m e : Z) (sz : bool) :
  m <> 0 -> -149 <= e ->
  B32.is_zero (binary_normalize B32.prec B32.emax m e sz) = false.
Proof.
  intros Hm He. destruct m as [|p|p]; [contradiction | |];
    apply binary_round_nonzero; exact He.
Qed.

(** ** The difference of two distinct single precision values *)

Lemma iter_xO_value (m d : positive) :
  Zpos (Pos.iter xO m d) = Zpos m * 2 ^ Zpos d.
Proof.
  induction d as [|d IH] using Pos.peano_ind.
  - cbn [Pos.iter]. change (2 ^ 1) with 2. lia.
  - rewrite Pos.iter_succ, Pos2Z.inj_xO, IH, Pos2Z.inj_succ, Z.pow_succ_r by lia.
    lia.
Qed.

Lemma shl_align_value (m : positive) (e ez : Z) :
  ez <= e -> Zpos (fst (shl_align m e ez)) = Zpos m * 2 ^ (e - ez).
Proof.
  intros H. unfold shl_align.
  destruct (ez - e) as [|p|p] eqn:E; cbn [fst]; try lia.
  - replace (e - ez) with 0 by lia. lia.
  - rewrite iter_xO_value. do 2 f_equal. lia.
Qed.

(** a canonical mantissa: at most 24 digits, and exactly 24 above the
    least exponent *)
Lemma valid_finite (s : bool) (m : positive) (e : Z) :
  B32.valid (S754_finite s m e) = true ->
  -149 <= e /\ Zpos m < 16777216 /\ (-149 < e -> 8388608 <= Zpos m).
Proof.
  unfold B32.valid, valid_binary, bounded, canonical_mantissa, fexp, emin,
    B32.prec, B32.emax.
  intros H. apply andb_prop in H. destruct H as [H _]. apply Z.eqb_eq in H.
  pose proof (digits2_bounds m) as [Hlo Hhi].
  set (d := Zpos (digits2_pos m)) in *.
  assert (Hd : d <= 24) by lia.
  split; [lia|]. split.
  - assert (2 ^ d <= 2 ^ 24) by (apply Z.pow_le_mono_r; lia).
    change (2 ^ 24) with 16777216 in *. lia.
  - intros He. assert (d = 24) by lia.
    replace (d - 1) with 23 in Hlo by lia.
    change (2 ^ 23) with 8388608 in Hlo. exact Hlo.
Qed.

Lemma b32_is_zero (x : spec_float) : is_zero x = B32.is_zero x.
Proof. destruct x as [[]|[]| |[] m e]; reflexivity. Qed.

Lemma b32_fsub_nonzero (a b : spec_float) :
  B32.valid a = true -> B32.valid b = true -> SFltb a b = true ->
  is_zero (fsub b a) = false.
Proof.
  intros Va Vb Hlt. rewrite b32_is_zero.
  destruct a as [[]|[]| |sa ma ea], b as [[]|[]| |sb mb eb];
    try discriminate Hlt; try reflexivity.
  destruct (valid_finite _ _ _ Va) as (Ea & Ma & Na).
  destruct (valid_finite _ _ _ Vb) as (Eb & Mb & Nb).
  apply SFltb_rank in Hlt. destruct Hlt as (_ & _ & Hlt).
  cbn [fsub binary32 SFsub].
  apply binary_normalize_nonzero; [|lia].
  rewrite !shl_align_value by lia.
  destruct (Z.compare_spec ea eb) as [Heq|Hl|Hg].
  - subst eb. replace (Z.min ea ea) with ea by lia.
    replace (ea - ea) with 0 by lia. change (2 ^ 0) with 1.
    destruct sa, sb; cbn [cond_Zopp rank rank_lt] in *; lia.
  - replace (Z.min eb ea) with ea by lia.
    replace (ea - ea) with 0 by lia. change (2 ^ 0) with 1.
    assert (Q : 2 ^ 1 <= 2 ^ (eb - ea)) by (apply Z.pow_le_mono_r; lia).
    change (2 ^ 1) with 2 in Q. specialize (Nb ltac:(lia)).
    destruct sa, sb; cbn [cond_Zopp]; nia.
  - replace (Z.min eb ea) with eb by lia.
    replace (eb - eb) with 0 by lia. change (2 ^ 0) with 1.
    assert (Q : 2 ^ 1 <= 2 ^ (ea - eb)) by (apply Z.pow_le_mono_r; lia).
    change (2 ^ 1) with 2 in Q. specialize (Na ltac:(lia)).
    destruct sa, sb; cbn [cond_Zopp]; nia.
Qed.

(** a finite value is tolerantly equal to itself *)
Lemma b32_fequals_refl (u : spec_float) :
  match u with S754_zero _ | S754_finite _ _ _ => True | _ => False end ->
  ts_fequals u u = true.
Proof.
  destruct u as [[]|s| |s m e]; intros H; try contradiction; try reflexivity.
  unfold ts_fequals. cbn [fsub binary32 SFsub].
  rewrite Z.sub_diag. reflexivity.
Qed.

#[export] Instance binary32_laws : FloatLaws binary32 := {|
  fvalid := fun x => B32.valid x = true;
  flt_fle_trans := b32_flt_fle_trans;
  fle_flt_trans := b32_fle_flt_trans;
  fle_total := b32_fle_total;
  flt_ordered := b32_flt_ordered;
  fequals_compat := b32_fequals_compat;
  fsub_nonzero := b32_fsub_nonzero
|}.

(** ** The theorems at concrete b-splines *)

Lemma bezier3_wf : bspline_wf Examples.bezier3.
Proof. constructor; unfold bspline_inv; cbn; zlia. Qed.

Lemma bezier3_fits : net_fits_int Examples.bezier3.
Proof. unfold net_fits_int. vm_compute. discriminate. Qed.

Lemma bezier3_evaluate :
  ts_bspline_evaluate Examples.bezier3 B32.half = (0, Examples.bezier3_net).
Proof. vm_compute. reflexivity. Qed.

Lemma bezier3_sorted : knots_sorted Examples.bezier3.
Proof.
  intros i j Hij Hj. cbn in Hj.
  assert (Hi' : 0 <= i < 8) by lia. assert (Hj' : 0 <= j < 8) by lia.
  each_index i; each_index j; try lia; reflexivity.
Qed.

Lemma bezier3_valid (j : Z) :
  0 <= j < n_knots Examples.bezier3 -> fvalid (lget (knots Examples.bezier3) j).
Proof.
  cbn [n_knots Examples.bezier3]. intros Hj. each_index j; reflexivity.
Qed.

Lemma clamped_knot_setup_witness :
  (exists b : tsBSpline spec_float,
      ts_bspline_new 2 1 5 TS_CLAMPED = (TS_SUCCESS, b) /\
      n_knots b = 5 + 2 + 1 /\
      knots b = clamped_knots_spec 2 (n_knots b)) /\
  knots (snd (ts_bspline_new (F := spec_float) 3 1 7 TS_CLAMPED)) =
  [F0; F0; F0; F0;
   fdiv (of_size 1) (of_size 4); fdiv (of_size 2) (of_size 4);
   fdiv (of_size 3) (of_size 4);
   F1; F1; F1; F1].
Proof. apply (clamped_knot_setup 2 1 5); zlia. Defined.

(** the knots of scenario 1 and of the quadratic example of section 4.2
    as single precision values *)
Lemma clamped_knots_values :
  knots (snd (ts_bspline_new (F := spec_float) 3 1 7 TS_CLAMPED)) =
  [F0; F0; F0; F0; Examples.f32 1 4; Examples.f32 2 4; Examples.f32 3 4;
   F1; F1; F1; F1] /\
  knots (snd (ts_bspline_new (F := spec_float) 2 1 5 TS_CLAMPED)) =
  [F0; F0; F0; Examples.f32 1 3; Examples.f32 2 3; F1; F1; F1].
Proof. split; vm_compute; reflexivity. Qed.

Lemma clamped_setup_divides_by_positive_witness :
  let b : tsBSpline spec_float := snd (ts_bspline_new 2 1 3 TS_CLAMPED) in
  ts_bspline_new 2 1 3 TS_CLAMPED = (TS_SUCCESS, b) /\
  clamped_dominator (n_knots b) (deg b) = 1 /\
  forall kn numerator dominator,
    fill_uniform (loop_exit 0 (order b)) (n_knots b -! order b)
      numerator dominator kn = (kn, numerator).
Proof.
  intros b.
  assert (Hnew : ts_bspline_new 2 1 3 TS_CLAMPED = (TS_SUCCESS, b))
    by (vm_compute; reflexivity).
  destruct (clamped_setup_divides_by_positive 2 1 3 b
              ltac:(zlia) ltac:(zlia) ltac:(zlia) Hnew)
    as (_ & _ & H3 & _ & _ & H6).
  split; [exact Hnew|]. split; [exact H3|].
  apply H6. reflexivity.
Defined.

Lemma evaluate_undefined_iff_witness :
  span_search (Z.to_nat (n_knots Examples.line)) (knots Examples.line)
    (Examples.f32 2 1) 0 0 = (4, 0) /\
  (fst (ts_bspline_evaluate Examples.line (Examples.f32 2 1)) = TS_U_UNDEFINED <->
   4 = 0 \/ (4 = n_knots Examples.line /\ 0 = 0) \/
   (0 <= deg Examples.line /\
    (4 <= deg Examples.line \/
     4 > n_knots Examples.line - deg Examples.line + 0 - 1))) /\
  (fst (ts_bspline_evaluate Examples.line (Examples.f32 2 1)) = TS_U_UNDEFINED ->
   snd (ts_bspline_evaluate Examples.line (Examples.f32 2 1)) =
   ts_deboornet_default).
Proof.
  assert (Hs : span_search (Z.to_nat (n_knots Examples.line)) (knots Examples.line)
                 (Examples.f32 2 1) 0 0 = (4, 0)) by (vm_compute; reflexivity).
  split; [exact Hs|].
  apply (evaluate_undefined_iff Examples.line (Examples.f32 2 1) 4 0 line_wf Hs).
Defined.

(** the cubic in the plane and a b-spline that differs from it in the
    scalars 7 to 13 of its control points *)
Lemma ts_bspline_equals_first_scalars_witness :
  let c' := firstn 7 (ctrlp Examples.cubic7) ++ repeat (Examples.f32 9 1) 7 in
  ts_bspline_equals Examples.cubic7
    (with_buffers Examples.cubic7 c' (knots Examples.cubic7)) = 1 /\
  ts_fequals (lget (ctrlp Examples.cubic7) 7) (lget c' 7) = false.
Proof.
  intros c'. split; [|vm_compute; reflexivity].
  apply (proj2 (ts_bspline_equals_first_scalars Examples.cubic7 Examples.cubic7)).
  - cbn [n_ctrlp Examples.cubic7]. intros i Hi. each_index i; vm_compute; reflexivity.
  - cbn [n_knots Examples.cubic7]. intros i Hi. each_index i; vm_compute; reflexivity.
Defined.




Lemma split_behaviour_witness :
  exists b',
    ts_bspline_split false Examples.bezier3 B32.half =
    (TS_SUCCESS, b',
     Net.k Examples.bezier3_net + Net.h Examples.bezier3_net + 1) /\
    bspline_wf b' /\ order b' = order Examples.bezier3 /\
    n_ctrlp b' = n_ctrlp Examples.bezier3 + (Net.h Examples.bezier3_net + 1) /\
    n_knots b' = n_knots Examples.bezier3 + (Net.h Examples.bezier3_net + 1) /\
    (forall i, 0 <= i < n_knots b' ->
       lget (knots b') i =
       if i <=? Net.k Examples.bezier3_net then lget (knots Examples.bezier3) i
       else if i <=? Net.k Examples.bezier3_net + (Net.h Examples.bezier3_net + 1)
            then Net.u Examples.bezier3_net
       else lget (knots Examples.bezier3) (i - (Net.h Examples.bezier3_net + 1))) /\
    span_search (Z.to_nat (n_knots b')) (knots b') B32.half 0 0 =
    (Net.k Examples.bezier3_net + Net.h Examples.bezier3_net + 2,
     order Examples.bezier3).
Proof.
  destruct (split_behaviour false Examples.bezier3 B32.half 0
              Examples.bezier3_net bezier3_wf bezier3_fits bezier3_evaluate)
    as (_ & _ & H & _).
  apply H; [reflexivity | vm_compute; reflexivity | reflexivity
           | cbn; zlia | cbn; zlia].
Defined.

Lemma cubic7_header_ok : header_ok Examples.cubic7.
Proof. unfold header_ok, bspline_inv. cbn. repeat split; zlia. Qed.

Lemma invariants_preserved_witness :
  exists b',
    ts_bspline_to_beziers 8 false Examples.cubic7 = Some (TS_SUCCESS, b') /\
    n_ctrlp b' = 16 /\ n_knots b' = 20 /\ bspline_inv b'.
Proof.
  eexists. split; [vm_compute; reflexivity|].
  split; [reflexivity|]. split; [reflexivity|].
  destruct (@invariants_preserved spec_float binary32) as (_ & _ & _ & _ & _ & H).
  eapply (H 8%nat false Examples.cubic7 TS_SUCCESS);
    [exact cubic7_header_ok | vm_compute; reflexivity | unfold TS_SUCCESS; lia].
Defined.

Lemma deboor_division_safe_witness :
  is_zero (deboor_denominator (knots Examples.bezier3) (deg Examples.bezier3) 1 1)
  = false.
Proof.
  apply (deboor_division_safe Examples.bezier3 B32.half Examples.bezier3_net 1 1
           bezier3_wf bezier3_sorted bezier3_valid bezier3_evaluate);
    cbn; lia.
Defined.

(** * Further properties of the code *)

(** ** [ts_bspline_new] and [ts_bspline_setup_knots] *)

Section New.
Context {F : Type} {ops : FloatOps F}.

Lemma wrap_range (z : Z) : 0 <= wrap z < SIZE_MOD.
Proof. unfold wrap. apply Z.mod_pos_bound. reflexivity. Qed.

Lemma setup_knots_length (b : tsBSpline F) (type : tsBSplineType) :
  length (knots (snd (ts_bspline_setup_knots true b type))) = length (knots b) /\
  ctrlp (snd (ts_bspline_setup_knots true b type)) = ctrlp b.
Proof.
  unfold ts_bspline_setup_knots.
  replace (TS_SUCCESS <? 0) with false by reflexivity.
  destruct type; fields.
  - split; reflexivity.
  - split; [|reflexivity].
    unfold fill_uniform.
    destruct (Z.le_gt_cases 0 (n_knots b)) as [Hle|Hgt].
    + apply (for_range_inv
               (fun (_ : Z) (st : list F * Z) => length (fst st) = length (knots b)));
        [exact Hle | reflexivity |].
      intros i [kn num] _ H. cbn [fst] in *. rewrite length_lset. exact H.
    + rewrite for_range_done by lia. reflexivity.
  - split; [|reflexivity].
    destruct (fill_const_spec
                (loop_exit (loop_exit 0 (order b)) (n_knots b -! order b))
                (n_knots b) F1
                (fst (fill_uniform (loop_exit 0 (order b)) (n_knots b -! order b) 1
                        (clamped_dominator (n_knots b) (deg b))
                        (fill_const 0 (order b) F0 (knots b))))) as [L3 _].
    rewrite L3.
    destruct (fill_const_spec 0 (order b) F0 (knots b)) as [L1 _].
    rewrite <- L1.
    unfold fill_uniform.
    set (lo := loop_exit 0 (order b)). set (hi := n_knots b -! order b).
    destruct (Z.le_gt_cases lo hi) as [Hle|Hgt].
    + apply (for_range_inv
               (fun (_ : Z) (st : list F * Z) =>
                  length (fst st) = length (fill_const 0 (order b) F0 (knots b))));
        [exact Hle | reflexivity |].
      intros i [kn num] _ H. cbn [fst] in *. rewrite length_lset. exact H.
    + rewrite for_range_done by lia. reflexivity.
Qed.

(** [ts_bspline_new] where one of its two buffers cannot be allocated *)
Lemma new_alloc_fails (p d m : Z) (type : tsBSplineType) :
  in_size p -> in_size d -> in_size m ->
  1 <= d -> p < m -> m + p + 1 < SIZE_MOD ->
  PTRDIFF_MAX < m *! d *! size_flt \/ PTRDIFF_MAX < (m + p + 1) *! size_flt ->
  ts_bspline_new p d m type = (TS_MALLOC, ts_bspline_default).
Proof.
  intros Hp Hd Hm H1 H2 H3 H4. unfold ts_bspline_new.
  assert (Ho : p +! 1 = p + 1) by (unwrap; zlia).
  replace (d <? 1) with false by lia.
  replace (p >=? m) with false by lia. rewrite Ho.
  replace (p + 1 <? p) with false by lia.
  assert (E : m +! (p + 1) = m + p + 1) by (unwrap; zlia).
  rewrite E. replace (m + p + 1 <? m) with false by zlia.
  unfold malloc.
  destruct (m *! d *! size_flt <=? PTRDIFF_MAX) eqn:C1; [|reflexivity].
  destruct ((m + p + 1) *! size_flt <=? PTRDIFF_MAX) eqn:C2; [|reflexivity].
  lia.
Qed.

(** in the embedding [ts_bspline_new] succeeds whenever both requests are
    granted; with the knots OPENED or CLAMPED this is what the code does
    only if the byte count of the knots did not wrap around, as the setup
    writes [n_knots] knots *)
Lemma new_allocates (p d m : Z) (type : tsBSplineType) :
  in_size p -> in_size d -> in_size m ->
  1 <= d -> p < m -> m + p + 1 < SIZE_MOD ->
  m *! d *! size_flt <= PTRDIFF_MAX -> (m + p + 1) *! size_flt <= PTRDIFF_MAX ->
  fst (ts_bspline_new p d m type) = TS_SUCCESS.
Proof.
  intros Hp Hd Hm H1 H2 H3 H4 H5. unfold ts_bspline_new.
  assert (Ho : p +! 1 = p + 1) by (unwrap; zlia).
  replace (d <? 1) with false by lia.
  replace (p >=? m) with false by lia. rewrite Ho.
  replace (p + 1 <? p) with false by lia.
  assert (E : m +! (p + 1) = m + p + 1) by (unwrap; zlia).
  rewrite E. replace (m + p + 1 <? m) with false by zlia.
  rewrite !malloc_ok by assumption. reflexivity.
Qed.

(** X1.  The outcome of [ts_bspline_new] on any arguments: the four errors
    in the order of the checks; success when the byte counts of the two
    buffers do not wrap around and can be allocated, and, with the knots
    left as they are ([TS_NONE]), also when the wrapped byte counts can
    be allocated.  The check [order < deg] never fires: [deg < n_ctrlp]
    leaves room for [deg + 1]. *)
Theorem ts_bspline_new_outcome (p d m : Z) (type : tsBSplineType) :
  in_size p -> in_size d -> in_size m ->
  (d = 0 ->
   ts_bspline_new p d m type = (TS_DIM_ZERO, ts_bspline_default)) /\
  (1 <= d -> m <= p ->
   ts_bspline_new p d m type = (TS_DEG_GE_NCTRLP, ts_bspline_default)) /\
  (1 <= d -> p < m -> SIZE_MOD <= m + p + 1 ->
   ts_bspline_new p d m type = (TS_OVER_UNDERFLOW, ts_bspline_default)) /\
  (1 <= d -> p < m -> m + p + 1 < SIZE_MOD ->
   PTRDIFF_MAX < m *! d *! size_flt \/ PTRDIFF_MAX < (m + p + 1) *! size_flt ->
   ts_bspline_new p d m type = (TS_MALLOC, ts_bspline_default)) /\
  (1 <= d -> p < m ->
   m * d * size_flt <= PTRDIFF_MAX -> (m + p + 1) * size_flt <= PTRDIFF_MAX ->
   fst (ts_bspline_new p d m type) = TS_SUCCESS) /\
  (1 <= d -> p < m -> m + p + 1 < SIZE_MOD ->
   m *! d *! size_flt <= PTRDIFF_MAX -> (m + p + 1) *! size_flt <= PTRDIFF_MAX ->
   fst (ts_bspline_new p d m TS_NONE) = TS_SUCCESS).
Proof.
  intros Hp Hd Hm. unfold ts_bspline_new.
  assert (Ho : p < m -> p +! 1 = p + 1) by (intros; unwrap; zlia).
  split; [|split; [|split; [|split; [|split]]]].
  - intros ->. reflexivity.
  - intros H1 H2. replace (d <? 1) with false by lia.
    replace (p >=? m) with true by lia. reflexivity.
  - intros H1 H2 H3. replace (d <? 1) with false by lia.
    replace (p >=? m) with false by lia. rewrite Ho by assumption.
    replace (p + 1 <? p) with false by lia.
    assert (E : m +! (p + 1) = m + p + 1 - SIZE_MOD).
    { unfold sz_add, wrap.
      replace (m + (p + 1)) with (m + p + 1 - SIZE_MOD + 1 * SIZE_MOD) by lia.
      rewrite Z.mod_add by (rewrite SIZE_MOD_eq; lia).
      apply Z.mod_small. zlia. }
    rewrite E. replace (m + p + 1 - SIZE_MOD <? m) with true by zlia.
    reflexivity.
  - intros H1 H2 H3 H4. fold (ts_bspline_new p d m type).
    apply new_alloc_fails; assumption.
  - intros H1 H2 H4 H5. fold (ts_bspline_new p d m type).
    assert (0 <= m * d) by (unfold in_size in *; nia).
    assert (E1 : m *! d *! size_flt = m * d * size_flt) by (unwrap; zlia).
    assert (E2 : (m + p + 1) *! size_flt = (m + p + 1) * size_flt)
      by (unwrap; zlia).
    apply new_allocates; try assumption; zlia.
  - intros H1 H2 H3 H4 H5. fold (ts_bspline_new p d m TS_NONE).
    apply new_allocates; assumption.
Qed.

(** X2.  What a successful [ts_bspline_new] returns: the header, and buffers
    of the sizes that were passed to [malloc].  The products
    [n_ctrlp * dim * sizeof(float)] and [n_knots * sizeof(float)] are not
    checked for overflow: the b-spline is well formed exactly when they
    did not wrap. *)
Theorem ts_bspline_new_buffers (p d m : Z) (type : tsBSplineType)
    (b : tsBSpline F) :
  in_size p -> in_size d -> in_size m ->
  ts_bspline_new p d m type = (TS_SUCCESS, b) ->
  deg b = p /\ order b = p + 1 /\ dim b = d /\
  n_ctrlp b = m /\ n_knots b = m + p + 1 /\
  Z.of_nat (length (ctrlp b)) = (m *! d *! size_flt) / size_flt /\
  Z.of_nat (length (knots b)) = ((m + p + 1) *! size_flt) / size_flt /\
  (bspline_wf b <->
   m * d * size_flt <= PTRDIFF_MAX /\ (m + p + 1) * size_flt <= PTRDIFF_MAX).
Proof.
  intros Hp Hd Hm Hnew.
  destruct (ts_bspline_new_header _ _ _ _ _ Hp Hd Hm Hnew)
    as (H1 & H2 & H3 & H4 & H5 & D1 & D2 & D3 & D4 & D5).
  assert (Lc : Z.of_nat (length (ctrlp b)) = (m *! d *! size_flt) / size_flt /\
               Z.of_nat (length (knots b)) = ((m + p + 1) *! size_flt) / size_flt).
  { revert Hnew. unfold ts_bspline_new.
    replace (d <? 1) with false by lia.
    replace (p >=? m) with false by lia.
    assert (Ho : p +! 1 = p + 1) by (unwrap; zlia). rewrite Ho.
    replace (p + 1 <? p) with false by lia.
    assert (E : m +! (p + 1) = m + p + 1) by (unwrap; zlia).
    rewrite E. replace (m + p + 1 <? m) with false by zlia.
    rewrite !malloc_ok by assumption.
    intros H. injection H as Hb. subst b.
    match goal with
    | |- context [ts_bspline_setup_knots true ?b0 type] =>
      destruct (setup_knots_length b0 type) as [L1 L2]
    end.
    rewrite L1, L2. fields. rewrite !repeat_length.
    pose proof (wrap_range (m * d)) as W1.
    split; apply Z2Nat.id; apply Z.div_pos; unfold sz_mul; unfold size_flt;
      try lia; apply wrap_range. }
  destruct Lc as [Lc Lk].
  do 7 (split; [assumption|]).
  split.
  - intros [_ _ W1 W2 W3 W4]. rewrite D3, D4 in *. rewrite D5 in *. lia.
  - intros [B1 B2].
    assert (0 <= m * d) by (unfold in_size in *; nia).
    assert (E1 : m *! d *! size_flt = m * d * size_flt) by (unwrap; zlia).
    assert (E2 : (m + p + 1) *! size_flt = (m + p + 1) * size_flt) by (unwrap; zlia).
    rewrite E1 in Lc. rewrite E2 in Lk. unfold size_flt in Lc, Lk.
    rewrite Z.div_mul in Lc, Lk by lia.
    constructor; unfold bspline_inv; rewrite ?D1, ?D2, ?D3, ?D4, ?D5;
      try assumption; unfold in_size in *; try lia.
Qed.
End New.

Section Setup.
Context {F : Type} {ops : FloatOps F}.

(** X3.  [ts_bspline_setup_knots] on a well-formed b-spline, in place or into
    another object: it succeeds, leaves the header and the control points
    as they are, and the knots are untouched (NONE), uniform over [0, 1]
    (OPENED) or clamped (CLAMPED). *)
Theorem setup_knots_result (alias : bool) (b : tsBSpline F) :
  bspline_wf b ->
  ts_bspline_setup_knots alias b TS_NONE = (TS_SUCCESS, b) /\
  ts_bspline_setup_knots alias b TS_OPENED =
    (TS_SUCCESS, with_knots b (opened_knots_spec (n_knots b))) /\
  ts_bspline_setup_knots alias b TS_CLAMPED =
    (TS_SUCCESS, with_knots b (clamped_knots_spec (deg b) (n_knots b))).
Proof.
  intros Hwf.
  pose proof Hwf as [Hdeg (Ho & Hk & Hc & Hd) Hlc Hlk Hcs Hks].
  assert (Hcopy : (if alias then (TS_SUCCESS, b) else ts_bspline_copy false b) =
                  (TS_SUCCESS, b))
    by (destruct alias; [reflexivity | apply copy_wf; exact Hwf]).
  unfold ts_bspline_setup_knots. rewrite Hcopy.
  replace (TS_SUCCESS <? 0) with false by reflexivity.
  split; [reflexivity|]. split.
  - do 2 f_equal.
    assert (E : n_knots b -! 1 = n_knots b - 1) by (unwrap; zlia).
    rewrite E.
    destruct (fill_uniform_spec 0 (n_knots b) 0 (n_knots b - 1) (knots b))
      as [L G]; [lia | zlia |].
    apply list_ext.
    + rewrite L. unfold opened_knots_spec. rewrite length_map, length_seqZ. lia.
    + intros j Hj. rewrite L in Hj. rewrite G.
      replace ((0 <=? j) && (j <? n_knots b) && (0 <=? j) &&
               (j <? Z.of_nat (length (knots b)))) with true by lia.
      unfold opened_knots_spec. rewrite lget_map_seqZ by lia.
      do 2 f_equal. lia.
  - do 2 f_equal.
    pose proof (clamped_fill (deg b) (n_ctrlp b) (knots b)) as H.
    cbv zeta in H. rewrite <- Ho, <- Hk in H.
    apply H; [lia | zlia | lia].
Qed.
End Setup.

(** ** [ts_bspline_copy] *)

Section Copy.
Context {F : Type} {ops : FloatOps F}.

(** X4.  [ts_bspline_copy]: copying a b-spline onto itself is refused and
    leaves it as it is; the copy of a well-formed b-spline has the same
    header and the same control points and knots; the only failure is
    [TS_MALLOC], which leaves the default b-spline. *)
Theorem copy_outcome (b : tsBSpline F) :
  ts_bspline_copy true b = (TS_INPUT_EQ_OUTPUT, b) /\
  (bspline_wf b -> ts_bspline_copy false b = (TS_SUCCESS, b)) /\
  (fst (ts_bspline_copy false b) <> TS_SUCCESS ->
   ts_bspline_copy false b = (TS_MALLOC, ts_bspline_default)).
Proof.
  split; [reflexivity|]. split; [apply copy_wf|].
  unfold ts_bspline_copy.
  destruct (malloc (n_ctrlp b *! dim b *! size_flt)); [|reflexivity].
  destruct (malloc (n_knots b *! size_flt)); [|reflexivity].
  intros H. exfalso. apply H. reflexivity.
Qed.
End Copy.

(** ** [ts_bspline_resize] *)

Section Resize.
Context {F : Type} {ops : FloatOps F}.

(** [ts_bspline_new] without knot setup, on sizes that fit *)
Lemma new_none_ok (p d m : Z) :
  0 <= p < m -> 1 <= d ->
  m * d * size_flt <= PTRDIFF_MAX -> (m + p + 1) * size_flt <= PTRDIFF_MAX ->
  ts_bspline_new p d m TS_NONE =
  (TS_SUCCESS,
   mkBSpline p (p + 1) d m (m + p + 1)
     (repeat F0 (Z.to_nat (m * d))) (repeat F0 (Z.to_nat (m + p + 1)))).
Proof.
  intros Hp Hd Hc Hk. unfold ts_bspline_new.
  assert (Hcd : m <= m * d) by nia.
  replace (d <? 1) with false by lia.
  replace (p >=? m) with false by lia.
  assert (X1 : p +! 1 = p + 1) by (unwrap; zlia). rewrite X1.
  replace (p + 1 <? p) with false by lia.
  assert (X2 : m +! (p + 1) = m + p + 1) by (unwrap; zlia). rewrite X2.
  replace (m + p + 1 <? m) with false by lia.
  assert (X3 : m *! d *! size_flt = m * d * size_flt) by (unwrap; zlia).
  assert (X4 : (m + p + 1) *! size_flt = (m + p + 1) * size_flt) by (unwrap; zlia).
  rewrite X3, X4, !malloc_ok by zlia.
  unfold size_flt. rewrite !Z.div_mul by lia. reflexivity.
Qed.

Lemma realloc_ok (p : list F) (bytes : Z) :
  bytes <= PTRDIFF_MAX ->
  realloc p bytes = Some (resize_list F0 p (Z.to_nat (bytes / size_flt))).
Proof.
  intros H. unfold realloc.
  destruct (bytes <=? PTRDIFF_MAX) eqn:E; [reflexivity | lia].
Qed.

(** a successful resize: the header, and where the control points and
    knots of [b] are in the result *)
Lemma resize_content (alias back : bool) (b : tsBSpline F) (n : Z) :
  bspline_wf b -> in_int n -> n <> 0 ->
  deg b < n_ctrlp b + n ->
  (n_ctrlp b + n) * dim b * size_flt <= PTRDIFF_MAX ->
  (n_knots b + n) * size_flt <= PTRDIFF_MAX ->
  exists r,
    ts_bspline_resize alias b n back = (TS_SUCCESS, r) /\
    bspline_wf r /\
    deg r = deg b /\ order r = order b /\ dim r = dim b /\
    n_ctrlp r = n_ctrlp b + n /\ n_knots r = n_knots b + n /\
    (forall j, 0 <= j < n_ctrlp b * dim b ->
       0 <= j + (if back then 0 else n) * dim b < (n_ctrlp b + n) * dim b ->
       lget (ctrlp r) (j + (if back then 0 else n) * dim b) = lget (ctrlp b) j) /\
    (forall j, 0 <= j < n_knots b ->
       0 <= j + (if back then 0 else n) < n_knots b + n ->
       lget (knots r) (j + (if back then 0 else n)) = lget (knots b) j).
Proof.
  intros Hwf Hn Hn0 Hnew Hcs' Hks'.
  pose proof Hwf as [Hdeg (Ho & Hk & Hc & Hd) Hlc Hlk Hcs Hks].
  unfold in_int in Hn.
  assert (Hcd : 0 <= n_ctrlp b * dim b) by nia.
  assert (Hcd' : 0 <= (n_ctrlp b + n) * dim b) by nia.
  assert (Hdim : dim b <= n_ctrlp b * dim b) by nia.
  assert (Hmin : Z.min (n_ctrlp b) (n_ctrlp b + n) * dim b =
                 Z.min (n_ctrlp b * dim b) ((n_ctrlp b + n) * dim b)) by nia.
  unfold ts_bspline_resize.
  replace (n =? 0) with false by lia. cbn [andb].
  assert (E1 : n_ctrlp b +! n = n_ctrlp b + n) by (unwrap; zlia).
  assert (E2 : n_knots b +! n = n_knots b + n) by (unwrap; zlia).
  assert (E3 : dim b *! size_flt = dim b * size_flt) by (unwrap; zlia).
  rewrite E1, E2, E3.
  replace (n_ctrlp b + n <=? deg b) with false by lia.
  replace ((n <? 0) && (n_ctrlp b + n >? n_ctrlp b)) with false by lia.
  replace ((n >? 0) && (n_ctrlp b + n <? n_ctrlp b)) with false by lia.
  assert (E4 : (n_ctrlp b + n) *! (dim b * size_flt) =
               (n_ctrlp b + n) * dim b * size_flt) by (unwrap; zlia).
  assert (E5 : (n_knots b + n) *! size_flt = (n_knots b + n) * size_flt)
    by (unwrap; zlia).
  assert (E6 : n_ctrlp b *! (dim b * size_flt) = n_ctrlp b * dim b * size_flt)
    by (unwrap; zlia).
  assert (E7 : n_knots b *! size_flt = n_knots b * size_flt) by (unwrap; zlia).
  rewrite ?E4, ?E5, ?E6, ?E7.
  assert (D1 : forall x, x * dim b * size_flt / size_flt = x * dim b)
    by (intros x; unfold size_flt; apply Z.div_mul; lia).
  assert (D2 : forall x, x * size_flt / size_flt = x)
    by (intros x; unfold size_flt; apply Z.div_mul; lia).
  destruct alias; cbn [negb].
  - (* in place *)
    replace (TS_SUCCESS <? 0) with false by reflexivity.
    destruct back; cbn [negb andb].
    + (* at the back: realloc alone *)
      rewrite realloc_ok by (fields; rewrite ?E4; assumption).
      fields. rewrite realloc_ok by (rewrite ?E5; assumption).
      eexists. split; [reflexivity|]. fields.
      rewrite D1, D2.
      split; [constructor; unfold bspline_inv; fields;
              rewrite ?length_resize_list; try lia|].
      repeat split; try lia.
      * intros j Hj Hj'. replace (j + 0 * dim b) with j by lia.
        apply lget_resize_list. lia.
      * intros j Hj Hj'. replace (j + 0) with j by lia.
        apply lget_resize_list. lia.
    + destruct (n <? 0) eqn:Cn; [apply Z.ltb_lt in Cn | apply Z.ltb_ge in Cn].
      * (* shrink at the front *)
        replace (n >? 0) with false by lia.
        rewrite E4, E5. fields.
        rewrite realloc_ok by (fields; assumption).
        fields. rewrite realloc_ok by assumption.
        eexists. split; [reflexivity|]. fields.
        rewrite D1, D2.
        split; [constructor; unfold bspline_inv; fields;
                rewrite ?length_resize_list; try lia|].
        repeat split; try lia.
        -- intros j Hj Hj'.
           rewrite lget_resize_list by lia.
           rewrite lget_memmove by lia. rewrite D1.
           replace ((0 <=? j + n * dim b) &&
                    (j + n * dim b <? 0 + (n_ctrlp b + n) * dim b)) with true by lia.
           f_equal. lia.
        -- intros j Hj Hj'.
           rewrite lget_resize_list by lia.
           rewrite lget_memmove by lia. rewrite D2.
           replace ((0 <=? j + n) && (j + n <? 0 + (n_knots b + n))) with true by lia.
           f_equal. lia.
      * (* grow at the front *)
        replace (n >? 0) with true by lia.
        rewrite realloc_ok by (fields; assumption).
        fields. rewrite realloc_ok by assumption.
        eexists. split; [reflexivity|]. fields.
        rewrite E6, E7, !D1, !D2.
        split; [constructor; unfold bspline_inv; fields;
                rewrite ?length_memmove, ?length_resize_list; try lia|].
        repeat split; try lia.
        -- intros j Hj Hj'.
           rewrite lget_memmove by (rewrite length_resize_list; lia). rewrite D1.
           replace ((n * dim b <=? j + n * dim b) &&
                    (j + n * dim b <? n * dim b + n_ctrlp b * dim b)) with true by lia.
           rewrite lget_resize_list by lia. f_equal. lia.
        -- intros j Hj Hj'.
           rewrite lget_memmove by (rewrite length_resize_list; lia). rewrite D2.
           replace ((n <=? j + n) && (j + n <? n + n_knots b)) with true by lia.
           rewrite lget_resize_list by lia. f_equal. lia.
  - (* into another object *)
    rewrite new_none_ok by (try lia; rewrite <- ?Ho, <- ?Hk; try lia;
                            replace (n_ctrlp b + n + deg b + 1) with (n_knots b + n) by lia;
                            assumption).
    replace (TS_SUCCESS <? 0) with false by reflexivity.
    eexists. split; [reflexivity|]. fields. unfold memcpy.
    split; [constructor; unfold bspline_inv; fields;
            rewrite ?length_memmove, ?repeat_length; try lia|].
    repeat split; try lia.
    + intros j Hj Hj'.
      rewrite lget_memmove by (rewrite repeat_length; lia).
      destruct back; cbn [negb andb].
      * replace (j + 0 * dim b) with j in * by lia.
        destruct (n <? 0) eqn:Cn; rewrite ?E4, ?E6, D1;
          match goal with |- (if ?c then _ else _) = _ =>
            replace c with true by lia end; f_equal; lia.
      * destruct (n <? 0) eqn:Cn;
          [apply Z.ltb_lt in Cn; replace (n >? 0) with false by lia
          |apply Z.ltb_ge in Cn; replace (n >? 0) with true by lia];
          rewrite ?E4, ?E6, D1;
          match goal with |- (if ?c then _ else _) = _ =>
            replace c with true by lia end; f_equal; lia.
    + intros j Hj Hj'.
      rewrite lget_memmove by (rewrite repeat_length; lia).
      destruct back; cbn [negb andb].
      * replace (j + 0) with j in * by lia.
        destruct (n <? 0) eqn:Cn; rewrite ?E5, ?E7, D2;
          match goal with |- (if ?c then _ else _) = _ =>
            replace c with true by lia end; f_equal; lia.
      * destruct (n <? 0) eqn:Cn;
          [apply Z.ltb_lt in Cn; replace (n >? 0) with false by lia
          |apply Z.ltb_ge in Cn; replace (n >? 0) with true by lia];
          rewrite ?E5, ?E7, D2;
          match goal with |- (if ?c then _ else _) = _ =>
            replace c with true by lia end; f_equal; lia.
Qed.
End Resize.

Section ResizeThms.
Context {F : Type} {ops : FloatOps F}.

Lemma bspline_ext (x y : tsBSpline F) :
  deg x = deg y -> order x = order y -> dim x = dim y ->
  n_ctrlp x = n_ctrlp y -> n_knots x = n_knots y ->
  ctrlp x = ctrlp y -> knots x = knots y -> x = y.
Proof.
  destruct x, y. cbn. intros. subst. reflexivity.
Qed.

(** X5.  Resizing keeps the control points and knots that remain.  With
    [back] the point [i] of [b] stays the point [i]; at the front it
    becomes the point [i + n].  The growth at the front of the b-spline
    itself is left out: there the code moves the content through
    pointers that it took before [realloc]. *)
Theorem resize_keeps_points (alias back : bool) (b : tsBSpline F) (n : Z) :
  bspline_wf b -> in_int n -> n <> 0 ->
  (alias = true -> back = false -> n < 0) ->
  deg b < n_ctrlp b + n ->
  (n_ctrlp b + n) * dim b * size_flt <= PTRDIFF_MAX ->
  (n_knots b + n) * size_flt <= PTRDIFF_MAX ->
  exists r,
    ts_bspline_resize alias b n back = (TS_SUCCESS, r) /\
    bspline_wf r /\
    deg r = deg b /\ dim r = dim b /\
    n_ctrlp r = n_ctrlp b + n /\ n_knots r = n_knots b + n /\
    (forall i, 0 <= i < n_ctrlp b ->
       0 <= i + (if back then 0 else n) < n_ctrlp b + n ->
       ctrlp_at r (i + (if back then 0 else n)) = ctrlp_at b i) /\
    (forall i, 0 <= i < n_knots b ->
       0 <= i + (if back then 0 else n) < n_knots b + n ->
       lget (knots r) (i + (if back then 0 else n)) = lget (knots b) i).
Proof.
  intros Hwf Hn Hn0 _ Hnew Hcs' Hks'.
  pose proof Hwf as [Hdeg (Ho & Hk & Hc & Hd) Hlc Hlk Hcs Hks].
  destruct (resize_content alias back b n Hwf Hn Hn0 Hnew Hcs' Hks')
    as (r & Hr & Hwf' & R1 & R2 & R3 & R4 & R5 & Gc & Gk).
  exists r. split; [exact Hr|]. split; [exact Hwf'|].
  do 4 (split; [assumption|]). split; [|exact Gk].
  intros i Hi Hi'. unfold ctrlp_at. rewrite R3.
  apply map_ext_in. intros c Hc'. apply in_seqZ in Hc'.
  replace ((i + (if back then 0 else n)) * dim b + c)
    with (i * dim b + c + (if back then 0 else n) * dim b) by lia.
  apply Gc; nia.
Qed.

(** X6.  Growing a b-spline by [n] control points and shrinking the result
    by [n] at the same end gives the b-spline back.  The growth at the
    front of the b-spline itself is left out, as in X5. *)
Theorem resize_round_trip (a1 a2 back : bool) (b : tsBSpline F) (n : Z) :
  bspline_wf b -> 0 < n <= INT_MAX ->
  (a1 = true -> back = true) ->
  (n_ctrlp b + n) * dim b * size_flt <= PTRDIFF_MAX ->
  (n_knots b + n) * size_flt <= PTRDIFF_MAX ->
  exists r,
    ts_bspline_resize a1 b n back = (TS_SUCCESS, r) /\
    ts_bspline_resize a2 r (- n) back = (TS_SUCCESS, b).
Proof.
  intros Hwf Hn _ Hcs' Hks'.
  pose proof Hwf as [Hdeg (Ho & Hk & Hc & Hd) Hlc Hlk Hcs Hks].
  destruct (resize_content a1 back b n Hwf) as
    (r & Hr & Hwf' & R1 & R2 & R3 & R4 & R5 & Gc & Gk);
    try assumption; try (unfold in_int; lia).
  exists r. split; [exact Hr|].
  destruct (resize_content a2 back r (- n) Hwf') as
    (b' & Hb' & Hwf'' & B1 & B2 & B3 & B4 & B5 & Gc' & Gk');
    try (unfold in_int; lia).
  rewrite Hb'. f_equal.
  pose proof Hwf'' as [_ _ Hlc'' Hlk'' _ _].
  rewrite R4, R3 in *. rewrite R5 in *.
  replace (n_ctrlp b + n + - n) with (n_ctrlp b) in * by lia.
  replace (n_knots b + n + - n) with (n_knots b) in * by lia.
  rewrite B3, B4 in Hlc''. rewrite B5 in Hlk''.
  assert (Ec : ctrlp b' = ctrlp b).
  { apply list_ext; [lia|]. intros j Hj.
    destruct back.
    - specialize (Gc' j). specialize (Gc j).
      replace (j + 0 * dim b) with j in * by lia.
      rewrite Gc' by nia. apply Gc; nia.
    - specialize (Gc' (j + n * dim b)). specialize (Gc j).
      replace (j + n * dim b + - n * dim b) with j in Gc' by lia.
      rewrite Gc' by nia. apply Gc; nia. }
  assert (Ek : knots b' = knots b).
  { apply list_ext; [lia|]. intros j Hj.
    destruct back.
    - specialize (Gk' j). specialize (Gk j).
      replace (j + 0) with j in * by lia.
      rewrite Gk' by lia. apply Gk; lia.
    - specialize (Gk' (j + n)). specialize (Gk j).
      replace (j + n + - n) with j in Gk' by lia.
      rewrite Gk' by lia. apply Gk; lia. }
  apply bspline_ext; congruence.
Qed.

(** X7.  The outcome of [ts_bspline_resize] where it does not resize: [n = 0]
    leaves or copies the b-spline; removing more control points than
    there are is [TS_OVER_UNDERFLOW], leaving [deg] or fewer is
    [TS_DEG_GE_NCTRLP]; a control point buffer that cannot be allocated
    is [TS_MALLOC].  On these errors the output is left as it was when
    it is the input, and is the default b-spline otherwise. *)
Theorem resize_outcome (alias back : bool) (b : tsBSpline F) (n : Z) :
  bspline_wf b -> in_int n ->
  (n = 0 -> ts_bspline_resize alias b n back = (TS_SUCCESS, b)) /\
  (n <> 0 -> 0 <= n_ctrlp b + n <= deg b ->
   ts_bspline_resize alias b n back =
   (TS_DEG_GE_NCTRLP, if alias then b else ts_bspline_default)) /\
  (n_ctrlp b + n < 0 ->
   ts_bspline_resize alias b n back =
   (TS_OVER_UNDERFLOW, if alias then b else ts_bspline_default)) /\
  (PTRDIFF_MAX < (n_ctrlp b + n) * dim b * size_flt < SIZE_MOD ->
   ts_bspline_resize alias b n back =
   (TS_MALLOC, if alias then b else ts_bspline_default)).
Proof.
  intros Hwf Hn.
  pose proof Hwf as [Hdeg (Ho & Hk & Hc & Hd) Hlc Hlk Hcs Hks].
  unfold in_int in Hn.
  assert (Hcd : n_ctrlp b <= n_ctrlp b * dim b) by nia.
  split; [|split; [|split]].
  - intros ->. unfold ts_bspline_resize. cbn [Z.eqb andb].
    destruct alias; cbn [negb]; [reflexivity | apply copy_wf; exact Hwf].
  - intros Hn0 Hle. unfold ts_bspline_resize.
    replace (n =? 0) with false by lia. cbn [andb].
    assert (E1 : n_ctrlp b +! n = n_ctrlp b + n) by (unwrap; zlia).
    rewrite E1. replace (n_ctrlp b + n <=? deg b) with true by lia.
    reflexivity.
  - intros Hneg. unfold ts_bspline_resize.
    replace (n =? 0) with false by lia. cbn [andb].
    assert (E1 : n_ctrlp b +! n = n_ctrlp b + n + SIZE_MOD).
    { unfold sz_add, wrap.
      rewrite <- (Z.mod_add (n_ctrlp b + n) 1 SIZE_MOD) by (rewrite SIZE_MOD_eq; lia).
      replace (n_ctrlp b + n + 1 * SIZE_MOD) with (n_ctrlp b + n + SIZE_MOD) by lia.
      apply Z.mod_small. zlia. }
    rewrite E1.
    replace (n_ctrlp b + n + SIZE_MOD <=? deg b) with false by zlia.
    replace (n <? 0) with true by lia.
    replace (n_ctrlp b + n + SIZE_MOD >? n_ctrlp b) with true by zlia.
    reflexivity.
  - intros Hbig.
    assert (Hpos : 0 < n).
    { destruct (Z_le_gt_dec n 0) as [Hle|Hgt]; [exfalso | lia].
      assert ((n_ctrlp b + n) * dim b <= n_ctrlp b * dim b) by nia.
      unfold size_flt in *. lia. }
    unfold ts_bspline_resize.
    replace (n =? 0) with false by lia. cbn [andb].
    assert (E1 : n_ctrlp b +! n = n_ctrlp b + n) by (unwrap; zlia).
    assert (E3 : dim b *! size_flt = dim b * size_flt) by (unwrap; zlia).
    rewrite E1, E3.
    replace (n_ctrlp b + n <=? deg b) with false by lia.
    replace (n <? 0) with false by lia. cbn [andb].
    replace (n_ctrlp b + n <? n_ctrlp b) with false by lia.
    rewrite andb_false_r.
    assert (E4 : (n_ctrlp b + n) *! (dim b * size_flt) =
                 (n_ctrlp b + n) * dim b * size_flt).
    { unfold sz_mul. rewrite Z.mul_assoc. apply wrap_small. zlia. }
    destruct alias; cbn [negb].
    + replace (TS_SUCCESS <? 0) with false by reflexivity.
      rewrite andb_false_r. rewrite E4. unfold realloc.
      replace ((n_ctrlp b + n) * dim b * size_flt <=? PTRDIFF_MAX) with false by lia.
      reflexivity.
    + assert (Hsz : in_size (deg b) /\ in_size (dim b) /\ in_size (n_ctrlp b + n))
        by (unfold in_size; repeat split; zlia).
      destruct Hsz as (S1 & S2 & S3).
      rewrite (new_alloc_fails (deg b) (dim b) (n_ctrlp b + n) TS_NONE S1 S2 S3);
        [reflexivity | lia | lia | zlia |].
      left.
      assert (E5 : (n_ctrlp b + n) *! dim b *! size_flt =
                   (n_ctrlp b + n) * dim b * size_flt).
      { unfold sz_mul at 1. unfold sz_mul.
        rewrite (wrap_small ((n_ctrlp b + n) * dim b)) by (unfold size_flt in *; nia).
        apply wrap_small. zlia. }
      rewrite E5. lia.
Qed.

End ResizeThms.

(** ** [ts_bspline_evaluate]: full multiplicity and failures *)

Section EvaluateMore.
Context {F : Type} {ops : FloatOps F}.

(** X9.  Evaluation at a parameter of full multiplicity does no arithmetic:
    the codes 1 and 2 are returned exactly when the span search counted
    [order] knots, the net then holds one or two control points, and the
    result is the control point [P_(k - deg)], or the last control point
    when [k] is the last knot. *)
Theorem evaluate_full_multiplicity (b : tsBSpline F) (u : F) (c : tsError)
    (net : tsDeBoorNet F) :
  bspline_wf b -> ts_bspline_evaluate b u = (c, net) -> c >= 0 ->
  (c >= 1 <-> Net.s net = order b) /\
  (c >= 1 ->
   Net.h net = 0 /\ Net.n_points net = c /\
   Z.of_nat (length (Net.points net)) = c * dim b /\
   (c = 1 <-> Net.k net = deg b \/ Net.k net = n_knots b - 1) /\
   deg b <= Net.k net < n_knots b /\
   net_result net =
   ctrlp_at b (Z.min (Net.k net - deg b) (n_ctrlp b - 1))).
Proof.
  intros Hwf Hev Hc.
  pose proof Hwf as [Hdeg (Ho & Hk & Hcc & Hd) Hlc Hlk Hcs Hks].
  destruct (evaluate_success b u c net Hwf Hev Hc)
    as (k1 & Hs & K & Hk1 & S & Hcode & H0 & H1 & U).
  pose proof (span_search_range _ _ _ _ _ _ _ Hs) as [_ Hsk].
  split.
  { split; [intros; apply H1; lia|].
    intros Hso. destruct (Z.eq_dec c 0) as [->|]; [|lia].
    destruct (H0 eq_refl); lia. }
  intros Hc1. specialize (H1 ltac:(lia)).
  assert (Hcd : dim b <= n_ctrlp b * dim b) by nia.
  revert Hev. unfold ts_bspline_evaluate. rewrite Hs, H1.
  replace (k1 =? 0) with false by lia.
  replace ((k1 =? n_knots b) && (order b =? 0)) with false by lia.
  replace (order b <=? deg b) with false by lia. cbn [andb].
  replace (order b >? order b) with false by lia.
  replace (order b =? order b) with true by lia.
  replace (deg b <? order b) with true by lia.
  assert (E1 : k1 -! 1 = k1 - 1) by (unwrap; zlia).
  assert (E2 : n_knots b -! 1 = n_knots b - 1) by (unwrap; zlia).
  assert (E3 : size_flt *! dim b = dim b * size_flt) by (unwrap; zlia).
  rewrite E1, E2, E3.
  destruct ((k1 - 1 =? deg b) || (k1 - 1 =? n_knots b - 1)) eqn:Cend.
  - rewrite malloc_ok by zlia.
    intros H. injection H as Hc' Hnet. subst c net. fields.
    unfold memcpy. rewrite length_memmove, repeat_length.
    unfold size_flt. rewrite Z.div_mul by lia.
    split; [reflexivity|]. split; [reflexivity|]. split; [lia|].
    split; [split; [intros _; lia | reflexivity]|]. split; [lia|].
    unfold net_result, ctrlp_at. cbn [Net.points Net.result Net.dim].
    apply map_ext_in. intros cc Hin. apply in_seqZ in Hin.
    rewrite lget_memmove by (rewrite repeat_length; lia).
    unfold size_flt. rewrite Z.div_mul by lia.
    replace ((0 <=? 0 + cc) && (0 + cc <? 0 + dim b)) with true by lia.
    f_equal. destruct (k1 - 1 =? deg b) eqn:C.
    + replace (Z.min (k1 - 1 - deg b) (n_ctrlp b - 1)) with 0 by lia. lia.
    + assert (k1 = n_knots b) by lia. subst k1.
      replace (Z.min (n_knots b - 1 - deg b) (n_ctrlp b - 1))
        with (n_ctrlp b - 1) by lia.
      assert (0 <= (n_ctrlp b - 1) * dim b <= n_ctrlp b * dim b) by nia.
      replace (n_knots b - 1 -! order b) with (n_ctrlp b - 1) by (unwrap; zlia).
      unwrap. lia.
  - assert (Hk2 : order b <= k1 - 1 <= n_knots b - 2) by lia.
    assert (Hn2 : 2 <= n_ctrlp b) by lia.
    assert (Hcd2 : 2 * dim b <= n_ctrlp b * dim b) by nia.
    assert (E4 : 2 *! (dim b * size_flt) = dim b * 2 * size_flt) by (unwrap; zlia).
    rewrite E4, malloc_ok by zlia.
    intros H. injection H as Hc' Hnet. subst c net. fields.
    unfold memcpy. rewrite length_memmove, repeat_length.
    unfold size_flt. rewrite Z.div_mul by lia.
    split; [reflexivity|]. split; [reflexivity|]. split; [lia|].
    split; [split; [discriminate | lia]|]. split; [lia|].
    unfold net_result, ctrlp_at. cbn [Net.points Net.result Net.dim].
    apply map_ext_in. intros cc Hin. apply in_seqZ in Hin.
    rewrite lget_memmove by (rewrite repeat_length; lia).
    unfold size_flt. rewrite Z.div_mul by lia.
    replace ((0 <=? dim b + cc) && (dim b + cc <? 0 + dim b * 2)) with true by lia.
    f_equal.
    replace (Z.min (k1 - 1 - deg b) (n_ctrlp b - 1)) with (k1 - 1 - deg b) by lia.
    assert (0 <= (k1 - 1 - order b) * dim b <= n_ctrlp b * dim b) by nia.
    replace (k1 - 1 -! order b) with (k1 - 1 - order b) by (unwrap; zlia).
    unwrap. lia.
Qed.

(** X10.  Every failure of [ts_bspline_evaluate] leaves the net in its default
    state and is one of [TS_U_UNDEFINED], [TS_MULTIPLICITY] and
    [TS_MALLOC]; it is [TS_MULTIPLICITY] exactly when the span search
    counted more than [order] knots tolerantly equal to the parameter. *)
Theorem evaluate_failures (b : tsBSpline F) (u : F) (k1 s : Z) :
  bspline_wf b ->
  span_search (Z.to_nat (n_knots b)) (knots b) u 0 0 = (k1, s) ->
  (fst (ts_bspline_evaluate b u) < 0 ->
   snd (ts_bspline_evaluate b u) = ts_deboornet_default /\
   (fst (ts_bspline_evaluate b u) = TS_U_UNDEFINED \/
    fst (ts_bspline_evaluate b u) = TS_MULTIPLICITY \/
    fst (ts_bspline_evaluate b u) = TS_MALLOC)) /\
  (fst (ts_bspline_evaluate b u) = TS_MULTIPLICITY <->
   order b < s).
Proof.
  intros Hwf Hs.
  pose proof Hwf as [Hdeg (Ho & Hk & Hcc & Hd) Hlc Hlk Hcs Hks].
  pose proof (span_search_range _ _ _ _ _ _ _ Hs) as [Hk1 Hsk].
  assert (E : n_knots b -! deg b +! s -! 1 = n_knots b - deg b + s - 1)
    by (unwrap; zlia).
  unfold ts_bspline_evaluate. rewrite Hs, E.
  destruct (k1 =? 0) eqn:C1.
  { cbn [fst snd]. split; [intros _; split; [reflexivity | left; reflexivity]|].
    split; [discriminate | lia]. }
  destruct ((k1 =? n_knots b) && (s =? 0)) eqn:C2.
  { cbn [fst snd]. split; [intros _; split; [reflexivity | left; reflexivity]|].
    split; [discriminate | lia]. }
  destruct ((s <=? deg b) && _) eqn:C3.
  { cbn [fst snd]. split; [intros _; split; [reflexivity | left; reflexivity]|].
    split; [discriminate | lia]. }
  destruct (s >? order b) eqn:C4.
  { cbn [fst snd]. split; [intros _; split; [reflexivity | right; left; reflexivity]|].
    split; [lia | reflexivity]. }
  assert (Hmal : forall (x : option (list F))
                   (f : list F -> tsError * tsDeBoorNet F),
             (forall p, 0 <= fst (f p)) ->
             let r := match x with Some p => f p | None => (TS_MALLOC, ts_deboornet_default) end in
             (fst r < 0 -> snd r = ts_deboornet_default /\
                (fst r = TS_U_UNDEFINED \/ fst r = TS_MULTIPLICITY \/ fst r = TS_MALLOC)) /\
             (fst r = TS_MULTIPLICITY <-> order b < s)).
  { intros x f Hf. destruct x as [p|]; cbn zeta.
    - specialize (Hf p). split; [lia|].
      split; [intros X; rewrite X in Hf; unfold TS_MULTIPLICITY in Hf; lia | lia].
    - cbn [fst snd]. split; [intros _; split; [reflexivity | right; right; reflexivity]|].
      split; [discriminate | lia]. }
  destruct (s =? order b).
  - destruct ((k1 -! 1 =? deg b) || (k1 -! 1 =? n_knots b -! 1)).
    + destruct (Hmal (malloc (size_flt *! dim b))
                  (fun p => (1, Net.mk (if ts_fequals u (lget (knots b) (k1 -! 1))
                                        then lget (knots b) (k1 -! 1) else u)
                                  (k1 -! 1) s (if deg b <? s then 0 else deg b -! s)
                                  (dim b) 1
                                  (memcpy p 0 (ctrlp b)
                                     (if k1 -! 1 =? deg b then 0 else (k1 -! 1 -! s) *! dim b)
                                     (size_flt *! dim b)) 0))) as [X1 X2];
        [intros; cbn; lia|].
      split; [exact X1 | exact X2].
    + destruct (Hmal (malloc (2 *! (size_flt *! dim b)))
                  (fun p => (2, Net.mk (if ts_fequals u (lget (knots b) (k1 -! 1))
                                        then lget (knots b) (k1 -! 1) else u)
                                  (k1 -! 1) s (if deg b <? s then 0 else deg b -! s)
                                  (dim b) 2
                                  (memcpy p 0 (ctrlp b) ((k1 -! 1 -! s) *! dim b)
                                     (2 *! (size_flt *! dim b))) (dim b)))) as [X1 X2];
        [intros; cbn; lia|].
      split; [exact X1 | exact X2].
  - match goal with
    | |- context [match malloc ?n with Some p => @?f p | None => _ end] =>
      destruct (Hmal (malloc n) f) as [X1 X2]; [intros; cbn; lia|]
    end.
    split; [exact X1 | exact X2].
Qed.
End EvaluateMore.

(** ** [ts_fequals] and [ts_bspline_equals] as relations *)

(** the magnitude of a rounded value does not depend on the sign *)
Lemma abs_binary_round_aux (s : bool) (m e : Z) (l : location) :
  SFabs (binary_round_aux B32.prec B32.emax s m e l) =
  SFabs (binary_round_aux B32.prec B32.emax false m e l).
Proof.
  unfold binary_round_aux.
  destruct (shr_fexp B32.prec B32.emax m e l) as [mrs' e'].
  destruct (shr_fexp B32.prec B32.emax _ e' loc_Exact) as [mrs'' e''].
  destruct (shr_m mrs''); [reflexivity | | reflexivity].
  destruct (e'' <=? B32.emax - B32.prec); reflexivity.
Qed.

Lemma abs_binary_normalize_opp (m e : Z) :
  SFabs (binary_normalize B32.prec B32.emax (- m) e false) =
  SFabs (binary_normalize B32.prec B32.emax m e false).
Proof.
  destruct m as [|p|p]; cbn [Z.opp binary_normalize]; [reflexivity | |];
    unfold binary_round;
    destruct (shl_align p e _) as [mz ez];
    rewrite (abs_binary_round_aux true); reflexivity.
Qed.

Lemma abs_SFsub_sym (x y : spec_float) :
  SFabs (SFsub B32.prec B32.emax x y) = SFabs (SFsub B32.prec B32.emax y x).
Proof.
  destruct x as [[]|[]| |sx mx ex], y as [[]|[]| |sy my ey]; try reflexivity.
  cbn [SFsub]. rewrite (Z.min_comm ey ex).
  rewrite <- abs_binary_normalize_opp. f_equal. f_equal. lia.
Qed.

Lemma abs_SFdiv (a b : spec_float) :
  SFabs (SFdiv B32.prec B32.emax a b) =
  SFabs (SFdiv B32.prec B32.emax (SFabs a) (SFabs b)).
Proof.
  destruct a as [sa|sa| |sa ma ea], b as [sb|sb| |sb mb eb]; try reflexivity.
  cbn [SFdiv SFabs].
  destruct (SFdiv_core_binary B32.prec B32.emax (Zpos ma) ea (Zpos mb) eb)
    as [[mz ez] lz].
  rewrite abs_binary_round_aux. reflexivity.
Qed.

Lemma SFltb_asym (a b : spec_float) : SFltb a b = true -> SFltb b a = false.
Proof.
  intros H. destruct (SFltb b a) eqn:E; [|reflexivity].
  apply SFltb_rank in H. apply SFltb_rank in E. unfold rank_lt in *.
  destruct (rank a) as [[a1 a2] a3], (rank b) as [[b1 b2] b3]. lia.
Qed.

(** two magnitudes that are not ordered are the same or include a NaN *)
Lemma abs_unordered (x y : spec_float) :
  SFltb (SFabs x) (SFabs y) = false -> SFltb (SFabs y) (SFabs x) = false ->
  SFabs x = SFabs y \/ is_nan x = true \/ is_nan y = true.
Proof.
  unfold SFltb.
  destruct x as [sx|sx| |sx mx ex], y as [sy|sy| |sy my ey];
    cbn [SFabs SFcompare is_nan]; try (intros; tauto); try discriminate;
    try (intros _ H; discriminate H).
  change (PosDef.Pos.compare_cont Eq) with Pos.compare.
  destruct (Z.compare_spec ex ey); destruct (Z.compare_spec ey ex); try lia;
    try discriminate; try (intros _ H; discriminate H).
  subst ey.
  destruct (Pos.compare_spec mx my); destruct (Pos.compare_spec my mx); try lia;
    try discriminate; try (intros _ H0; discriminate H0).
  subst. intros _ _. left. reflexivity.
Qed.

Lemma b32_fequals_sym (x y : spec_float) : ts_fequals x y = ts_fequals y x.
Proof.
  unfold ts_fequals. cbn [fabs fsub fdiv fle flt binary32].
  rewrite (abs_SFsub_sym y x).
  destruct (SFleb (SFabs (SFsub B32.prec B32.emax x y)) FLT_MAX_ABS_ERROR);
    [reflexivity|].
  f_equal.
  destruct (SFltb (SFabs y) (SFabs x)) eqn:E1.
  - rewrite (SFltb_asym _ _ E1).
    rewrite (abs_SFdiv (SFsub _ _ x y)), (abs_SFdiv (SFsub _ _ y x)).
    rewrite (abs_SFsub_sym y x). reflexivity.
  - destruct (SFltb (SFabs x) (SFabs y)) eqn:E2.
    + rewrite (abs_SFdiv (SFsub _ _ x y)), (abs_SFdiv (SFsub _ _ y x)).
      rewrite (abs_SFsub_sym y x). reflexivity.
    + rewrite (abs_SFdiv (SFsub _ _ x y)), (abs_SFdiv (SFsub _ _ y x)).
      rewrite (abs_SFsub_sym y x).
      destruct (abs_unordered x y E2 E1) as [H|[H|H]].
      * rewrite H. reflexivity.
      * destruct x; try discriminate. destruct y; reflexivity.
      * destruct y; try discriminate. destruct x; reflexivity.
Qed.

Lemma b32_fequals_refl_iff (x : spec_float) :
  ts_fequals x x = true <-> is_finite x = true.
Proof.
  split.
  - destruct x as [s|[]| |s m e]; try reflexivity; vm_compute; discriminate.
  - intros H. apply b32_fequals_refl. destruct x; try discriminate; exact I.
Qed.

(** X16.  [ts_fequals] in single precision: symmetric on all values, reflexive
    exactly on the zeros and the finite numbers (an infinity and a NaN
    are not equal to themselves), and not transitive. *)
Theorem ts_fequals_relation :
  (forall x y : spec_float, ts_fequals x y = ts_fequals y x) /\
  (forall x : spec_float, ts_fequals x x = true <-> is_finite x = true) /\
  (exists x y z : spec_float,
      ts_fequals x y = true /\ ts_fequals y z = true /\ ts_fequals x z = false).
Proof.
  split; [exact b32_fequals_sym|]. split; [exact b32_fequals_refl_iff|].
  exists (B32.of_Z 1), (B32.ratio 1000008 1000000), (B32.ratio 1000016 1000000).
  repeat split; vm_compute; reflexivity.
Qed.

Lemma forallb_pointwise {A : Type} (f g : A -> bool) (l : list A) :
  (forall a, f a = g a) -> forallb f l = forallb g l.
Proof.
  intros H. induction l as [|a l IH]; simpl; [reflexivity|].
  rewrite H, IH. reflexivity.
Qed.

(** X17.  [ts_bspline_equals] in single precision is symmetric; it reports a
    b-spline equal to itself exactly when the compared scalars (the first
    [n_ctrlp] of the control points, and the knots) are neither NaN nor
    infinite. *)
Theorem ts_bspline_equals_relation (x y : tsBSpline spec_float) :
  ts_bspline_equals x y = ts_bspline_equals y x /\
  (ts_bspline_equals x x = 1 <->
   (forall i, 0 <= i < n_ctrlp x -> is_finite (lget (ctrlp x) i) = true) /\
   (forall i, 0 <= i < n_knots x -> is_finite (lget (knots x) i) = true)).
Proof.
  split.
  - unfold ts_bspline_equals.
    rewrite (Z.eqb_sym (deg y)), (Z.eqb_sym (order y)), (Z.eqb_sym (dim y)),
      (Z.eqb_sym (n_ctrlp y)), (Z.eqb_sym (n_knots y)).
    destruct (deg x =? deg y); cbn [negb orb]; [|reflexivity].
    destruct (order x =? order y); cbn [negb orb]; [|reflexivity].
    destruct (dim x =? dim y); cbn [negb orb]; [|reflexivity].
    destruct (n_ctrlp x =? n_ctrlp y) eqn:E4; cbn [negb orb]; [|reflexivity].
    destruct (n_knots x =? n_knots y) eqn:E5; cbn [negb orb]; [|reflexivity].
    apply Z.eqb_eq in E4. apply Z.eqb_eq in E5. rewrite <- E4, <- E5.
    rewrite (forallb_pointwise _ _ _
               (fun i => b32_fequals_sym (lget (ctrlp y) i) (lget (ctrlp x) i))).
    rewrite (forallb_pointwise _ _ _
               (fun i => b32_fequals_sym (lget (knots y) i) (lget (knots x) i))).
    reflexivity.
  - pose proof b32_fequals_refl_iff as Hrefl.
    unfold ts_bspline_equals. rewrite !Z.eqb_refl. cbn [negb orb].
    destruct (forallb _ (seqZ 0 (Z.to_nat (n_ctrlp x)))) eqn:E6; cbn [negb].
    + destruct (forallb _ (seqZ 0 (Z.to_nat (n_knots x)))) eqn:E7; cbn [negb].
      * rewrite forallb_seqZ in E6, E7. split; [intros _ | reflexivity].
        split; intros i Hi; apply Hrefl; [apply E6 | apply E7]; exact Hi.
      * split; [discriminate|]. intros [_ H].
        assert (X : forallb (fun i => ts_fequals (lget (knots x) i) (lget (knots x) i))
                      (seqZ 0 (Z.to_nat (n_knots x))) = true)
          by (apply forallb_seqZ; intros i Hi; apply Hrefl, H, Hi).
        congruence.
    + split; [discriminate|]. intros [H _].
      assert (X : forallb (fun i => ts_fequals (lget (ctrlp x) i) (lget (ctrlp x) i))
                    (seqZ 0 (Z.to_nat (n_ctrlp x))) = true)
        by (apply forallb_seqZ; intros i Hi; apply Hrefl, H, Hi).
      congruence.
Qed.

(** ** The triangular net *)

Lemma half_exact (r : Z) : 0 <= r -> r * (r - 1) / 2 * 2 = r * (r - 1).
Proof.
  intros Hr. pattern r. apply natlike_ind; [reflexivity | | exact Hr].
  intros x Hx IH.
  replace (Z.succ x * (Z.succ x - 1)) with (x * (x - 1) + x * 2) by lia.
  rewrite Z.div_add by lia. lia.
Qed.

Lemma row_off_0 (N : Z) : row_off N 0 = 0.
Proof. reflexivity. Qed.

Lemma row_off_succ (N r : Z) :
  0 <= r -> row_off N (r + 1) = row_off N r + (N - r).
Proof.
  intros Hr. unfold row_off.
  replace ((r + 1) * (r + 1 - 1)) with (r * (r - 1) + r * 2) by lia.
  rewrite Z.div_add by lia. lia.
Qed.

Lemma row_off_mono (N r1 r2 : Z) :
  0 <= r1 <= r2 -> r2 <= N -> row_off N r1 <= row_off N r2.
Proof.
  intros H1 H2.
  replace r2 with (r1 + (r2 - r1)) by lia.
  assert (Hd : 0 <= r2 - r1) by lia.
  assert (Hb : r1 + (r2 - r1) <= N) by lia.
  revert Hb. generalize (r2 - r1) Hd. clear H2.
  intros d Hd0. pattern d. apply natlike_ind; [| | exact Hd0].
  - intros _. replace (r1 + 0) with r1 by lia. lia.
  - intros x Hx IH Hb. replace (r1 + Z.succ x) with (r1 + x + 1) by lia.
    rewrite row_off_succ by lia. lia.
Qed.

Lemma row_off_N (N : Z) : 0 <= N -> row_off N N = tri N.
Proof.
  intros HN. unfold row_off, tri.
  pose proof (half_exact N HN) as H1.
  replace (N * (N + 1)) with (N * (N - 1) + N * 2) by lia.
  rewrite Z.div_add by lia. nia.
Qed.

Lemma row_off_next (N r1 r2 : Z) :
  0 <= r1 < r2 -> r2 <= N -> row_off N r1 + (N - r1) <= row_off N r2.
Proof.
  intros H1 H2. rewrite <- row_off_succ by lia. apply row_off_mono; lia.
Qed.

Lemma row_off_nonneg (N r : Z) : 0 <= r <= N -> 0 <= row_off N r.
Proof.
  intros H. rewrite <- (row_off_0 N). apply row_off_mono; lia.
Qed.

Lemma row_off_last (N : Z) : 1 <= N -> row_off N (N - 1) = tri N - 1.
Proof.
  intros HN. pose proof (row_off_succ N (N - 1) ltac:(lia)) as H.
  replace (N - 1 + 1) with N in H by lia.
  rewrite row_off_N in H by lia. lia.
Qed.

Lemma tri_mono (N M : Z) : 0 <= N <= M -> tri N <= tri M.
Proof.
  intros H. unfold tri. apply Z.div_le_mono; [lia | nia].
Qed.

(** two cells of the net with the same index are the same cell *)
Lemma net_index_inj (N d r1 j1 c1 r2 j2 c2 : Z) :
  1 <= d ->
  0 <= r1 < N -> 0 <= j1 < N - r1 -> 0 <= c1 < d ->
  0 <= r2 < N -> 0 <= j2 < N - r2 -> 0 <= c2 < d ->
  (row_off N r1 + j1) * d + c1 = (row_off N r2 + j2) * d + c2 ->
  r1 = r2 /\ j1 = j2 /\ c1 = c2.
Proof.
  intros Hd R1 J1 C1 R2 J2 C2 E.
  assert (E1 : row_off N r1 + j1 = row_off N r2 + j2).
  { rewrite <- (Z.add_0_r (row_off N r1 + j1)), <- (Z.div_small c1 d) by lia.
    rewrite <- (Z.add_0_r (row_off N r2 + j2)), <- (Z.div_small c2 d) by lia.
    rewrite <- !Z.div_add_l by lia. rewrite E. reflexivity. }
  assert (E2 : c1 = c2) by (rewrite E1 in E; lia).
  destruct (Z.lt_trichotomy r1 r2) as [L|[L|L]].
  - pose proof (row_off_next N r1 r2 ltac:(lia) ltac:(lia)). lia.
  - subst r2. lia.
  - pose proof (row_off_next N r2 r1 ltac:(lia) ltac:(lia)). lia.
Qed.

Lemma net_index_bound (N d r j c : Z) :
  1 <= d -> 0 <= r < N -> 0 <= j < N - r -> 0 <= c < d ->
  0 <= (row_off N r + j) * d + c < tri N * d.
Proof.
  intros Hd R J C.
  pose proof (row_off_nonneg N r ltac:(lia)).
  pose proof (row_off_next N r N ltac:(lia) ltac:(lia)) as H1.
  rewrite row_off_N in H1 by lia. nia.
Qed.

(** ** The loops of the de Boor recursion *)

Section DeBoorLoops.
Context {F : Type} {ops : FloatOps F}.
Variables (kn ctrl : list F) (u : F) (dg d fst_ N : Z).
Hypothesis Hd : 1 <= d.
Hypothesis HN : 1 <= N.
Hypothesis Hfst : 0 <= fst_.
Hypothesis Hdg : N <= dg + 1.
Hypothesis Hfit : tri N * d <= INT_MAX.
Hypothesis Hsz : fst_ + N + dg < SIZE_MOD.

Lemma deboor_column_spec (r j : Z) (c0 : cursors) :
  1 <= r < N -> 0 <= j < N - r ->
  idx_l c0 = (row_off N (r - 1) + j) * d ->
  idx_r c0 = idx_l c0 + d ->
  idx_to c0 = (row_off N r + j) * d ->
  Z.of_nat (length (c_points c0)) = tri N * d ->
  net_done kn ctrl u dg d fst_ N (c_points c0) (idx_to c0) ->
  let c1 := deboor_column kn u dg d r (fst_ + r + j) c0 in
  idx_l c1 = idx_l c0 + d /\ idx_r c1 = idx_r c0 + d /\
  idx_to c1 = idx_to c0 + d /\
  Z.of_nat (length (c_points c1)) = tri N * d /\
  net_done kn ctrl u dg d fst_ N (c_points c1) (idx_to c1).
Proof.
  intros Hr Hj Il Ir It Hlen Hdone. cbv zeta. unfold deboor_column.
  set (i := fst_ + r + j).
  set (a := fdiv (fsub u (lget kn i)) (deboor_denominator kn dg r i)).
  apply (for_range_inv
           (fun k st =>
              idx_l st = idx_l c0 + k /\ idx_r st = idx_r c0 + k /\
              idx_to st = idx_to c0 + k /\
              Z.of_nat (length (c_points st)) = tri N * d /\
              net_done kn ctrl u dg d fst_ N (c_points st) (idx_to st))); [lia | |].
  { rewrite !Z.add_0_r. repeat split; assumption. }
  intros k st Hk (Sl & Sr & St & SL & SD).
  unfold deboor_point. cbn [idx_l idx_r idx_to c_points].
  split; [lia|]. split; [lia|]. split; [lia|].
  split; [rewrite length_lset; exact SL|].
  intros r' j' c' Hr' Hj' Hc' Hlt.
  rewrite lget_lset.
  pose proof (net_index_bound N d r j k Hd ltac:(lia) Hj ltac:(lia)) as Hb.
  assert (Et : idx_to st = (row_off N r + j) * d + k) by lia.
  destruct ((row_off N r' + j') * d + c' =? idx_to st) eqn:Eq.
  - apply Z.eqb_eq in Eq. rewrite Et in Eq.
    destruct (net_index_inj N d r' j' c' r j k) as (-> & -> & ->);
      try assumption; try lia.
    replace (0 <=? idx_to st) with true by lia.
    replace (idx_to st <? Z.of_nat (length (c_points st))) with true by lia.
    cbn [andb].
    (* the two points of the row below *)
    pose proof (row_off_succ N (r - 1) ltac:(lia)) as Hrow.
    replace (r - 1 + 1) with r in Hrow by lia.
    assert (Hleft : lget (c_points st) (idx_l st) =
                    deboor_spec kn ctrl u dg d (Z.to_nat (r - 1)) (i - 1) k).
    { replace (idx_l st) with ((row_off N (r - 1) + j) * d + k) by lia.
      rewrite SD; try lia; [f_equal; subst i; lia | nia]. }
    assert (Hright : lget (c_points st) (idx_r st) =
                     deboor_spec kn ctrl u dg d (Z.to_nat (r - 1)) i k).
    { replace (idx_r st) with ((row_off N (r - 1) + (j + 1)) * d + k) by lia.
      rewrite SD; try lia; [f_equal; subst i; lia | nia]. }
    rewrite Hleft, Hright.
    replace (Z.to_nat r) with (S (Z.to_nat (r - 1))) by lia.
    cbn [deboor_spec]. fold i.
    assert (Ea : a = fdiv (fsub u (lget kn i))
                   (fsub (lget kn (i + dg - Z.of_nat (S (Z.to_nat (r - 1))) + 1))
                         (lget kn i))).
    { subst a. unfold deboor_denominator. do 3 f_equal.
      replace (Z.of_nat (S (Z.to_nat (r - 1)))) with r by lia.
      subst i. unwrap. lia. }
    rewrite <- Ea. reflexivity.
  - apply Z.eqb_neq in Eq. cbn [andb]. apply SD; try assumption. lia.
Qed.

Lemma deboor_row_spec (r : Z) (c0 : cursors) :
  1 <= r < N ->
  idx_l c0 = row_off N (r - 1) * d ->
  idx_r c0 = idx_l c0 + d ->
  idx_to c0 = row_off N r * d ->
  Z.of_nat (length (c_points c0)) = tri N * d ->
  net_done kn ctrl u dg d fst_ N (c_points c0) (idx_to c0) ->
  let c1 := deboor_row kn u dg d fst_ (fst_ + N - 1) r c0 in
  idx_l c1 = row_off N r * d /\ idx_r c1 = idx_l c1 + d /\
  idx_to c1 = row_off N (r + 1) * d /\
  Z.of_nat (length (c_points c1)) = tri N * d /\
  net_done kn ctrl u dg d fst_ N (c_points c1) (idx_to c1).
Proof.
  intros Hr Il Ir It Hlen Hdone. cbv zeta. unfold deboor_row.
  assert (E1 : fst_ +! r = fst_ + r) by (unwrap; zlia). rewrite E1.
  pose proof (row_off_succ N (r - 1) ltac:(lia)) as Hrow.
  replace (r - 1 + 1) with r in Hrow by lia.
  pose proof (row_off_succ N r ltac:(lia)) as Hrow'.
  pose proof (row_off_nonneg N (r - 1) ltac:(lia)) as Hnn.
  pose proof (row_off_mono N (r + 1) N ltac:(lia) ltac:(lia)) as Hmx.
  rewrite row_off_N in Hmx by lia.
  assert (Hinv :
    let st := for_range (fst_ + r) (fst_ + N - 1 + 1)
                (deboor_column kn u dg d r) c0 in
    idx_l st = (row_off N (r - 1) + (N - r)) * d /\
    idx_r st = idx_l st + d /\
    idx_to st = (row_off N r + (N - r)) * d /\
    Z.of_nat (length (c_points st)) = tri N * d /\
    net_done kn ctrl u dg d fst_ N (c_points st) (idx_to st)).
  { cbv zeta.
    replace (N - r) with (fst_ + N - 1 + 1 - fst_ - r) by lia.
    apply (for_range_inv
             (fun i st =>
                idx_l st = (row_off N (r - 1) + (i - fst_ - r)) * d /\
                idx_r st = idx_l st + d /\
                idx_to st = (row_off N r + (i - fst_ - r)) * d /\
                Z.of_nat (length (c_points st)) = tri N * d /\
                net_done kn ctrl u dg d fst_ N (c_points st) (idx_to st))); [lia | |].
    - replace (fst_ + r - fst_ - r) with 0 by lia.
      rewrite !Z.add_0_r. repeat split; assumption.
    - intros i st Hi (Sl & Sr & St & SL & SD).
      destruct (deboor_column_spec r (i - fst_ - r) st) as (A1 & A2 & A3 & A4 & A5);
        try assumption; try lia.
      replace (fst_ + r + (i - fst_ - r)) with i in A1, A2, A3, A4, A5 by lia.
      rewrite A3 in A5. rewrite A1, A2, A3.
      repeat split; try assumption; try lia. }
  cbv zeta in Hinv. destruct Hinv as (Sl & Sr & St & SL & SD).
  cbn [idx_l idx_r idx_to c_points].
  set (st := for_range (fst_ + r) (fst_ + N - 1 + 1)
               (deboor_column kn u dg d r) c0) in *.
  assert (B0 : 0 <= idx_l st) by nia.
  assert (B1 : idx_l st + d + d <= INT_MAX) by nia.
  assert (X1 : forall z, 0 <= z -> z + d <= INT_MAX -> to_int (wrap z +! d) = z + d).
  { intros z Hz Hzd. rewrite wrap_small by zlia.
    unfold sz_add. rewrite wrap_small by zlia. apply to_int_small. lia. }
  rewrite !X1 by lia.
  split; [lia|]. split; [lia|]. split; [lia|]. split; [exact SL|].
  exact SD.
Qed.

(** the net after the rows [1 .. N - 1]: every cell holds the point of
    the recurrence *)
Lemma deboor_rows_spec (p : list F) :
  Z.of_nat (length p) = tri N * d ->
  (forall j c, 0 <= j < N -> 0 <= c < d ->
     lget p (j * d + c) = lget ctrl ((fst_ + j) * d + c)) ->
  let st := for_range 1 (N - 1 + 1) (deboor_row kn u dg d fst_ (fst_ + N - 1))
              (mkCursors p 0 (to_int d) (to_int (N *! d))) in
  Z.of_nat (length (c_points st)) = tri N * d /\
  forall r j c, 0 <= r < N -> 0 <= j < N - r -> 0 <= c < d ->
    lget (c_points st) ((row_off N r + j) * d + c) =
    deboor_spec kn ctrl u dg d (Z.to_nat r) (fst_ + r + j) c.
Proof.
  intros Hlen Hrow0. cbv zeta.
  assert (HtN : N <= tri N).
  { unfold tri. apply Z.div_le_lower_bound; nia. }
  assert (Hdd : d <= tri N * d) by nia.
  assert (HNd : N * d <= tri N * d) by nia.
  assert (E1 : to_int d = d) by (apply to_int_small; lia).
  assert (E2 : to_int (N *! d) = N * d).
  { unfold sz_mul. rewrite wrap_small by zlia. apply to_int_small. nia. }
  rewrite E1, E2.
  assert (Hinv :
    let st := for_range 1 (N - 1 + 1) (deboor_row kn u dg d fst_ (fst_ + N - 1))
                (mkCursors p 0 d (N * d)) in
    idx_l st = row_off N (N - 1 + 1 - 1) * d /\ idx_r st = idx_l st + d /\
    idx_to st = row_off N (N - 1 + 1) * d /\
    Z.of_nat (length (c_points st)) = tri N * d /\
    net_done kn ctrl u dg d fst_ N (c_points st) (idx_to st)).
  { cbv zeta.
    apply (for_range_inv
             (fun r st =>
                idx_l st = row_off N (r - 1) * d /\ idx_r st = idx_l st + d /\
                idx_to st = row_off N r * d /\
                Z.of_nat (length (c_points st)) = tri N * d /\
                net_done kn ctrl u dg d fst_ N (c_points st) (idx_to st))); [lia | |].
    - cbn [idx_l idx_r idx_to c_points].
      replace (1 - 1) with 0 by lia. rewrite row_off_0.
      pose proof (row_off_succ N 0 ltac:(lia)) as H1.
      replace (0 + 1) with 1 in H1 by lia. rewrite row_off_0 in H1.
      rewrite H1. split; [lia|]. split; [lia|]. split; [f_equal; lia|].
      split; [exact Hlen|].
      intros r j c Hr Hj Hc Hlt.
      destruct (Z.eq_dec r 0) as [->|Hne].
      + rewrite row_off_0. cbn [Z.to_nat deboor_spec].
        replace (0 + j) with j by lia. rewrite Hrow0 by lia.
        f_equal. lia.
      + exfalso. pose proof (row_off_next N 0 r ltac:(lia) ltac:(lia)) as H2.
        rewrite row_off_0 in H2. nia.
    - intros r st Hr (Sl & Sr & St & SL & SD).
      destruct (deboor_row_spec r st) as (A1 & A2 & A3 & A4 & A5);
        try assumption; try lia.
      replace (r + 1 - 1) with r by lia.
      repeat split; assumption. }
  cbv zeta in Hinv. destruct Hinv as (_ & _ & St & SL & SD).
  split; [exact SL|].
  intros r j c Hr Hj Hc. apply SD; try assumption.
  rewrite St. replace (N - 1 + 1) with N by lia. rewrite row_off_N by lia.
  apply net_index_bound; assumption.
Qed.
End DeBoorLoops.

(** ** [ts_bspline_evaluate]: the net *)

Section EvaluateNet.
Context {F : Type} {ops : FloatOps F}.

(** the net of a regular evaluation (code 0) as the loops leave it *)
Lemma evaluate_zero_shape (b : tsBSpline F) (u : F) (net : tsDeBoorNet F) :
  bspline_wf b -> ts_bspline_evaluate b u = (0, net) ->
  Net.dim net = dim b /\
  Net.n_points net =
    to_size (fmul (of_size ((Net.h net + 1) *! (Net.h net + 1 +! 1))) Fhalf) /\
  Net.result net = (Net.n_points net -! 1) *! dim b /\
  exists p,
    malloc (Net.n_points net *! (size_flt *! dim b)) = Some p /\
    Net.points net =
    c_points
      (for_range 1 (Net.h net + 1)
         (deboor_row (knots b) (Net.u net) (deg b) (dim b)
            (Net.k net - deg b) (Net.k net - deg b + (Net.h net + 1) - 1))
         (mkCursors
            (memcpy p 0 (ctrlp b) ((Net.k net - deg b) *! dim b)
               ((Net.h net + 1) *! (size_flt *! dim b)))
            0 (to_int (dim b)) (to_int ((Net.h net + 1) *! dim b)))).
Proof.
  intros Hwf Hev.
  destruct (evaluate_success b u 0 net Hwf Hev ltac:(lia))
    as (k1 & Hs & K & Hk1 & S & _ & H0 & _ & U).
  destruct (H0 eq_refl) as (S1 & K1 & K2 & Hh).
  pose proof Hwf as [Hdeg (Ho & Hk & Hcc & Hd) Hlc Hlk Hcs Hks].
  revert Hev. unfold ts_bspline_evaluate. rewrite Hs.
  replace (k1 =? 0) with false by lia.
  replace ((k1 =? n_knots b) && (Net.s net =? 0)) with false by lia.
  assert (E : n_knots b -! deg b +! Net.s net -! 1 =
              n_knots b - deg b + Net.s net - 1) by (unwrap; zlia).
  rewrite E.
  replace ((Net.s net <=? deg b) &&
           ((k1 <=? deg b) || (k1 >? n_knots b - deg b + Net.s net - 1)))
    with false by lia.
  replace (Net.s net >? order b) with false by lia.
  replace (Net.s net =? order b) with false by lia.
  replace (deg b <? Net.s net) with false by lia.
  assert (E1 : k1 -! 1 = Net.k net) by (unwrap; zlia).
  assert (E2 : deg b -! Net.s net = Net.h net) by (unwrap; zlia).
  rewrite E1, E2.
  assert (E3 : Net.k net -! deg b = Net.k net - deg b) by (unwrap; zlia).
  assert (E4 : Net.k net -! Net.s net = Net.k net - deg b + (Net.h net + 1) - 1)
    by (unwrap; zlia).
  assert (E5 : Net.k net - deg b + (Net.h net + 1) - 1 -! (Net.k net - deg b) +! 1 =
               Net.h net + 1) by (unwrap; zlia).
  rewrite E3, E4, E5.
  destruct (malloc _) as [p|] eqn:M; [|discriminate].
  intros H. injection H as Hnet. rewrite <- Hnet in *. fields.
  split; [reflexivity|]. split; [reflexivity|]. split; [reflexivity|].
  exists p. split; [exact M | reflexivity].
Qed.

(** the rows of the net of a regular evaluation and its result, in terms
    of de Boor's recurrence *)
Lemma evaluate_deboor (b : tsBSpline F) (u : F)
    (net : tsDeBoorNet F) :
  bspline_wf b -> net_fits_int b ->
  ts_bspline_evaluate b u = (0, net) ->
  Net.n_points net = tri (Net.h net + 1) ->
  Z.of_nat (length (Net.points net)) = tri (Net.h net + 1) * dim b /\
  (forall r j c,
     0 <= r <= Net.h net -> 0 <= j <= Net.h net - r -> 0 <= c < dim b ->
     lget (Net.points net) ((row_off (Net.h net + 1) r + j) * dim b + c) =
     deboor_spec (knots b) (ctrlp b) (Net.u net) (deg b) (dim b) (Z.to_nat r)
       (Net.k net - deg b + r + j) c) /\
  net_result net =
  map (deboor_spec (knots b) (ctrlp b) (Net.u net) (deg b) (dim b)
         (Z.to_nat (Net.h net)) (Net.k net - Net.s net))
      (seqZ 0 (Z.to_nat (dim b))).
Proof.
  intros Hwf Hfit Hev Htri.
  destruct (evaluate_success b u 0 net Hwf Hev ltac:(lia))
    as (k1 & Hs & K & Hk1 & S & _ & H0 & _ & U).
  destruct (H0 eq_refl) as (S1 & K1 & K2 & Hh).
  destruct (evaluate_zero_shape b u net Hwf Hev)
    as (Hdim & Hnp & Hres & p & Hp & Hpts).
  pose proof Hwf as [Hdeg (Ho & Hk & Hcc & Hd) Hlc Hlk Hcs Hks].
  set (N := Net.h net + 1) in *.
  assert (HN : 1 <= N <= order b) by lia.
  assert (Htm : tri N <= tri (order b)) by (apply tri_mono; lia).
  assert (HtN : N <= tri N) by (unfold tri; apply Z.div_le_lower_bound; nia).
  unfold net_fits_int in Hfit. fold (tri (order b)) in Hfit.
  assert (Hfit' : tri N * dim b <= INT_MAX) by nia.
  assert (Hdd : dim b <= tri N * dim b) by nia.
  rewrite Htri in Hp, Hres.
  assert (Ep : tri N *! (size_flt *! dim b) = tri N * dim b * size_flt)
    by (unwrap; zlia).
  rewrite Ep in Hp. apply malloc_Some in Hp. destruct Hp as [_ Hp].
  unfold size_flt in Hp. rewrite Z.div_mul in Hp by lia.
  assert (Hlen0 : Z.of_nat (length (memcpy p 0 (ctrlp b) ((Net.k net - deg b) *! dim b)
                                      (N *! (size_flt *! dim b)))) = tri N * dim b).
  { unfold memcpy. rewrite length_memmove, Hp, repeat_length. lia. }
  assert (Hfd : 0 <= (Net.k net - deg b) * dim b <= n_ctrlp b * dim b) by nia.
  assert (Hrow0 : forall j c, 0 <= j < N -> 0 <= c < dim b ->
            lget (memcpy p 0 (ctrlp b) ((Net.k net - deg b) *! dim b)
                    (N *! (size_flt *! dim b))) (j * dim b + c) =
            lget (ctrlp b) ((Net.k net - deg b + j) * dim b + c)).
  { intros j c Hj Hc. unfold memcpy.
    assert (Hjc : 0 <= j * dim b + c < N * dim b) by nia.
    assert (HNd : N * dim b <= tri N * dim b) by nia.
    rewrite lget_memmove by (rewrite Hp, repeat_length; lia).
    assert (E6 : N *! (size_flt *! dim b) = N * dim b * size_flt) by (unwrap; zlia).
    rewrite E6. unfold size_flt. rewrite Z.div_mul by lia.
    replace ((0 <=? j * dim b + c) && (j * dim b + c <? 0 + N * dim b))
      with true by lia.
    f_equal. unwrap. lia. }
  destruct (deboor_rows_spec (knots b) (ctrlp b) (Net.u net) (deg b) (dim b)
              (Net.k net - deg b) N ltac:(lia) ltac:(lia) ltac:(lia) ltac:(lia)
              Hfit' ltac:(zlia) _ Hlen0 Hrow0) as [HL HG].
  replace (N - 1 + 1) with N in HL, HG by lia.
  rewrite <- Hpts in HL, HG.
  split; [exact HL|]. split.
  - intros r j c Hr Hj Hc. apply HG; lia.
  - unfold net_result. rewrite Hdim. apply map_ext_in.
    intros c Hc. apply in_seqZ in Hc.
    rewrite Hres.
    assert (E7 : (tri N -! 1) *! dim b = (row_off N (N - 1) + 0) * dim b).
    { rewrite row_off_last by lia. unwrap. lia. }
    rewrite E7, HG by lia.
    replace (N - 1) with (Net.h net) by lia. f_equal. lia.
Qed.

(** X11.  The regular evaluation computes de Boor's recurrence: when the net
    was given its [N (N + 1) / 2] points ([N = h + 1]), the row [r] of
    the net holds the points [fst + r .. lst] of the level [r] of the
    recurrence, and the result is the point [k - s] of the level [h]. *)
Theorem evaluate_computes_deboor (b : tsBSpline F) (u : F)
    (net : tsDeBoorNet F) :
  bspline_wf b -> net_fits_int b ->
  ts_bspline_evaluate b u = (0, net) ->
  Net.n_points net = tri (Net.h net + 1) ->
  Z.of_nat (length (Net.points net)) = tri (Net.h net + 1) * dim b /\
  (forall r j c,
     0 <= r <= Net.h net -> 0 <= j <= Net.h net - r -> 0 <= c < dim b ->
     lget (Net.points net) ((row_off (Net.h net + 1) r + j) * dim b + c) =
     deboor_spec (knots b) (ctrlp b) (Net.u net) (deg b) (dim b) (Z.to_nat r)
       (Net.k net - deg b + r + j) c) /\
  net_result net =
  map (deboor_spec (knots b) (ctrlp b) (Net.u net) (deg b) (dim b)
         (Z.to_nat (Net.h net)) (Net.k net - Net.s net))
      (seqZ 0 (Z.to_nat (dim b))).
Proof. exact (evaluate_deboor b u net). Qed.
End EvaluateNet.

(** ** The size of the net in single precision *)

Lemma net_size_checked :
  forallb net_size_ok (seqZ 1 (Z.to_nat 5792)) = true.
Proof. vm_compute. reflexivity. Qed.

Section Existence.
Context {F : Type} {ops : FloatOps F}.

(** a regular evaluation succeeds when its net can be allocated *)
Lemma evaluate_zero_exists (b : tsBSpline F) (u : F) (k1 s : Z) :
  bspline_wf b ->
  span_search (Z.to_nat (n_knots b)) (knots b) u 0 0 = (k1, s) ->
  s <= deg b -> deg b < k1 <= n_knots b - deg b + s - 1 ->
  to_size (fmul (of_size ((deg b - s + 1) *! (deg b - s + 1 +! 1))) Fhalf) *!
    (size_flt *! dim b) <= PTRDIFF_MAX ->
  exists net, ts_bspline_evaluate b u = (0, net) /\
              Net.k net = k1 - 1 /\ Net.s net = s /\ Net.h net = deg b - s.
Proof.
  intros Hwf Hs S1 K1 Hm.
  pose proof Hwf as [Hdeg (Ho & Hk & Hcc & Hd) Hlc Hlk Hcs Hks].
  pose proof (span_search_range _ _ _ _ _ _ _ Hs) as [Hk1 Hsk].
  unfold ts_bspline_evaluate. rewrite Hs.
  replace (k1 =? 0) with false by lia.
  replace ((k1 =? n_knots b) && (s =? 0)) with false by lia.
  assert (E : n_knots b -! deg b +! s -! 1 = n_knots b - deg b + s - 1)
    by (unwrap; zlia).
  rewrite E.
  replace ((s <=? deg b) && ((k1 <=? deg b) || (k1 >? n_knots b - deg b + s - 1)))
    with false by lia.
  replace (s >? order b) with false by lia.
  replace (s =? order b) with false by lia.
  replace (deg b <? s) with false by lia.
  assert (E1 : k1 -! 1 = k1 - 1) by (unwrap; zlia).
  assert (E2 : deg b -! s = deg b - s) by (unwrap; zlia).
  rewrite E1, E2.
  assert (E3 : k1 - 1 -! deg b = k1 - 1 - deg b) by (unwrap; zlia).
  assert (E4 : k1 - 1 -! s = k1 - 1 - s) by (unwrap; zlia).
  assert (E5 : k1 - 1 - s -! (k1 - 1 - deg b) +! 1 = deg b - s + 1) by (unwrap; zlia).
  rewrite E3, E4, E5.
  rewrite malloc_ok by exact Hm.
  eexists. split; [reflexivity|]. fields. repeat split.
Qed.
End Existence.

(** X12.  In single precision the net of a regular evaluation has its
    [N (N + 1) / 2] points when its row 0 has [N <= 5792] points; the
    size is computed as [N * (N + 1) * 0.5f], and with [N = 5793] the
    product is rounded: the net is one point short. *)
Theorem net_size_single_precision (b : tsBSpline spec_float) (u : spec_float)
    (net : tsDeBoorNet spec_float) :
  bspline_wf b -> ts_bspline_evaluate b u = (0, net) ->
  (Net.h net + 1 <= 5792 -> Net.n_points net = tri (Net.h net + 1)) /\
  (Net.h net + 1 = 5793 -> Net.n_points net = tri (Net.h net + 1) - 1).
Proof.
  intros Hwf Hev.
  destruct (evaluate_success b u 0 net Hwf Hev ltac:(lia))
    as (k1 & Hs & K & Hk1 & S & _ & H0 & _ & U).
  destruct (H0 eq_refl) as (S1 & K1 & K2 & Hh).
  destruct (evaluate_zero_shape b u net Hwf Hev) as (_ & Hnp & _).
  split.
  - intros HN.
    pose proof net_size_checked as H. rewrite forallb_forall in H.
    specialize (H (Net.h net + 1)). unfold net_size_ok in H.
    rewrite Hnp. apply Z.eqb_eq. apply H. apply in_seqZ. lia.
  - intros HN. rewrite Hnp, HN. vm_compute. reflexivity.
Qed.

(** ** The control points of an insertion *)

Lemma mod_mod_mult (z a b : Z) : 0 < a -> 0 < b -> (z mod (a * b)) mod a = z mod a.
Proof.
  intros Ha Hb. rewrite Z.rem_mul_r by lia.
  rewrite (Z.mul_comm a ((z / a) mod b)).
  rewrite Z.mod_add by lia. apply Z.mod_mod. lia.
Qed.

Lemma to_int_wrap (z : Z) : to_int (wrap z) = to_int z.
Proof.
  unfold to_int, wrap. rewrite SIZE_MOD_eq, INT_MOD_eq.
  change 18446744073709551616 with (4294967296 * 4294967296).
  rewrite mod_mod_mult by lia. reflexivity.
Qed.

Lemma to_int_in (z : Z) : in_int z -> to_int z = z.
Proof.
  unfold in_int, to_int. rewrite INT_MAX_eq, INT_MOD_eq. intros H.
  destruct (Z_lt_ge_dec z 0) as [Hneg|Hpos].
  - rewrite <- (Z.mod_add z 1 4294967296) by lia.
    rewrite (Z.mod_small (z + 1 * 4294967296)) by lia.
    destruct (z + 1 * 4294967296 <=? 2147483647) eqn:E; lia.
  - rewrite Z.mod_small by lia.
    destruct (z <=? 2147483647) eqn:E; lia.
Qed.

Lemma to_int_stride (s d : Z) :
  in_int (s - d) -> to_int (wrap s -! d) = s - d.
Proof.
  intros H. unfold sz_sub. rewrite to_int_wrap.
  rewrite <- (to_int_in (s - d)) by exact H.
  unfold to_int, wrap. rewrite SIZE_MOD_eq, INT_MOD_eq.
  change 18446744073709551616 with (4294967296 * 4294967296).
  rewrite <- (Zminus_mod_idemp_l (s mod (4294967296 * 4294967296))).
  rewrite mod_mod_mult by lia.
  rewrite Zminus_mod_idemp_l. reflexivity.
Qed.

Section Flank.
Context {F : Type} {ops : FloatOps F}.

(** the loops a) and c): [n] points are copied from the net, from the
    offsets [fr 0, fr 1, ...], to consecutive control points *)
Lemma flank_loop_spec (points c0 : list F) (d n from0 to0 stride0 : Z)
    (fr : Z -> Z) :
  1 <= d -> d * size_flt < SIZE_MOD -> 0 <= n -> 0 <= to0 ->
  to0 + n * d <= Z.of_nat (length c0) ->
  fr 0 = from0 ->
  (forall i, 0 <= i < n -> fr (i + 1) = fr i + (stride0 - i * d)) ->
  (forall i, 0 <= i < n -> in_int (stride0 - i * d)) ->
  let st := for_range 0 n (fun _ => flank_step points d (d * size_flt))
              (mkFlank c0 from0 to0 stride0) in
  fl_from st = fr n /\ fl_to st = to0 + n * d /\
  length (fl_ctrlp st) = length c0 /\
  (forall i t, 0 <= i < n -> 0 <= t < d ->
     lget (fl_ctrlp st) (to0 + i * d + t) = lget points (fr i + t)) /\
  (forall x, x < to0 \/ to0 + n * d <= x -> lget (fl_ctrlp st) x = lget c0 x).
Proof.
  intros Hd Hds Hn Hto Hlen Hfr0 Hfr Hint. cbv zeta.
  assert (Hinv :
    let st := for_range 0 n (fun _ => flank_step points d (d * size_flt))
                (mkFlank c0 from0 to0 stride0) in
    fl_from st = fr n /\ fl_to st = to0 + n * d /\
    (n < n -> fl_stride st = stride0 - n * d) /\
    length (fl_ctrlp st) = length c0 /\
    (forall i t, 0 <= i < n -> 0 <= t < d ->
       lget (fl_ctrlp st) (to0 + i * d + t) = lget points (fr i + t)) /\
    (forall x, x < to0 \/ to0 + n * d <= x -> lget (fl_ctrlp st) x = lget c0 x)).
  { cbv zeta.
    apply (for_range_inv
             (fun k st =>
                fl_from st = fr k /\ fl_to st = to0 + k * d /\
                (k < n -> fl_stride st = stride0 - k * d) /\
                length (fl_ctrlp st) = length c0 /\
                (forall i t, 0 <= i < k -> 0 <= t < d ->
                   lget (fl_ctrlp st) (to0 + i * d + t) = lget points (fr i + t)) /\
                (forall x, x < to0 \/ to0 + k * d <= x ->
                   lget (fl_ctrlp st) x = lget c0 x))); [exact Hn | |].
    - cbn [fl_from fl_to fl_stride fl_ctrlp].
      split; [symmetry; exact Hfr0|]. split; [lia|]. split; [intros _; lia|].
      split; [reflexivity|]. split; [intros; lia | reflexivity].
    - intros k st Hk (Sf & St & Ss & SL & SG & SO).
      unfold flank_step. cbn [fl_from fl_to fl_stride fl_ctrlp].
      specialize (Ss ltac:(lia)).
      split; [rewrite Sf, Ss, Hfr by lia; reflexivity|].
      split; [lia|].
      split; [intros Hk1; rewrite Ss, to_int_stride;
              [lia | replace (stride0 - k * d - d) with (stride0 - (k + 1) * d) by lia;
                     apply Hint; lia]|].
      unfold memcpy. split; [rewrite length_memmove; exact SL|].
      assert (Hkd : k * d + d <= n * d) by nia.
      split.
      + intros i t Hi Ht.
        assert (Hid : 0 <= i * d /\ i * d + d <= (k + 1) * d) by nia.
        rewrite lget_memmove by lia.
        unfold size_flt. rewrite Z.div_mul by lia.
        rewrite St, Sf.
        destruct (Z.eq_dec i k) as [->|Hne].
        * replace ((to0 + k * d <=? to0 + k * d + t) &&
                   (to0 + k * d + t <? to0 + k * d + d)) with true by lia.
          f_equal. lia.
        * assert (i * d + d <= k * d) by nia.
          replace ((to0 + k * d <=? to0 + i * d + t) &&
                   (to0 + i * d + t <? to0 + k * d + d)) with false by lia.
          apply SG; lia.
      + intros x Hx.
        destruct (Z_lt_ge_dec x 0) as [Hneg|Hpos];
          [unfold lget; replace (x <? 0) with true by lia; reflexivity|].
        destruct (Z_lt_ge_dec x (Z.of_nat (length c0))) as [Hin|Hout].
        * rewrite lget_memmove by lia.
          unfold size_flt. rewrite Z.div_mul by lia. rewrite St.
          replace ((to0 + k * d <=? x) && (x <? to0 + k * d + d)) with false by lia.
          apply SO. lia.
        * unfold lget. replace (x <? 0) with false by lia.
          rewrite !nth_overflow; [reflexivity | lia | rewrite length_memmove; lia]. }
  cbv zeta in Hinv. destruct Hinv as (A1 & A2 & _ & A4 & A5 & A6).
  repeat split; assumption.
Qed.
End Flank.

(** [a * d <= b * d] as a fact for [lia] *)
Ltac mono a b d :=
  pose proof (Z.mul_le_mono_nonneg_r a b d ltac:(lia) ltac:(lia)).

Section InsertPoints.
Context {F : Type} {ops : FloatOps F}.

(** the control points after the insertion of [n > 0] knots: those
    before [k - deg] stay, [n] first points of the rows [0 .. n - 1] of
    the net follow, then the [N - n] points of the row [n], then the last
    points of the rows [n - 1 .. 0]; the control points from [k - deg + N]
    on move up by [n] *)
Lemma insert_ctrlp_layout (alias : bool) (b : tsBSpline F)
    (net : tsDeBoorNet F) (n : Z) :
  bspline_wf b -> order b * dim b <= INT_MAX ->
  0 < n -> 0 <= Net.s net -> Net.s net + n <= order b ->
  Net.h net = deg b - Net.s net ->
  deg b <= Net.k net -> Net.k net + 1 <= n_ctrlp b + Net.s net ->
  (n_ctrlp b + n) * dim b * size_flt <= PTRDIFF_MAX ->
  (n_knots b + n) * size_flt <= PTRDIFF_MAX ->
  exists b',
    ts_internal_bspline_insert_knot alias b net n = (TS_SUCCESS, b') /\
    Z.of_nat (length (ctrlp b')) = (n_ctrlp b + n) * dim b /\
    (forall x, 0 <= x < (Net.k net - deg b) * dim b ->
       lget (ctrlp b') x = lget (ctrlp b) x) /\
    (forall i t, 0 <= i < n -> 0 <= t < dim b ->
       lget (ctrlp b') ((Net.k net - deg b + i) * dim b + t) =
       lget (Net.points net) (row_off (Net.h net + 1) i * dim b + t)) /\
    (forall j t, 0 <= j < Net.h net + 1 - n -> 0 <= t < dim b ->
       lget (ctrlp b') ((Net.k net - deg b + n + j) * dim b + t) =
       lget (Net.points net) ((row_off (Net.h net + 1) n + j) * dim b + t)) /\
    (forall i t, 0 <= i < n -> 0 <= t < dim b ->
       lget (ctrlp b') ((Net.k net - deg b + (Net.h net + 1) + i) * dim b + t) =
       lget (Net.points net)
         ((row_off (Net.h net + 1) (n - i) - 1) * dim b + t)) /\
    (forall x, (Net.k net - deg b + (Net.h net + 1)) * dim b <= x < n_ctrlp b * dim b ->
       lget (ctrlp b') (x + n * dim b) = lget (ctrlp b) x).
Proof.
  intros Hwf Hfit Hn Hs Hsn Hh Hkd Hkn Hcs' Hks'.
  pose proof Hwf as [Hdeg (Ho & Hk & Hc & Hd) Hlc Hlk Hcs Hks].
  assert (Hod : order b <= order b * dim b) by (mono 1 (dim b) (order b); lia).
  assert (Hnd : 0 < n * dim b <= order b * dim b)
    by (mono 1 (dim b) n; mono n (order b) (dim b); lia).
  destruct (resize_back_grow alias b n Hwf ltac:(lia) Hcs' Hks')
    as (r & Hr & R1 & R2 & R3 & R4 & R5 & R6 & R7 & R8 & R9).
  unfold ts_internal_bspline_insert_knot.
  assert (E1 : Net.s net +! n = Net.s net + n) by (unwrap; zlia).
  rewrite E1. replace (Net.s net + n >? order b) with false by lia.
  rewrite to_int_small by lia.
  replace (n <? 0) with false by lia.
  rewrite Hr. replace (TS_SUCCESS <? 0) with false by reflexivity.
  replace (n =? 0) with false by lia.
  assert (Esrc : deg (if alias then r else b) = deg b /\
                 dim (if alias then r else b) = dim b)
    by (destruct alias; split; first [assumption | reflexivity]).
  destruct Esrc as [Esd Esm]. rewrite Esd, Esm.
  set (N := Net.h net + 1) in *.
  assert (HNo : 1 <= N <= order b) by lia.
  assert (EN : Net.h net +! 1 = N) by (subst N; rewrite Hh; unwrap; zlia).
  rewrite EN.
  set (base := Net.k net - deg b) in *.
  assert (Hbase : 0 <= base /\ base + N <= n_ctrlp b) by lia.
  assert (HN : 0 < N * dim b <= order b * dim b)
    by (mono 1 (dim b) N; mono N (order b) (dim b); lia).
  assert (E2 : N *! dim b = N * dim b) by (unwrap; zlia).
  rewrite E2, to_int_small by lia.
  replace (N * dim b <? 0) with false by lia.
  assert (E3 : N -! n +! 1 = N - n + 1) by (unwrap; zlia).
  rewrite E3.
  assert (HN2 : 0 < (N - n + 1) * dim b <= order b * dim b)
    by (mono 1 (dim b) (N - n + 1); mono (N - n + 1) (order b) (dim b); lia).
  rewrite to_int_neg_stride by lia.
  replace (- ((N - n + 1) * dim b) >=? 0) with false by lia.
  eexists. split; [reflexivity|]. fields.
  (* sizes and offsets *)
  assert (Hbd : 0 <= base * dim b /\ (base + N) * dim b <= n_ctrlp b * dim b)
    by (mono 0 base (dim b); mono (base + N) (n_ctrlp b) (dim b); lia).
  assert (Hdim : dim b <= n_ctrlp b * dim b) by (mono 1 (n_ctrlp b) (dim b); lia).
  assert (Ek0 : Net.k net -! deg b = base) by (subst base; unwrap; zlia).
  assert (Es : dim b *! size_flt = dim b * size_flt) by (unwrap; zlia).
  assert (Ec1 : base +! N = base + N) by (unwrap; zlia).
  assert (Ec2 : base + N +! n = base + N + n) by (unwrap; zlia).
  assert (Ec3 : (base + N + n) *! dim b = (base + N + n) * dim b) by (unwrap; zlia).
  assert (Ec4 : (base + N) *! dim b = (base + N) * dim b) by (unwrap; zlia).
  assert (Ec5 : base *! (dim b * size_flt) = base * dim b * size_flt) by (unwrap; zlia).
  assert (Ec6 : n_ctrlp r -! n -! (base + N) = n_ctrlp b - (base + N))
    by (rewrite R4; unwrap; zlia).
  assert (Hrest : 0 <= (n_ctrlp b - (base + N)) * dim b <= n_ctrlp b * dim b)
    by (mono 0 (base + N) (dim b); lia).
  assert (Ec7 : (n_ctrlp b - (base + N)) *! (dim b * size_flt) =
                (n_ctrlp b - (base + N)) * dim b * size_flt) by (unwrap; zlia).
  assert (Ec8 : base *! dim b = base * dim b) by (unwrap; zlia).
  assert (Ec9 : N -! n = N - n) by (unwrap; zlia).
  assert (Hmid : 0 <= (N - n) * dim b <= order b * dim b)
    by (mono 0 (N - n) (dim b); mono (N - n) (order b) (dim b); lia).
  assert (Ec10 : (N - n) *! (dim b * size_flt) = (N - n) * dim b * size_flt)
    by (unwrap; zlia).
  assert (Ec11 : (N - n) *! dim b = (N - n) * dim b) by (unwrap; zlia).
  rewrite Ek0, Es, Ec1, Ec2, Ec3, Ec4, Ec5, Ec6, Ec7, Ec8, Ec9, Ec10, Ec11.
  assert (D1 : forall x, x * dim b * size_flt / size_flt = x * dim b)
    by (intros x; unfold size_flt; apply Z.div_mul; lia).
  (* 1. the control points of the original b-spline *)
  set (c1 := memmove (ctrlp r) 0 (ctrlp (if alias then r else b)) 0
               (base * dim b * size_flt)).
  set (c2 := memmove c1 ((base + N + n) * dim b) (if alias then c1 else ctrlp b)
               ((base + N) * dim b) ((n_ctrlp b - (base + N)) * dim b * size_flt)).
  assert (L1 : Z.of_nat (length c1) = (n_ctrlp b + n) * dim b)
    by (subst c1; rewrite length_memmove; rewrite R6; reflexivity).
  assert (L2 : Z.of_nat (length c2) = (n_ctrlp b + n) * dim b)
    by (subst c2; rewrite length_memmove; exact L1).
  assert (G1 : forall x, 0 <= x < n_ctrlp b * dim b -> lget c1 x = lget (ctrlp b) x).
  { intros x Hx. subst c1. rewrite lget_memmove by lia. rewrite D1.
    destruct ((0 <=? x) && (x <? 0 + base * dim b)) eqn:C.
    - replace (0 + (x - 0)) with x by lia.
      destruct alias; [apply R8; lia | reflexivity].
    - apply R8. lia. }
  assert (G2a : forall x, 0 <= x < (base + N + n) * dim b -> x < n_ctrlp b * dim b ->
                  lget c2 x = lget (ctrlp b) x).
  { intros x Hx Hx'. subst c2. rewrite lget_memmove by lia. rewrite D1.
    replace (((base + N + n) * dim b <=? x) &&
             (x <? (base + N + n) * dim b + (n_ctrlp b - (base + N)) * dim b))
      with false by lia.
    apply G1. lia. }
  assert (G2b : forall x, (base + N) * dim b <= x < n_ctrlp b * dim b ->
                  lget c2 (x + n * dim b) = lget (ctrlp b) x).
  { intros x Hx. subst c2. rewrite lget_memmove by lia. rewrite D1.
    replace (((base + N + n) * dim b <=? x + n * dim b) &&
             (x + n * dim b <? (base + N + n) * dim b + (n_ctrlp b - (base + N)) * dim b))
      with true by lia.
    replace ((base + N) * dim b + (x + n * dim b - (base + N + n) * dim b))
      with x by lia.
    destruct alias; [apply G1; lia | reflexivity]. }
  (* 2. a) the left flank *)
  assert (Hdd1 : 1 <= dim b) by lia.
  assert (Hdd2 : dim b * size_flt < SIZE_MOD) by zlia.
  assert (Hn0 : 0 <= n) by lia.
  assert (Hto1 : 0 <= base * dim b) by lia.
  assert (Hnb : n * dim b <= N * dim b) by (mono n N (dim b); lia).
  assert (Hto2 : base * dim b + n * dim b <= Z.of_nat (length c2)) by lia.
  assert (Hfa0 : row_off N 0 * dim b = 0) by (rewrite row_off_0; lia).
  assert (Hfa1 : forall i, 0 <= i < n ->
            row_off N (i + 1) * dim b = row_off N i * dim b + (N * dim b - i * dim b))
    by (intros i Hi; rewrite row_off_succ by lia; lia).
  assert (Hfa2 : forall i, 0 <= i < n -> in_int (N * dim b - i * dim b)).
  { intros i Hi. unfold in_int.
    mono 0 i (dim b). mono i N (dim b). lia. }
  destruct (flank_loop_spec (Net.points net) c2 (dim b) n 0 (base * dim b)
              (N * dim b) (fun i => row_off N i * dim b)
              Hdd1 Hdd2 Hn0 Hto1 Hto2 Hfa0 Hfa1 Hfa2)
    as (A1 & A2 & A3 & A4 & A5).
  set (sta := for_range 0 n (fun _ => flank_step (Net.points net) (dim b)
                                        (dim b * size_flt))
                (mkFlank c2 0 (base * dim b) (N * dim b))) in *.
  rewrite A1, A2.
  (* b) the middle part *)
  set (c3 := memcpy (fl_ctrlp sta) (base * dim b + n * dim b) (Net.points net)
               (row_off N n * dim b) ((N - n) * dim b * size_flt)).
  assert (L3 : Z.of_nat (length c3) = (n_ctrlp b + n) * dim b)
    by (subst c3; unfold memcpy; rewrite length_memmove, A3; exact L2).
  (* c) the right flank *)
  assert (Hto3 : 0 <= base * dim b + n * dim b + (N - n) * dim b) by lia.
  assert (Hto4 : base * dim b + n * dim b + (N - n) * dim b + n * dim b <=
                 Z.of_nat (length c3)) by lia.
  assert (Hfc0 : (row_off N (n - 0) - 1) * dim b = row_off N n * dim b - dim b)
    by (replace (n - 0) with n by lia; lia).
  assert (Hfc1 : forall i, 0 <= i < n ->
            (row_off N (n - (i + 1)) - 1) * dim b =
            (row_off N (n - i) - 1) * dim b + (- ((N - n + 1) * dim b) - i * dim b)).
  { intros i Hi.
    pose proof (row_off_succ N (n - (i + 1)) ltac:(lia)) as X.
    replace (n - (i + 1) + 1) with (n - i) in X by lia.
    rewrite X. lia. }
  assert (Hfc2 : forall i, 0 <= i < n ->
            in_int (- ((N - n + 1) * dim b) - i * dim b)).
  { intros i Hi. unfold in_int.
    assert (Hx : 0 <= (N - n + 1) * dim b + i * dim b <= N * dim b)
      by (mono 0 i (dim b); mono (i + 1) n (dim b); lia).
    clear - Hx HN Hfit. rewrite INT_MAX_eq in *. lia. }
  destruct (flank_loop_spec (Net.points net) c3 (dim b) n
              (row_off N n * dim b - dim b)
              (base * dim b + n * dim b + (N - n) * dim b)
              (- ((N - n + 1) * dim b))
              (fun i => (row_off N (n - i) - 1) * dim b)
              Hdd1 Hdd2 Hn0 Hto3 Hto4 Hfc0 Hfc1 Hfc2)
    as (B1 & B2 & B3 & B4 & B5).
  set (stc := for_range 0 n (fun _ => flank_step (Net.points net) (dim b)
                                        (dim b * size_flt))
                (mkFlank c3 (row_off N n * dim b - dim b)
                   (base * dim b + n * dim b + (N - n) * dim b)
                   (- ((N - n + 1) * dim b)))) in *.
  assert (G3 : forall x, 0 <= x < (n_ctrlp b + n) * dim b ->
             lget c3 x =
             if (base * dim b + n * dim b <=? x) &&
                (x <? base * dim b + n * dim b + (N - n) * dim b)
             then lget (Net.points net)
                    (row_off N n * dim b + (x - (base * dim b + n * dim b)))
             else lget (fl_ctrlp sta) x).
  { intros x Hx. subst c3. unfold memcpy.
    rewrite lget_memmove by lia. rewrite D1. reflexivity. }
  split; [rewrite B3; exact L3|].
  split; [|split; [|split; [|split]]].
  - intros x Hx. rewrite B5 by lia. rewrite G3 by lia.
    replace ((base * dim b + n * dim b <=? x) &&
             (x <? base * dim b + n * dim b + (N - n) * dim b)) with false by lia.
    rewrite A5 by lia. apply G2a; lia.
  - intros i t Hi Ht.
    assert (Hit : 0 <= i * dim b + t < n * dim b)
      by (mono 0 i (dim b); mono (i + 1) n (dim b); lia).
    rewrite B5 by lia. rewrite G3 by lia.
    replace ((base * dim b + n * dim b <=? (base + i) * dim b + t) &&
             ((base + i) * dim b + t <? base * dim b + n * dim b + (N - n) * dim b))
      with false by lia.
    replace ((base + i) * dim b + t) with (base * dim b + i * dim b + t) by lia.
    apply A4; lia.
  - intros j t Hj Ht.
    assert (Hjt : 0 <= j * dim b + t < (N - n) * dim b)
      by (mono 0 j (dim b); mono (j + 1) (N - n) (dim b); lia).
    rewrite B5 by lia. rewrite G3 by lia.
    replace ((base * dim b + n * dim b <=? (base + n + j) * dim b + t) &&
             ((base + n + j) * dim b + t <? base * dim b + n * dim b + (N - n) * dim b))
      with true by lia.
    f_equal. lia.
  - intros i t Hi Ht.
    replace ((base + N + i) * dim b + t)
      with (base * dim b + n * dim b + (N - n) * dim b + i * dim b + t) by lia.
    apply B4; lia.
  - intros x Hx. rewrite B5 by lia. rewrite G3 by lia.
    replace ((base * dim b + n * dim b <=? x + n * dim b) &&
             (x + n * dim b <? base * dim b + n * dim b + (N - n) * dim b))
      with false by lia.
    rewrite A5 by lia. apply G2b. lia.
Qed.
End InsertPoints.

Section InsertThms.
Context {F : Type} {ops : FloatOps F}.

(** the insertion after a regular evaluation: the result with its knots
    and its control points *)
Lemma insert_after_evaluate (alias : bool) (b : tsBSpline F) (u : F) (n : Z)
    (net : tsDeBoorNet F) :
  bspline_wf b -> net_fits_int b ->
  ts_bspline_evaluate b u = (0, net) ->
  0 < n -> Net.s net + n <= order b ->
  (n_ctrlp b + n) * dim b * size_flt <= PTRDIFF_MAX ->
  (n_knots b + n) * size_flt <= PTRDIFF_MAX ->
  exists b',
    ts_internal_bspline_insert_knot alias b net n = (TS_SUCCESS, b') /\
    bspline_wf b' /\
    deg b' = deg b /\ order b' = order b /\ dim b' = dim b /\
    n_ctrlp b' = n_ctrlp b + n /\ n_knots b' = n_knots b + n /\
    (forall i, 0 <= i < n_knots b + n ->
       lget (knots b') i =
       if i <=? Net.k net then lget (knots b) i
       else if i <=? Net.k net + n then Net.u net
       else lget (knots b) (i - n)) /\
    (forall i, 0 <= i < Net.k net - deg b -> ctrlp_at b' i = ctrlp_at b i) /\
    (forall i, 0 <= i < n ->
       ctrlp_at b' (Net.k net - deg b + i) = net_point net (Net.h net + 1) i 0) /\
    (forall j, 0 <= j < Net.h net + 1 - n ->
       ctrlp_at b' (Net.k net - deg b + n + j) =
       net_point net (Net.h net + 1) n j) /\
    (forall i, 0 <= i < n ->
       ctrlp_at b' (Net.k net - deg b + (Net.h net + 1) + i) =
       net_point net (Net.h net + 1) (n - 1 - i) (Net.h net + 1 - n + i)) /\
    (forall i, Net.k net - deg b + (Net.h net + 1) <= i < n_ctrlp b ->
       ctrlp_at b' (i + n) = ctrlp_at b i).
Proof.
  intros Hwf Hfit Hev Hn Hsn Hcs' Hks'.
  pose proof Hwf as [Hdeg (Ho & Hk & Hcc & Hd) Hlc Hlk Hcs Hks].
  destruct (evaluate_success b u 0 net Hwf Hev ltac:(lia))
    as (k1 & Hs & K & Hk1 & S & _ & H0 & _ & U).
  destruct (H0 eq_refl) as (S1 & K1 & K2 & Hh).
  destruct (evaluate_zero_shape b u net Hwf Hev) as (Hdim & _).
  pose proof (net_fits_int_row b Hwf Hfit) as Hrow.
  destruct (insert_knots_layout alias b net n Hwf Hrow Hn ltac:(lia) Hsn Hh
              ltac:(lia) ltac:(lia) Hcs' Hks')
    as (b' & Hins & Hwf' & D1 & D2 & D3 & D4 & D5 & G).
  destruct (insert_ctrlp_layout alias b net n Hwf Hrow Hn ltac:(lia) Hsn Hh
              ltac:(lia) ltac:(lia) Hcs' Hks')
    as (b'' & Hins' & L & C1 & C2 & C3 & C4 & C5).
  rewrite Hins in Hins'. injection Hins' as <-.
  exists b'. split; [exact Hins|]. split; [exact Hwf'|].
  do 5 (split; [assumption|]). split; [exact G|].
  set (N := Net.h net + 1) in *. set (base := Net.k net - deg b) in *.
  assert (HN : 1 <= N) by lia.
  split; [|split; [|split; [|split]]].
  - intros i Hi. unfold ctrlp_at. rewrite D3. apply map_ext_in.
    intros t Ht. apply in_seqZ in Ht. apply C1. nia.
  - intros i Hi. unfold ctrlp_at, net_point. rewrite D3, Hdim. apply map_ext_in.
    intros t Ht. apply in_seqZ in Ht. rewrite C2 by lia.
    f_equal. lia.
  - intros j Hj. unfold ctrlp_at, net_point. rewrite D3, Hdim. apply map_ext_in.
    intros t Ht. apply in_seqZ in Ht. rewrite C3 by lia. reflexivity.
  - intros i Hi. unfold ctrlp_at, net_point. rewrite D3, Hdim. apply map_ext_in.
    intros t Ht. apply in_seqZ in Ht. rewrite C4 by lia.
    pose proof (row_off_succ N (n - 1 - i) ltac:(lia)) as X.
    replace (n - 1 - i + 1) with (n - i) in X by lia.
    rewrite X. f_equal. lia.
  - intros i Hi. unfold ctrlp_at. rewrite D3. apply map_ext_in.
    intros t Ht. apply in_seqZ in Ht.
    replace ((i + n) * dim b + t) with (i * dim b + t + n * dim b) by lia.
    apply C5. nia.
Qed.

(** X13.  The control points of [insert_knot(B, u, n)] after a regular
    evaluation whose net has its [N (N + 1) / 2] points ([N = h + 1]):
    those before [k - deg] and those from [k - deg + N] on are kept (the
    latter [n] places higher); between them are the first points of the
    rows [0 .. n - 1] of the net, the [N - n] points of its row [n], and
    the last points of its rows [n - 1 .. 0]. *)
Theorem insert_knot_control_points (alias : bool) (b : tsBSpline F) (u : F)
    (n : Z) (net : tsDeBoorNet F) :
  bspline_wf b -> net_fits_int b ->
  ts_bspline_evaluate b u = (0, net) ->
  Net.n_points net = tri (Net.h net + 1) ->
  0 < n -> Net.s net + n <= order b ->
  (n_ctrlp b + n) * dim b * size_flt <= PTRDIFF_MAX ->
  (n_knots b + n) * size_flt <= PTRDIFF_MAX ->
  exists b',
    ts_bspline_insert_knot alias b u n = (TS_SUCCESS, b', Net.k net + n) /\
    n_ctrlp b' = n_ctrlp b + n /\ dim b' = dim b /\
    (forall i, 0 <= i < Net.k net - deg b -> ctrlp_at b' i = ctrlp_at b i) /\
    (forall i, 0 <= i < n ->
       ctrlp_at b' (Net.k net - deg b + i) = net_point net (Net.h net + 1) i 0) /\
    (forall j, 0 <= j < Net.h net + 1 - n ->
       ctrlp_at b' (Net.k net - deg b + n + j) =
       net_point net (Net.h net + 1) n j) /\
    (forall i, 0 <= i < n ->
       ctrlp_at b' (Net.k net - deg b + (Net.h net + 1) + i) =
       net_point net (Net.h net + 1) (n - 1 - i) (Net.h net + 1 - n + i)) /\
    (forall i, Net.k net - deg b + (Net.h net + 1) <= i < n_ctrlp b ->
       ctrlp_at b' (i + n) = ctrlp_at b i).
Proof.
  intros Hwf Hfit Hev _ Hn Hsn Hcs' Hks'.
  destruct (insert_after_evaluate alias b u n net Hwf Hfit Hev Hn Hsn Hcs' Hks')
    as (b' & Hins & _ & _ & _ & D3 & D4 & _ & _ & C1 & C2 & C3 & C4 & C5).
  destruct (evaluate_success b u 0 net Hwf Hev ltac:(lia))
    as (k1 & Hs & K & Hk1 & S & _).
  pose proof Hwf as [Hdeg (Ho & Hk & Hcc & Hd) Hlc Hlk Hcs Hks].
  exists b'. unfold ts_bspline_insert_knot. rewrite Hev.
  replace (0 >=? 0) with true by reflexivity. rewrite Hins.
  replace (TS_SUCCESS >=? 0) with true by reflexivity.
  assert (Ekn : Net.k net +! n = Net.k net + n) by (unwrap; zlia).
  rewrite Ekn. split; [reflexivity|].
  repeat split; assumption.
Qed.

(** X14.  The failures of [ts_bspline_insert_knot].  An error of the evaluation
    is returned with [k = 0] and the output reset to the default
    b-spline, also when the output is the input.  After a successful
    evaluation, [s + n > order] is [TS_MULTIPLICITY], and a count [n] so
    large that [s + n] wraps around is [TS_OVER_UNDERFLOW] (for an order
    that fits [int]), both with [k = 0]; the output
    is then left as it was when it is the input, and is the default
    b-spline otherwise. *)
Theorem insert_knot_failures (alias : bool) (b : tsBSpline F) (u : F) (n : Z)
    (c : tsError) (net : tsDeBoorNet F) :
  bspline_wf b -> in_size n ->
  ts_bspline_evaluate b u = (c, net) ->
  (c < 0 -> ts_bspline_insert_knot alias b u n = (c, ts_bspline_default, 0)) /\
  (0 <= c -> order b < Net.s net + n < SIZE_MOD ->
   ts_bspline_insert_knot alias b u n =
   (TS_MULTIPLICITY, (if alias then b else ts_bspline_default), 0)) /\
  (0 <= c -> order b <= INT_MAX -> SIZE_MOD <= Net.s net + n ->
   ts_bspline_insert_knot alias b u n =
   (TS_OVER_UNDERFLOW, (if alias then b else ts_bspline_default), 0)).
Proof.
  intros Hwf Hn Hev.
  pose proof Hwf as [Hdeg (Ho & Hk & Hcc & Hd) Hlc Hlk Hcs Hks].
  unfold ts_bspline_insert_knot. rewrite Hev.
  split; [|split].
  - intros Hc. replace (c >=? 0) with false by lia. reflexivity.
  - intros Hc Hm. replace (c >=? 0) with true by lia.
    unfold ts_internal_bspline_insert_knot.
    assert (E : Net.s net +! n = Net.s net + n) by (unwrap; zlia).
    rewrite E. replace (Net.s net + n >? order b) with true by lia.
    replace (TS_MULTIPLICITY >=? 0) with false by reflexivity. reflexivity.
  - intros Hc Hoi Hm. replace (c >=? 0) with true by lia.
    destruct (evaluate_success b u c net Hwf Hev ltac:(lia))
      as (k1 & Hs & K & Hk1 & S & _).
    unfold ts_internal_bspline_insert_knot.
    assert (E : Net.s net +! n = Net.s net + n - SIZE_MOD).
    { unfold sz_add, wrap.
      rewrite <- (Z.mod_add (Net.s net + n) (-1) SIZE_MOD) by (rewrite SIZE_MOD_eq; lia).
      replace (Net.s net + n + -1 * SIZE_MOD) with (Net.s net + n - SIZE_MOD) by lia.
      apply Z.mod_small. zlia. }
    rewrite E. replace (Net.s net + n - SIZE_MOD >? order b) with false by zlia.
    assert (Hneg : to_int n < 0).
    { unfold to_int.
      assert (Hn' : SIZE_MOD - order b <= n < SIZE_MOD) by zlia.
      rewrite <- (Z.mod_add n (- 4294967295) INT_MOD) by (rewrite INT_MOD_eq; lia).
      rewrite Z.mod_small by zlia.
      destruct (n + -4294967295 * INT_MOD <=? INT_MAX) eqn:C; zlia. }
    replace (to_int n <? 0) with true by lia.
    replace (TS_OVER_UNDERFLOW >=? 0) with false by reflexivity. reflexivity.
Qed.
End InsertThms.

(** ** [ts_bspline_split] *)

Section SplitPoint.
Context {F : Type} {ops : FloatOps F}.

(** an evaluation whose span search found the full multiplicity at
    interior knots returns the code 2 and the control point [k - deg] *)
Lemma evaluate_pair (b : tsBSpline F) (u : F) (k1 : Z) :
  bspline_wf b ->
  span_search (Z.to_nat (n_knots b)) (knots b) u 0 0 = (k1, order b) ->
  k1 - 1 <> deg b -> k1 <> n_knots b ->
  exists net,
    ts_bspline_evaluate b u = (2, net) /\
    Net.k net = k1 - 1 /\ Net.s net = order b /\
    net_result net = ctrlp_at b (k1 - 1 - deg b).
Proof.
  intros Hwf Hs Hl Hr.
  pose proof Hwf as [Hdeg (Ho & Hk & Hc & Hd) Hlc Hlk Hcs Hks].
  pose proof (span_search_range _ _ _ _ _ _ _ Hs) as [Hk1 Hsk].
  unfold ts_bspline_evaluate. rewrite Hs.
  replace (k1 =? 0) with false by lia.
  replace ((k1 =? n_knots b) && (order b =? 0)) with false by lia.
  replace (order b <=? deg b) with false by lia. cbn [andb].
  replace (order b >? order b) with false by lia.
  replace (order b =? order b) with true by lia.
  assert (E1 : k1 -! 1 = k1 - 1) by (unwrap; zlia).
  assert (E2 : n_knots b -! 1 = n_knots b - 1) by (unwrap; zlia).
  assert (Hn2 : 2 <= n_ctrlp b) by lia.
  assert (Hcd2 : dim b * 2 <= n_ctrlp b * dim b) by nia.
  assert (E3 : size_flt *! dim b = dim b * size_flt) by (unwrap; zlia).
  rewrite E1, E2, E3.
  replace ((k1 - 1 =? deg b) || (k1 - 1 =? n_knots b - 1)) with false by lia.
  assert (E4 : 2 *! (dim b * size_flt) = dim b * 2 * size_flt) by (unwrap; zlia).
  rewrite E4, malloc_ok by zlia.
  eexists. split; [reflexivity|]. cbn [Net.k Net.s].
  split; [reflexivity|]. split; [reflexivity|].
  unfold net_result, ctrlp_at. cbn [Net.points Net.result Net.dim].
  apply map_ext_in. intros c Hin. apply in_seqZ in Hin.
  unfold memcpy. unfold size_flt. rewrite Z.div_mul by lia.
  rewrite lget_memmove by (rewrite repeat_length; lia).
  unfold size_flt. rewrite Z.div_mul by lia.
  replace ((0 <=? dim b + c) && (dim b + c <? 0 + dim b * 2)) with true by lia.
  f_equal.
  assert (0 <= (k1 - 1 - order b) * dim b <= n_ctrlp b * dim b) by nia.
  replace (k1 - 1 -! order b) with (k1 - 1 - order b) by (unwrap; zlia).
  unwrap. lia.
Qed.

(** X15.  Splitting at a parameter of a regular evaluation keeps the curve
    point: the evaluation of the result at the same parameter finds the
    full multiplicity at the knot [k + h + 1] and returns, without any
    arithmetic, the point that the evaluation of [B] computed. *)
Theorem split_keeps_point (alias : bool) (b : tsBSpline F) (u : F)
    (net : tsDeBoorNet F) :
  bspline_wf b -> net_fits_int b ->
  ts_bspline_evaluate b u = (0, net) ->
  ts_fequals u u = true ->
  Net.n_points net = tri (Net.h net + 1) ->
  (n_ctrlp b + (Net.h net + 1)) * dim b * size_flt <= PTRDIFF_MAX ->
  (n_knots b + (Net.h net + 1)) * size_flt <= PTRDIFF_MAX ->
  exists b' net',
    ts_bspline_split alias b u = (TS_SUCCESS, b', Net.k net + Net.h net + 1) /\
    ts_bspline_evaluate b' u = (2, net') /\
    Net.k net' = Net.k net + Net.h net + 1 /\
    Net.s net' = order b /\
    net_result net' = net_result net.
Proof.
  intros Hwf Hfit Hev Hu Htri Hcs' Hks'.
  pose proof Hwf as [Hdeg (Ho & Hk & Hcc & Hd) Hlc Hlk Hcs Hks].
  destruct (evaluate_success b u 0 net Hwf Hev ltac:(lia))
    as (k1 & Hs & K & Hk1 & S & _ & H0 & _ & U).
  destruct (H0 eq_refl) as (S1 & K1 & K2 & Hh).
  destruct (evaluate_zero_shape b u net Hwf Hev) as (Hdim & _ & Hres & _).
  set (N := Net.h net + 1) in *.
  assert (HN : 1 <= N <= order b) by lia.
  destruct (insert_after_evaluate alias b u N net Hwf Hfit Hev ltac:(lia) ltac:(lia)
              Hcs' Hks')
    as (b' & Hins & Hwf' & D1 & D2 & D3 & D4 & D5 & G & _ & _ & _ & C4 & _).
  (* the span search of the result *)
  assert (Hs' : span_search (Z.to_nat (n_knots b')) (knots b') u 0 0 =
                (k1 + N, order b')).
  { rewrite D5, D2.
    replace (order b) with (Net.s net + N) by lia.
    pose proof (span_search_range _ _ _ _ _ _ _ Hs) as [R _].
    destruct (span_search_stop _ _ _ _ _ _ _ Hs) as [Hpre [Hend|(_ & X1 & X2)]];
      [lia|].
    apply (span_search_inserted (knots b)); try assumption; try lia.
    - intros i Hi. rewrite G by lia. replace (i <=? Net.k net) with true by lia.
      reflexivity.
    - intros i Hi. rewrite G by lia. replace (i <=? Net.k net) with false by lia.
      replace (i <=? Net.k net + N) with true by lia.
      rewrite U. destruct (ts_fequals u (lget (knots b) (k1 - 1))) eqn:E;
        assumption.
    - rewrite G by lia.
      replace (k1 + N <=? Net.k net) with false by lia.
      replace (k1 + N <=? Net.k net + N) with false by lia.
      f_equal. lia. }
  destruct (evaluate_pair b' u (k1 + N) Hwf' Hs') as (net' & Hev' & K' & S' & R');
    try lia.
  exists b', net'.
  split.
  { unfold ts_bspline_split. rewrite Hev.
    replace (0 >=? 1) with false by reflexivity.
    replace (0 =? 0) with true by reflexivity.
    assert (EN : Net.h net +! 1 = N) by (unwrap; zlia).
    rewrite EN, Hins.
    replace (TS_SUCCESS >=? 0) with true by reflexivity.
    assert (EK : Net.k net +! Net.h net +! 1 = Net.k net + Net.h net + 1)
      by (unwrap; zlia).
    rewrite EK. reflexivity. }
  split; [exact Hev'|]. split; [lia|]. split; [lia|].
  rewrite R', D1.
  replace (k1 + N - 1 - deg b) with (Net.k net - deg b + N + 0) by lia.
  rewrite C4 by lia.
  unfold net_point, net_result. rewrite Hdim. apply map_ext_in.
  intros c Hc. apply in_seqZ in Hc. f_equal.
  rewrite Hres, Htri.
  replace (N - 1 - 0) with (N - 1) by lia.
  replace (N - N + 0) with 0 by lia.
  rewrite row_off_last by lia.
  assert (Htm : tri N <= tri (order b)) by (apply tri_mono; lia).
  assert (HtN : N <= tri N) by (unfold tri; apply Z.div_le_lower_bound; nia).
  unfold net_fits_int in Hfit. fold (tri (order b)) in Hfit.
  assert (Hfit' : tri N * dim b <= INT_MAX) by nia.
  assert (Hx : 0 <= (tri N - 1) * dim b <= tri N * dim b) by nia.
  unwrap. lia.
Qed.
End SplitPoint.

(** ** The curve point at the parameter of an insertion *)

Section KeepPoint.
Context {F : Type} {ops : FloatOps F}.


End KeepPoint.

(** ** [ts_bspline_insert_knot]: the result *)

Section InsertStructure.
Context {F : Type} {ops : FloatOps F}.



End InsertStructure.

(** ** [ts_bspline_buckle] *)

Section Buckle.
Context {F : Type} {ops : FloatOps F}.

(** the two loops of [ts_bspline_buckle] on a buffer of [N] points *)
Lemma buckle_loops (beta : F) (dm N : Z) (c : list F) :
  1 <= dm -> 1 <= N -> Z.of_nat (length c) = N * dm ->
  N * dm * size_flt <= PTRDIFF_MAX ->
  let c' := for_range 0 N
              (fun i c => for_range 0 dm (buckle_scalar beta (fsub F1 beta) dm N i) c) c in
  length c' = length c /\
  (forall i d, 0 <= i < N -> 0 <= d < dm ->
     lget c' (i * dm + d) = buckle_spec beta dm N c i d) /\
  (forall x, N * dm <= x -> lget c' x = lget c x).
Proof.
  intros Hd HN Hlc Hcs.
  assert (HNd : dm <= N * dm) by nia.
  assert (EN : N -! 1 = N - 1) by (unwrap; zlia).
  assert (Hlast : 0 <= (N - 1) * dm <= N * dm) by nia.
  assert (ENd : (N - 1) *! dm = (N - 1) * dm) by (unwrap; zlia).
  cbv zeta.
    apply (for_range_inv
             (fun i st =>
                length st = length c /\
                (forall i' d, 0 <= i' < i -> 0 <= d < dm ->
                   lget st (i' * dm + d) = buckle_spec beta dm N c i' d) /\
                (forall x, i * dm <= x -> lget st x = lget c x))); [lia | |].
    - split; [reflexivity|]. split; [intros; lia | reflexivity].
    - intros i st Hi (SL & SG & SO).
      assert (Hid : 0 <= i * dm /\ i * dm + dm <= N * dm) by nia.
      assert (Hrow :
        let st' := for_range 0 dm (buckle_scalar beta (fsub F1 beta) dm N i) st in
        length st' = length c /\
        (forall i' d, 0 <= i' < i -> 0 <= d < dm ->
           lget st' (i' * dm + d) = buckle_spec beta dm N c i' d) /\
        (forall d, 0 <= d < dm ->
           lget st' (i * dm + d) = buckle_spec beta dm N c i d) /\
        (forall x, i * dm + dm <= x -> lget st' x = lget c x)).
      { cbv zeta.
        apply (for_range_inv
                 (fun d s' =>
                    length s' = length c /\
                    (forall i' d', 0 <= i' < i -> 0 <= d' < dm ->
                       lget s' (i' * dm + d') = buckle_spec beta dm N c i' d') /\
                    (forall d', 0 <= d' < d ->
                       lget s' (i * dm + d') = buckle_spec beta dm N c i d') /\
                    (forall x, i * dm + d <= x -> lget s' x = lget c x))); [lia | |].
        - split; [exact SL|]. split; [exact SG|]. split; [intros; lia|].
          intros x Hx. apply SO. lia.
        - intros d s' Hdd (TL & TG & TD & TO).
          unfold buckle_scalar.
          assert (Eid : i *! dm +! d = i * dm + d) by (unwrap; zlia).
          rewrite Eid, EN, ENd. cbn [Z.add].
          split; [rewrite length_lset; exact TL|].
          assert (Hcell : 0 <= i * dm + d < Z.of_nat (length s')) by lia.
          (* the values that are read *)
          assert (Rx : lget s' (i * dm + d) = lget c (i * dm + d)) by (apply TO; lia).
          assert (Rn : lget s' ((N - 1) * dm + d) = lget c ((N - 1) * dm + d))
            by (apply TO; nia).
          assert (R0 : lget s' d =
                       if i =? 0 then lget c d
                       else buckle_spec beta dm N c 0 d).
          { destruct (i =? 0) eqn:Ei.
            - apply TO. nia.
            - replace d with (0 * dm + d) at 1 by lia. apply TG; lia. }
          assert (Hnew :
            fadd (fmul beta (lget s' (i * dm + d)))
              (fmul (fsub F1 beta)
                 (fadd (lget s' d)
                    (fmul (fdiv (of_size i) (of_size (N - 1)))
                       (fsub (lget s' ((N - 1) * dm + d)) (lget s' d))))) =
            buckle_spec beta dm N c i d).
          { rewrite Rx, Rn, R0. unfold buckle_spec. cbn [Z.eqb].
            destruct (i =? 0) eqn:Ei.
            - assert (i = 0) by lia. subst i. cbn [Z.mul Z.add]. reflexivity.
            - reflexivity. }
          rewrite Hnew.
          split; [|split].
          + intros i' d' Hi' Hd'. rewrite lget_lset.
            assert (i' * dm + d' < i * dm) by nia.
            replace (i' * dm + d' =? i * dm + d) with false by lia.
            cbn [andb]. apply TG; lia.
          + intros d' Hd'. rewrite lget_lset.
            destruct (Z.eq_dec d' d) as [->|Hne].
            * replace (i * dm + d =? i * dm + d) with true by lia.
              replace (0 <=? i * dm + d) with true by lia.
              replace (i * dm + d <? Z.of_nat (length s')) with true by lia.
              reflexivity.
            * replace (i * dm + d' =? i * dm + d) with false by lia.
              cbn [andb]. apply TD. lia.
          + intros x Hx. rewrite lget_lset.
            replace (x =? i * dm + d) with false by lia.
            cbn [andb]. apply TO. lia. }
      cbv zeta in Hrow. destruct Hrow as (RL & RG & RD & RO).
      split; [exact RL|]. split.
      + intros i' d Hi' Hd'.
        destruct (Z.eq_dec i' i) as [->|Hne]; [apply RD | apply RG]; lia.
      + intros x Hx. apply RO. lia.
Qed.

(** what [ts_bspline_buckle] returns on a well-formed b-spline *)
Lemma buckle_wf (alias : bool) (b : tsBSpline F) (beta : F) :
  bspline_wf b ->
  ts_bspline_buckle alias b beta =
  (TS_SUCCESS,
   with_buffers b
     (for_range 0 (n_ctrlp b)
        (fun i c => for_range 0 (dim b)
                      (buckle_scalar beta (fsub F1 beta) (dim b) (n_ctrlp b) i) c)
        (ctrlp b))
     (knots b)).
Proof.
  intros Hwf.
  assert (Hcopy : (if alias then (TS_SUCCESS, b) else ts_bspline_copy false b) =
                  (TS_SUCCESS, b))
    by (destruct alias; [reflexivity | apply copy_wf; exact Hwf]).
  unfold ts_bspline_buckle. rewrite Hcopy. reflexivity.
Qed.

(** X18.  Buckling a well-formed b-spline, in place or into another object,
    succeeds and changes nothing but the control points; each scalar is
    the one of [buckle_spec]. *)
Theorem buckle_result (alias : bool) (b : tsBSpline F) (beta : F) :
  bspline_wf b ->
  exists b',
    ts_bspline_buckle alias b beta = (TS_SUCCESS, b') /\
    bspline_wf b' /\
    deg b' = deg b /\ order b' = order b /\ dim b' = dim b /\
    n_ctrlp b' = n_ctrlp b /\ n_knots b' = n_knots b /\
    knots b' = knots b /\
    forall i d, 0 <= i < n_ctrlp b -> 0 <= d < dim b ->
      lget (ctrlp b') (i * dim b + d) =
      buckle_spec beta (dim b) (n_ctrlp b) (ctrlp b) i d.
Proof.
  intros Hwf.
  pose proof Hwf as [Hdeg (Ho & Hk & Hc & Hd) Hlc Hlk Hcs Hks].
  destruct (buckle_loops beta (dim b) (n_ctrlp b) (ctrlp b)) as (L & G & _);
    try assumption; try lia.
  eexists. split; [apply buckle_wf; exact Hwf|]. fields.
  split.
  - constructor; unfold bspline_inv; fields; try lia;
      try (rewrite L; exact Hlc).
  - do 6 (split; [reflexivity|]). exact G.
Qed.
End Buckle.

(** X19.  Buckling a b-spline with a single control point divides 0 by 0: in
    single precision every coordinate of the point becomes NaN, whatever
    the factor. *)
Theorem buckle_single_point (alias : bool) (b : tsBSpline spec_float)
    (beta : spec_float) :
  bspline_wf b -> n_ctrlp b = 1 ->
  exists b',
    ts_bspline_buckle alias b beta = (TS_SUCCESS, b') /\
    n_ctrlp b' = 1 /\ dim b' = dim b /\
    forall d, 0 <= d < dim b -> lget (ctrlp b') d = S754_nan.
Proof.
  intros Hwf H1.
  pose proof Hwf as [Hdeg (Ho & Hk & Hc & Hd) Hlc Hlk Hcs Hks].
  destruct (buckle_loops beta (dim b) (n_ctrlp b) (ctrlp b)) as (_ & G & _);
    try assumption; try lia.
  eexists. split; [apply buckle_wf; exact Hwf|]. fields.
  split; [exact H1|]. split; [reflexivity|].
  intros d Hdd. specialize (G 0 d ltac:(lia) Hdd).
  cbn [Z.mul Z.add] in G. rewrite G, H1.
  unfold buckle_spec. cbn [Z.eqb Z.sub Z.add Z.opp Z.pos_sub Z.mul].
  cbn [fadd fmul fdiv fsub of_size binary32].
  change (SFdiv B32.prec B32.emax (B32.of_Z 0) (B32.of_Z 0)) with S754_nan.
  cbn [SFmul].
  destruct (lget (ctrlp b) d); cbn [SFadd];
    destruct (SFsub B32.prec B32.emax F1 beta); cbn [SFmul];
    match goal with
    | |- SFadd _ _ ?x S754_nan = _ => destruct x; reflexivity
    end.
Qed.

(** ** The order of single precision values *)

Lemma b32_fle_trans (a b c : spec_float) :
  SFleb a b = true -> SFleb b c = true -> SFleb a c = true.
Proof.
  rewrite !SFleb_rank. unfold rank_lt.
  destruct (rank a) as [[a1 a2] a3], (rank b) as [[b1 b2] b3],
           (rank c) as [[c1 c2] c3].
  intros (N1 & N2 & L) (_ & N3 & G). repeat split; try assumption. lia.
Qed.

Lemma b32_flt_fle (a b : spec_float) : SFltb a b = true -> SFleb a b = true.
Proof.
  rewrite SFltb_rank, SFleb_rank. unfold rank_lt.
  destruct (rank a) as [[a1 a2] a3], (rank b) as [[b1 b2] b3].
  intros (N1 & N2 & L). repeat split; try assumption. lia.
Qed.

Lemma b32_flt_not_fle (a b : spec_float) :
  SFltb a b = true -> SFleb b a = true -> False.
Proof.
  rewrite SFltb_rank, SFleb_rank. unfold rank_lt.
  destruct (rank a) as [[a1 a2] a3], (rank b) as [[b1 b2] b3].
  intros (N1 & N2 & L) (_ & _ & G). lia.
Qed.

(** ** The decomposition loop *)

(** the search for a knot of a weakly increasing knot vector passes
    this knot *)
Lemma search_passes_knot (b : tsBSpline spec_float) (k k1 s : Z) :
  knots_sorted b -> 0 <= k < n_knots b ->
  span_search (Z.to_nat (n_knots b)) (knots b) (lget (knots b) k) 0 0 = (k1, s) ->
  k + 1 <= k1.
Proof.
  intros Hsort Hk Hs.
  destruct (span_search_stop _ _ _ _ _ _ _ Hs) as [_ [Hend|(Hlt & _ & E2)]];
    [lia|].
  destruct (Z_lt_ge_dec k k1) as [H|H]; [lia|]. exfalso.
  pose proof (span_search_range _ _ _ _ _ _ _ Hs) as [R _].
  apply (b32_flt_not_fle _ _ E2). apply Hsort; lia.
Qed.

(** inserting copies of a value between two knots it lies between keeps
    the knots weakly increasing *)
Lemma sorted_insert (b b' : tsBSpline spec_float) (K n : Z) (v : spec_float) :
  knots_sorted b -> 0 <= K < n_knots b -> 0 < n ->
  n_knots b' = n_knots b + n ->
  (forall i, 0 <= i < n_knots b + n ->
     lget (knots b') i =
     if i <=? K then lget (knots b) i
     else if i <=? K + n then v
     else lget (knots b) (i - n)) ->
  SFleb (lget (knots b) K) v = true ->
  (K + 1 < n_knots b -> SFleb v (lget (knots b) (K + 1)) = true) ->
  knots_sorted b'.
Proof.
  intros Hsort HK Hn Hnk G Hlo Hhi i j Hij Hj.
  rewrite Hnk in Hj. rewrite !G by lia.
  assert (Hvv : SFleb v v = true).
  { apply SFleb_rank in Hlo. apply SFleb_rank.
    destruct Hlo as (_ & Nv & _). repeat split; try assumption.
    unfold rank_lt. destruct (rank v) as [[v1 v2] v3]. lia. }
  destruct (i <=? K) eqn:Ci; [apply Z.leb_le in Ci | apply Z.leb_gt in Ci].
  - destruct (j <=? K) eqn:Cj; [apply Z.leb_le in Cj | apply Z.leb_gt in Cj].
    + apply Hsort; lia.
    + assert (Hiv : SFleb (lget (knots b) i) v = true)
        by (apply (b32_fle_trans _ (lget (knots b) K)); [apply Hsort; lia | exact Hlo]).
      destruct (j <=? K + n) eqn:Cj2; [exact Hiv|]. apply Z.leb_gt in Cj2.
      apply (b32_fle_trans _ v); [exact Hiv|].
      apply (b32_fle_trans _ (lget (knots b) (K + 1))); [apply Hhi; lia|].
      apply Hsort; lia.
  - replace (j <=? K) with false by lia.
    destruct (i <=? K + n) eqn:Ci2; [apply Z.leb_le in Ci2 | apply Z.leb_gt in Ci2].
    + destruct (j <=? K + n) eqn:Cj2; [exact Hvv|]. apply Z.leb_gt in Cj2.
      apply (b32_fle_trans _ (lget (knots b) (K + 1))); [apply Hhi; lia|].
      apply Hsort; lia.
    + replace (j <=? K + n) with false by lia. apply Hsort; lia.
Qed.

Section InPlace.
Context {F : Type} {ops : FloatOps F}.

(** an in-place insertion whose buffers cannot be allocated fails *)
Lemma insert_in_place_alloc (b : tsBSpline F) (net : tsDeBoorNet F) (n : Z) :
  bspline_wf b -> order b <= INT_MAX -> 0 < n <= order b ->
  (n_ctrlp b + n) * dim b * size_flt <= PTRDIFF_MAX /\
  (n_knots b + n) * size_flt <= PTRDIFF_MAX \/
  fst (ts_internal_bspline_insert_knot true b net n) < 0.
Proof.
  intros Hwf Hoi Hn.
  pose proof Hwf as [Hdeg (Ho & Hk & Hc & Hd) Hlc Hlk Hcs Hks].
  destruct (Z_le_gt_dec ((n_ctrlp b + n) * dim b * size_flt) PTRDIFF_MAX) as [B1|B1];
    [destruct (Z_le_gt_dec ((n_knots b + n) * size_flt) PTRDIFF_MAX) as [B2|B2];
     [left; split; assumption|]|]; right.
  - (* the knots cannot be reallocated *)
    assert (Hcd : n_ctrlp b + n <= (n_ctrlp b + n) * dim b) by nia.
    assert (Hdd : dim b <= (n_ctrlp b + n) * dim b) by nia.
    unfold ts_internal_bspline_insert_knot.
    destruct (Net.s net +! n >? order b); [cbn; unfold TS_MULTIPLICITY; lia|].
    rewrite to_int_small by lia. replace (n <? 0) with false by lia.
    assert (Hr : fst (ts_bspline_resize true b n true) = TS_MALLOC).
    { unfold ts_bspline_resize.
      replace (n =? 0) with false by lia. cbn [andb negb].
      assert (E1 : n_ctrlp b +! n = n_ctrlp b + n) by (unwrap; zlia).
      assert (E2 : n_knots b +! n = n_knots b + n) by (unwrap; zlia).
      assert (E3 : dim b *! size_flt = dim b * size_flt) by (unwrap; zlia).
      rewrite E1, E2, E3.
      replace (n_ctrlp b + n <=? deg b) with false by lia.
      replace (n <? 0) with false by lia. cbn [andb].
      replace (n_ctrlp b + n <? n_ctrlp b) with false by lia.
      rewrite andb_false_r.
      replace (TS_SUCCESS <? 0) with false by reflexivity.
      assert (E4 : (n_ctrlp b + n) *! (dim b * size_flt) =
                   (n_ctrlp b + n) * dim b * size_flt) by (unwrap; zlia).
      assert (E5 : (n_knots b + n) *! size_flt = (n_knots b + n) * size_flt)
        by (unwrap; zlia).
      rewrite E4, realloc_ok by assumption. fields. rewrite E5.
      unfold realloc.
      replace ((n_knots b + n) * size_flt <=? PTRDIFF_MAX) with false by lia.
      reflexivity. }
    destruct (ts_bspline_resize true b n true) as [err r]. cbn [fst] in Hr.
    subst err. replace (TS_MALLOC <? 0) with true by reflexivity.
    cbn. unfold TS_MALLOC. lia.
  - (* the control points cannot be reallocated *)
    assert (Hcd : (n_ctrlp b + n) * dim b <= 2 * (n_ctrlp b * dim b)) by nia.
    unfold ts_internal_bspline_insert_knot.
    destruct (Net.s net +! n >? order b); [cbn; unfold TS_MULTIPLICITY; lia|].
    rewrite to_int_small by lia. replace (n <? 0) with false by lia.
    assert (Hr : fst (ts_bspline_resize true b n true) = TS_MALLOC).
    { unfold ts_bspline_resize.
      replace (n =? 0) with false by lia. cbn [andb negb].
      assert (Hnc : n_ctrlp b <= n_ctrlp b * dim b) by nia.
      assert (Hdc : dim b <= n_ctrlp b * dim b) by nia.
      assert (E1 : n_ctrlp b +! n = n_ctrlp b + n) by (unwrap; zlia).
      assert (E3 : dim b *! size_flt = dim b * size_flt) by (unwrap; zlia).
      rewrite E1, E3.
      replace (n_ctrlp b + n <=? deg b) with false by lia.
      replace (n <? 0) with false by lia. cbn [andb].
      replace (n_ctrlp b + n <? n_ctrlp b) with false by lia.
      rewrite andb_false_r.
      replace (TS_SUCCESS <? 0) with false by reflexivity.
      assert (E4 : (n_ctrlp b + n) *! (dim b * size_flt) =
                   (n_ctrlp b + n) * dim b * size_flt).
      { unfold sz_mul. rewrite Z.mul_assoc. apply wrap_small. zlia. }
      rewrite E4. unfold realloc.
      replace ((n_ctrlp b + n) * dim b * size_flt <=? PTRDIFF_MAX) with false by lia.
      reflexivity. }
    destruct (ts_bspline_resize true b n true) as [err r]. cbn [fst] in Hr.
    subst err. replace (TS_MALLOC <? 0) with true by reflexivity.
    cbn. unfold TS_MALLOC. lia.
Qed.
End InPlace.

Lemma fits_order (b : tsBSpline spec_float) :
  bspline_wf b -> net_fits_int b -> order b <= INT_MAX.
Proof.
  intros Hwf Hfit. pose proof (net_fits_int_row b Hwf Hfit).
  destruct Hwf as [Hdeg (Ho & Hk & Hc & Hd) _ _ _ _]. nia.
Qed.

(** a successful in-place split at a knot: the b-spline stays well
    formed with weakly increasing knots, and [k'] leaves as many knots
    behind it as the span of the knot did *)
Lemma split_at_knot (b b' : tsBSpline spec_float) (k k' : Z) (e : tsError) :
  bspline_wf b -> net_fits_int b -> knots_sorted b ->
  0 <= k < n_knots b ->
  ts_bspline_split true b (lget (knots b) k) = (e, b', k') ->
  0 <= e ->
  bspline_wf b' /\ net_fits_int b' /\ knots_sorted b' /\
  order b' = order b /\ deg b' = deg b /\ dim b' = dim b /\
  n_knots b <= n_knots b' <= n_knots b + order b /\
  k <= k' < n_knots b' /\ n_knots b' - k' <= n_knots b - k.
Proof.
  intros Hwf Hfit Hsort Hk Hsp He.
  pose proof Hwf as [Hdeg (Ho & Hkn & Hc & Hd) Hlc Hlk Hcs Hks].
  set (u := lget (knots b) k) in *.
  destruct (ts_bspline_evaluate b u) as [c net] eqn:Hev.
  revert Hsp. unfold ts_bspline_split. rewrite Hev.
  destruct (c >=? 1) eqn:C1.
  { (* the knot has its full multiplicity *)
    cbn [negb]. intros H. injection H as <- <- <-.
    destruct (evaluate_success b u c net Hwf Hev ltac:(lia))
      as (k1 & Hs & K & Hk1 & S & _).
    pose proof (search_passes_knot b k k1 _ Hsort Hk Hs) as Hp.
    replace (c >=? 0) with true by lia.
    repeat split; try assumption; try reflexivity; lia. }
  destruct (c =? 0) eqn:C0.
  2:{ cbn [negb]. intros H. injection H as <- <- <-. lia. }
  assert (c = 0) by lia. subst c.
  destruct (evaluate_success b u 0 net Hwf Hev ltac:(lia))
    as (k1 & Hs & K & Hk1 & S & _ & H0 & _ & U).
  destruct (H0 eq_refl) as (S1 & K1 & K2 & Hh).
  pose proof (search_passes_knot b k k1 _ Hsort Hk Hs) as Hp.
  assert (EN : Net.h net +! 1 = Net.h net + 1) by (unwrap; zlia).
  rewrite EN.
  pose proof (fits_order b Hwf Hfit) as Hoi.
  destruct (insert_in_place_alloc b net (Net.h net + 1) Hwf Hoi ltac:(lia))
    as [[B1 B2]|Hfail].
  2:{ destruct (ts_internal_bspline_insert_knot true b net (Net.h net + 1))
        as [e0 r0]. cbn [fst] in Hfail.
      intros H. injection H as <- <- <-. lia. }
  destruct (insert_after_evaluate true b u (Net.h net + 1) net Hwf Hfit Hev
              ltac:(lia) ltac:(lia) B1 B2)
    as (r & Hins & Hwf' & D1 & D2 & D3 & D4 & D5 & G & _).
  rewrite Hins. replace (TS_SUCCESS >=? 0) with true by reflexivity.
  intros H. injection H as <- <- <-.
  assert (EK : Net.k net +! Net.h net +! 1 = Net.k net + Net.h net + 1)
    by (unwrap; zlia).
  rewrite EK.
  split; [exact Hwf'|].
  split; [unfold net_fits_int in *; rewrite D2, D3; exact Hfit|].
  split.
  { (* the knots stay weakly increasing *)
    destruct (span_search_stop _ _ _ _ _ _ _ Hs) as [Hpre [Hend|(_ & X1 & X2)]];
      [lia|].
    apply (sorted_insert b r (Net.k net) (Net.h net + 1) (Net.u net));
      try assumption; try lia.
    - rewrite U, K.
      destruct (ts_fequals u (lget (knots b) (k1 - 1))) eqn:E.
      + apply Hsort; lia.
      + destruct (Hpre (k1 - 1) ltac:(lia)) as [A|[_ A]]; [congruence|].
        apply b32_fle_total; [subst u; apply Hsort; lia | apply Hsort; lia | exact A].
    - intros _. rewrite U, K. replace (k1 - 1 + 1) with k1 by lia.
      destruct (ts_fequals u (lget (knots b) (k1 - 1))) eqn:E.
      + apply Hsort; lia.
      + apply b32_flt_fle. exact X2. }
  repeat split; try assumption; lia.
Qed.

(** the loop [while (k < n_knots - order)] ends: with an error of a
    split, or with a well-formed b-spline *)
Lemma beziers_loop_ends (fuel : nat) (b : tsBSpline spec_float) (k : Z) :
  bspline_wf b -> net_fits_int b -> knots_sorted b ->
  0 <= k -> 1 <= Z.of_nat fuel -> n_knots b - order b - k < Z.of_nat fuel ->
  exists e b',
    beziers_loop fuel (order b) b k = Some (e, b') /\
    (0 <= e -> e = TS_SUCCESS /\ bspline_wf b' /\ knots_sorted b' /\
               deg b' = deg b /\ dim b' = dim b).
Proof.
  revert b k. induction fuel as [|fuel IH]; intros b k Hwf Hfit Hsort Hk0 Hf1 Hf;
    [lia|].
  pose proof Hwf as [Hdeg (Ho & Hkn & Hc & Hd) Hlc Hlk Hcs Hks].
  cbn [beziers_loop].
  assert (E : n_knots b -! order b = n_knots b - order b) by (unwrap; zlia).
  rewrite E.
  destruct (k <? n_knots b - order b) eqn:Ck;
    [apply Z.ltb_lt in Ck | apply Z.ltb_ge in Ck].
  2:{ exists TS_SUCCESS, b. split; [reflexivity|]. intros _.
      repeat split; assumption. }
  destruct (ts_bspline_split true b (lget (knots b) k)) as [[e b'] k'] eqn:Hsp.
  destruct (e <? 0) eqn:Ce; [apply Z.ltb_lt in Ce | apply Z.ltb_ge in Ce].
  { exists e, b'. split; [reflexivity | lia]. }
  destruct (split_at_knot b b' k k' e Hwf Hfit Hsort ltac:(lia) Hsp Ce)
    as (Hwf' & Hfit' & Hsort' & D2 & D1 & D3 & Hgrow & Hk' & Hm).
  pose proof Hwf' as [_ _ _ _ _ Hks'].
  assert (E1 : k' +! 1 = k' + 1) by (unwrap; zlia).
  rewrite E1, <- D2.
  destruct (IH b' (k' + 1) Hwf' Hfit' Hsort' ltac:(lia)) as (e1 & b1 & Hl & Hok).
  - lia.
  - lia.
  - exists e1, b1. split; [exact Hl|]. intros He1.
    destruct (Hok He1) as (A1 & A2 & A3 & A4 & A5).
    split; [exact A1|]. split; [exact A2|]. split; [exact A3|].
    split; congruence.
Qed.

(** ** [ts_bspline_to_beziers] ends *)

(** [-1*deg + (deg*2 - k)] and [-1*deg + (k - (n_knots - order))] in
    [size_t] arithmetic, converted to [int] *)
Lemma trim_front_count (dg k : Z) :
  in_int (dg - k) -> to_int (wrap (-1) *! dg +! (dg *! 2 -! k)) = dg - k.
Proof.
  intros H. rewrite <- (to_int_in (dg - k)) by exact H.
  rewrite <- (to_int_wrap (dg - k)). f_equal.
  unfold sz_add, sz_mul, sz_sub, wrap.
  rewrite Zmult_mod_idemp_l, Zminus_mod_idemp_l, Zplus_mod_idemp_l, Zplus_mod_idemp_r.
  f_equal. lia.
Qed.

Lemma trim_back_count (dg k nk o : Z) :
  in_int (k - nk + o - dg) ->
  to_int (wrap (-1) *! dg +! (k -! (nk -! o))) = k - nk + o - dg.
Proof.
  intros H. rewrite <- (to_int_in (k - nk + o - dg)) by exact H.
  rewrite <- (to_int_wrap (k - nk + o - dg)). f_equal.
  unfold sz_add, sz_mul, sz_sub, wrap.
  rewrite Zmult_mod_idemp_l, Zminus_mod_idemp_r, Zplus_mod_idemp_l, Zplus_mod_idemp_r.
  f_equal. lia.
Qed.

(** a successful in-place resize that removes control points *)
Lemma resize_trim (b r : tsBSpline spec_float) (n : Z) (back : bool) (e : tsError) :
  bspline_wf b -> net_fits_int b -> knots_sorted b ->
  in_int n -> n <= 0 ->
  ts_bspline_resize true b n back = (e, r) -> 0 <= e ->
  bspline_wf r /\ net_fits_int r /\ knots_sorted r /\
  order r = order b /\ deg r = deg b /\ dim r = dim b /\
  n_knots r = n_knots b + n.
Proof.
  intros Hwf Hfit Hsort Hn Hn0 Hr He.
  pose proof Hwf as [Hdeg (Ho & Hk & Hc & Hd) Hlc Hlk Hcs Hks].
  destruct (Z.eq_dec n 0) as [->|Hne].
  { revert Hr. unfold ts_bspline_resize. cbn [Z.eqb andb negb].
    intros H. injection H as <- <-.
    repeat split; try assumption; try reflexivity; lia. }
  assert (Hcd : n_ctrlp b <= n_ctrlp b * dim b) by nia.
  unfold in_int in Hn.
  destruct (Z_lt_ge_dec (n_ctrlp b + n) 0) as [Hneg|Hpos].
  { exfalso. revert Hr. unfold ts_bspline_resize.
    replace (n =? 0) with false by lia. cbn [andb].
    assert (E1 : n_ctrlp b +! n = n_ctrlp b + n + SIZE_MOD).
    { unfold sz_add, wrap.
      rewrite <- (Z.mod_add (n_ctrlp b + n) 1 SIZE_MOD) by (rewrite SIZE_MOD_eq; lia).
      replace (n_ctrlp b + n + 1 * SIZE_MOD) with (n_ctrlp b + n + SIZE_MOD) by lia.
      apply Z.mod_small. zlia. }
    rewrite E1.
    replace (n_ctrlp b + n + SIZE_MOD <=? deg b) with false by zlia.
    replace (n <? 0) with true by lia.
    replace (n_ctrlp b + n + SIZE_MOD >? n_ctrlp b) with true by zlia.
    cbn [andb]. intros H. injection H as <- _. unfold TS_OVER_UNDERFLOW in He. lia. }
  destruct (Z_le_gt_dec (n_ctrlp b + n) (deg b)) as [Hle|Hgt].
  { exfalso. revert Hr. unfold ts_bspline_resize.
    replace (n =? 0) with false by lia. cbn [andb].
    assert (E1 : n_ctrlp b +! n = n_ctrlp b + n) by (unwrap; zlia).
    rewrite E1. replace (n_ctrlp b + n <=? deg b) with true by lia.
    intros H. injection H as <- _. unfold TS_DEG_GE_NCTRLP in He. lia. }
  assert (B1 : (n_ctrlp b + n) * dim b * size_flt <= PTRDIFF_MAX).
  { assert ((n_ctrlp b + n) * dim b <= n_ctrlp b * dim b) by nia.
    unfold size_flt in *. lia. }
  assert (B2 : (n_knots b + n) * size_flt <= PTRDIFF_MAX)
    by (unfold size_flt in *; lia).
  destruct (resize_content true back b n Hwf ltac:(unfold in_int; lia) Hne
              ltac:(lia) B1 B2)
    as (r' & Hr' & Hwf' & R1 & R2 & R3 & R4 & R5 & _ & Gk).
  rewrite Hr in Hr'. injection Hr' as -> ->.
  split; [exact Hwf'|].
  split; [unfold net_fits_int in *; rewrite R2, R3; exact Hfit|].
  split.
  { intros i j Hij Hj. rewrite R5 in Hj.
    destruct back.
    - specialize (Gk i ltac:(lia) ltac:(lia)) as Gi.
      specialize (Gk j ltac:(lia) ltac:(lia)) as Gj.
      replace (i + 0) with i in Gi by lia. replace (j + 0) with j in Gj by lia.
      rewrite Gi, Gj. apply Hsort; lia.
    - specialize (Gk (i - n) ltac:(lia) ltac:(lia)) as Gi.
      specialize (Gk (j - n) ltac:(lia) ltac:(lia)) as Gj.
      replace (i - n + n) with i in Gi by lia.
      replace (j - n + n) with j in Gj by lia.
      rewrite Gi, Gj. apply Hsort; lia. }
  repeat split; assumption.
Qed.

(** the block that fixes the first control point, when it succeeds *)
Lemma fix_first_ok (b r : tsBSpline spec_float) (e : tsError) :
  bspline_wf b -> net_fits_int b -> knots_sorted b ->
  n_knots b + order b <= INT_MAX ->
  beziers_fix_first (deg b) b = (e, r) -> 0 <= e ->
  bspline_wf r /\ net_fits_int r /\ knots_sorted r /\
  order r = order b /\ deg r = deg b /\ dim r = dim b /\
  n_knots r <= n_knots b + order b.
Proof.
  intros Hwf Hfit Hsort Hint Hr He.
  pose proof Hwf as [Hdeg (Ho & Hkn & Hc & Hd) Hlc Hlk Hcs Hks].
  revert Hr. unfold beziers_fix_first.
  destruct (negb (ts_fequals (lget (knots b) 0) (lget (knots b) (deg b)))).
  2:{ intros H. injection H as <- <-.
      repeat split; try assumption; try reflexivity; lia. }
  destruct (ts_bspline_split true b (lget (knots b) (deg b))) as [[e1 b1] k1] eqn:Hsp.
  destruct (e1 <? 0) eqn:Ce; [apply Z.ltb_lt in Ce | apply Z.ltb_ge in Ce].
  { intros H. injection H as <- <-. lia. }
  destruct (split_at_knot b b1 (deg b) k1 e1 Hwf Hfit Hsort ltac:(lia) Hsp Ce)
    as (Hwf1 & Hfit1 & Hsort1 & D2 & D1 & D3 & Hgrow & Hk1 & Hm).
  assert (Hin : in_int (deg b - k1)) by (unfold in_int; lia).
  rewrite (trim_front_count _ _ Hin). intros Hr.
  destruct (resize_trim b1 r (deg b - k1) false e Hwf1 Hfit1 Hsort1 Hin
              ltac:(lia) Hr He)
    as (Hwf2 & Hfit2 & Hsort2 & R2 & R1 & R3 & R5).
  split; [exact Hwf2|]. split; [exact Hfit2|]. split; [exact Hsort2|].
  repeat split; try congruence. lia.
Qed.

(** the block that fixes the last control point, when it succeeds *)
Lemma fix_last_ok (b r : tsBSpline spec_float) (e : tsError) :
  bspline_wf b -> net_fits_int b -> knots_sorted b ->
  n_knots b + order b <= INT_MAX ->
  beziers_fix_last (deg b) (order b) b = (e, r) -> 0 <= e ->
  bspline_wf r /\ net_fits_int r /\ knots_sorted r /\
  order r = order b /\ deg r = deg b /\ dim r = dim b /\
  n_knots r <= n_knots b + order b.
Proof.
  intros Hwf Hfit Hsort Hint Hr He.
  pose proof Hwf as [Hdeg (Ho & Hkn & Hc & Hd) Hlc Hlk Hcs Hks].
  revert Hr. unfold beziers_fix_last.
  assert (E1 : n_knots b -! order b = n_knots b - order b) by (unwrap; zlia).
  rewrite E1.
  destruct (negb (ts_fequals (lget (knots b) (n_knots b -! 1))
                   (lget (knots b) (n_knots b - order b)))).
  2:{ intros H. injection H as <- <-.
      repeat split; try assumption; try reflexivity; lia. }
  destruct (ts_bspline_split true b (lget (knots b) (n_knots b - order b)))
    as [[e1 b1] k1] eqn:Hsp.
  destruct (e1 <? 0) eqn:Ce; [apply Z.ltb_lt in Ce | apply Z.ltb_ge in Ce].
  { intros H. injection H as <- <-. lia. }
  destruct (split_at_knot b b1 (n_knots b - order b) k1 e1 Hwf Hfit Hsort
              ltac:(lia) Hsp Ce)
    as (Hwf1 & Hfit1 & Hsort1 & D2 & D1 & D3 & Hgrow & Hk1 & Hm).
  assert (Hin : in_int (k1 - n_knots b1 + order b - deg b))
    by (unfold in_int; lia).
  rewrite (trim_back_count _ _ _ _ Hin). intros Hr.
  destruct (resize_trim b1 r _ true e Hwf1 Hfit1 Hsort1 Hin ltac:(lia) Hr He)
    as (Hwf2 & Hfit2 & Hsort2 & R2 & R1 & R3 & R5).
  split; [exact Hwf2|]. split; [exact Hfit2|]. split; [exact Hsort2|].
  repeat split; try congruence. lia.
Qed.

(** X20.  [ts_bspline_to_beziers] terminates.  On a well-formed b-spline of
    an order of at most 5792 (so that every net of its evaluations has
    its [N (N + 1) / 2] points) with weakly increasing knots whose sizes
    fit the type [int], the loop over the interior knots runs fewer than
    [n_knots] times, whether or not the two ends had to be fixed first;
    the operation then returns an error of one of its steps, or succeeds
    with a well-formed b-spline of the same degree and dimension whose
    knots are weakly increasing. *)
Theorem to_beziers_terminates (alias : bool) (b : tsBSpline spec_float)
    (fuel : nat) :
  bspline_wf b -> net_fits_int b -> knots_sorted b ->
  order b <= 5792 ->
  n_knots b + 2 * order b <= INT_MAX ->
  n_knots b < Z.of_nat fuel ->
  exists e b',
    ts_bspline_to_beziers fuel alias b = Some (e, b') /\
    (0 <= e -> e = TS_SUCCESS /\ bspline_wf b' /\ knots_sorted b' /\
               deg b' = deg b /\ dim b' = dim b).
Proof.
  intros Hwf Hfit Hsort _ Hint Hfuel.
  pose proof Hwf as [Hdeg (Ho & Hkn & Hc & Hd) Hlc Hlk Hcs Hks].
  assert (Hcopy : (if negb alias then ts_bspline_copy false b else (TS_SUCCESS, b)) =
                  (TS_SUCCESS, b))
    by (destruct alias; [reflexivity | apply copy_wf; exact Hwf]).
  unfold ts_bspline_to_beziers. rewrite Hcopy.
  replace (TS_SUCCESS <? 0) with false by reflexivity.
  destruct (beziers_fix_first (deg b) b) as [e1 b1] eqn:H1.
  destruct (e1 <? 0) eqn:C1; [apply Z.ltb_lt in C1 | apply Z.ltb_ge in C1].
  { exists e1, b1. split; [reflexivity | lia]. }
  destruct (fix_first_ok b b1 e1 Hwf Hfit Hsort ltac:(lia) H1 C1)
    as (Hwf1 & Hfit1 & Hsort1 & O1 & D1 & M1 & N1).
  rewrite <- D1, <- O1.
  destruct (beziers_fix_last (deg b1) (order b1) b1) as [e2 b2] eqn:H2.
  destruct (e2 <? 0) eqn:C2; [apply Z.ltb_lt in C2 | apply Z.ltb_ge in C2].
  { exists e2, b2. split; [reflexivity | lia]. }
  destruct (fix_last_ok b1 b2 e2 Hwf1 Hfit1 Hsort1 ltac:(lia) H2 C2)
    as (Hwf2 & Hfit2 & Hsort2 & O2 & D2 & M2 & N2).
  rewrite <- O2.
  destruct (beziers_loop_ends fuel b2 (order b2) Hwf2 Hfit2 Hsort2)
    as (e & b' & Hl & Hok); try lia.
  exists e, b'. split; [exact Hl|]. intros He.
  destruct (Hok He) as (A1 & A2 & A3 & A4 & A5).
  split; [exact A1|]. split; [exact A2|]. split; [exact A3|].
  split; congruence.
Qed.

(** ** The theorems at concrete b-splines *)

Lemma ts_bspline_new_outcome_witness :
  ts_bspline_new (F := spec_float) 3 0 7 TS_CLAMPED =
    (TS_DIM_ZERO, ts_bspline_default) /\
  ts_bspline_new (F := spec_float) 7 1 7 TS_CLAMPED =
    (TS_DEG_GE_NCTRLP, ts_bspline_default) /\
  ts_bspline_new (F := spec_float) 5 1 (2 ^ 64 - 1) TS_CLAMPED =
    (TS_OVER_UNDERFLOW, ts_bspline_default) /\
  ts_bspline_new (F := spec_float) 3 1 (2 ^ 61) TS_CLAMPED =
    (TS_MALLOC, ts_bspline_default).
Proof.
  split; [|split; [|split]].
  - apply (ts_bspline_new_outcome 3 0 7 TS_CLAMPED); zlia.
  - apply (ts_bspline_new_outcome 7 1 7 TS_CLAMPED); zlia.
  - apply (ts_bspline_new_outcome 5 1 (2 ^ 64 - 1) TS_CLAMPED); zlia.
  - apply (ts_bspline_new_outcome 3 1 (2 ^ 61) TS_CLAMPED); try zlia.
    left. vm_compute. reflexivity.
Defined.

Lemma ts_bspline_new_buffers_witness :
  ts_bspline_new 0 1 (2 ^ 62 + 1) TS_NONE = (TS_SUCCESS, Examples.wrapped) /\
  n_ctrlp Examples.wrapped = 2 ^ 62 + 1 /\
  Z.of_nat (length (ctrlp Examples.wrapped)) = 1 /\
  ~ bspline_wf Examples.wrapped.
Proof.
  assert (Hnew : ts_bspline_new 0 1 (2 ^ 62 + 1) TS_NONE = (TS_SUCCESS, Examples.wrapped))
    by (vm_compute; reflexivity).
  split; [exact Hnew|]. split; [reflexivity|]. split; [reflexivity|].
  destruct (ts_bspline_new_buffers 0 1 (2 ^ 62 + 1) TS_NONE Examples.wrapped
              ltac:(zlia) ltac:(zlia) ltac:(zlia) Hnew)
    as (_ & _ & _ & _ & _ & _ & _ & Hiff).
  intros Hwf. apply Hiff in Hwf. destruct Hwf as [H _]. vm_compute in H.
  apply H. reflexivity.
Defined.

Lemma setup_knots_result_witness :
  ts_bspline_setup_knots false Examples.line TS_OPENED =
  (TS_SUCCESS,
   with_knots Examples.line
     [Examples.f32 0 3; Examples.f32 1 3; Examples.f32 2 3; Examples.f32 3 3]).
Proof.
  destruct (setup_knots_result false Examples.line line_wf) as (_ & H & _).
  rewrite H. vm_compute. reflexivity.
Defined.

Lemma copy_outcome_witness :
  ts_bspline_copy false Examples.line = (TS_SUCCESS, Examples.line).
Proof. apply (copy_outcome Examples.line). exact line_wf. Defined.

Lemma resize_keeps_points_witness :
  exists r,
    ts_bspline_resize false Examples.line 1 false = (TS_SUCCESS, r) /\
    n_ctrlp r = 3 /\
    ctrlp_at r 1 = ctrlp_at Examples.line 0 /\
    ctrlp_at r 2 = ctrlp_at Examples.line 1.
Proof.
  destruct (resize_keeps_points false false Examples.line 1 line_wf)
    as (r & Hr & _ & _ & _ & Hn & _ & Hc & _);
    try (unfold in_int; cbn; zlia); try discriminate.
  exists r. split; [exact Hr|]. split; [exact Hn|].
  split; [apply (Hc 0) | apply (Hc 1)]; cbn; lia.
Defined.

Lemma resize_round_trip_witness :
  exists r,
    ts_bspline_resize false Examples.line 2 true = (TS_SUCCESS, r) /\
    ts_bspline_resize true r (-2) true = (TS_SUCCESS, Examples.line).
Proof.
  apply (resize_round_trip false true true Examples.line 2 line_wf);
    try reflexivity; cbn; zlia.
Defined.

Lemma resize_outcome_witness :
  ts_bspline_resize false Examples.line (-1) true =
    (TS_DEG_GE_NCTRLP, ts_bspline_default) /\
  ts_bspline_resize true Examples.line (-3) true =
    (TS_OVER_UNDERFLOW, Examples.line).
Proof.
  split.
  - apply (resize_outcome false true Examples.line (-1) line_wf);
      try (unfold in_int; zlia); cbn; lia.
  - apply (resize_outcome true true Examples.line (-3) line_wf);
      try (unfold in_int; zlia); cbn; lia.
Defined.

Lemma high_degree_wf : bspline_wf Examples.high_degree.
Proof.
  constructor; unfold bspline_inv, Examples.high_degree; fields;
    rewrite ?length_app, ?repeat_length; zlia.
Qed.

Lemma high_degree_search :
  span_search (Z.to_nat (n_knots Examples.high_degree)) (knots Examples.high_degree) B32.half 0 0 =
  (5793, 0).
Proof.
  unfold Examples.high_degree. fields.
  replace (Z.to_nat 11586) with (Z.to_nat 5793 + S (Z.to_nat 5792))%nat by lia.
  rewrite span_search_skip.
  - rewrite Z2Nat.id by lia. apply span_search_break;
      (rewrite lget_app by lia; rewrite repeat_length, !Z2Nat.id by lia;
       change (5793 <? 5793) with false; cbv iota;
       rewrite lget_repeat by (rewrite Z2Nat.id; lia); vm_compute; reflexivity).
  - intros i Hi. rewrite Z2Nat.id in Hi by lia.
    rewrite lget_app by lia. rewrite repeat_length, Z2Nat.id by lia.
    replace (i <? 5793) with true by lia.
    rewrite lget_repeat by (rewrite Z2Nat.id; lia).
    split; vm_compute; reflexivity.
Qed.

Lemma net_size_single_precision_witness :
  exists net,
    ts_bspline_evaluate Examples.high_degree B32.half = (0, net) /\
    Net.h net + 1 = 5793 /\ Net.n_points net = tri 5793 - 1.
Proof.
  destruct (evaluate_zero_exists Examples.high_degree B32.half 5793 0 high_degree_wf
              high_degree_search) as (net & Hev & _ & _ & Hh).
  - unfold Examples.high_degree; fields; lia.
  - unfold Examples.high_degree; fields; lia.
  - unfold Examples.high_degree; fields. vm_compute. discriminate.
  - exists net. split; [exact Hev|].
    assert (HN : Net.h net + 1 = 5793) by (rewrite Hh; reflexivity).
    split; [exact HN|].
    rewrite <- HN at 1.
    apply (net_size_single_precision Examples.high_degree B32.half net high_degree_wf Hev).
    exact HN.
Defined.

Lemma evaluate_full_multiplicity_witness :
  net_result (snd (ts_bspline_evaluate Examples.line F0)) =
  ctrlp_at Examples.line 0.
Proof.
  destruct (evaluate_full_multiplicity Examples.line F0 1
              (snd (ts_bspline_evaluate Examples.line F0)) line_wf)
    as (_ & H); [vm_compute; reflexivity | lia |].
  destruct (H ltac:(lia)) as (_ & _ & _ & _ & _ & R). exact R.
Defined.

Lemma evaluate_failures_witness :
  fst (ts_bspline_evaluate Examples.near_one F1) = TS_MULTIPLICITY.
Proof.
  apply (evaluate_failures Examples.near_one F1 5 3 near_one_wf).
  - vm_compute. reflexivity.
  - cbn. lia.
Defined.

Lemma evaluate_computes_deboor_witness :
  net_result Examples.bezier3_net =
  map (deboor_spec (knots Examples.bezier3) (ctrlp Examples.bezier3) B32.half 3 1 3 3)
      [0].
Proof.
  apply (evaluate_computes_deboor Examples.bezier3 B32.half Examples.bezier3_net
           bezier3_wf bezier3_fits bezier3_evaluate).
  reflexivity.
Defined.

Lemma insert_knot_control_points_witness :
  exists b',
    ts_bspline_insert_knot false Examples.bezier3 B32.half 1 =
      (TS_SUCCESS, b', 4) /\
    n_ctrlp b' = 5 /\
    ctrlp_at b' 0 = net_point Examples.bezier3_net 4 0 0 /\
    ctrlp_at b' 1 = net_point Examples.bezier3_net 4 1 0 /\
    ctrlp_at b' 2 = net_point Examples.bezier3_net 4 1 1 /\
    ctrlp_at b' 3 = net_point Examples.bezier3_net 4 1 2 /\
    ctrlp_at b' 4 = net_point Examples.bezier3_net 4 0 3.
Proof.
  destruct (insert_knot_control_points false Examples.bezier3 B32.half 1
              Examples.bezier3_net bezier3_wf bezier3_fits bezier3_evaluate)
    as (b' & Hins & Hn & _ & _ & C2 & C3 & C4 & _);
    try reflexivity; try (cbn; zlia).
  exists b'. split; [exact Hins|]. split; [exact Hn|].
  split; [apply (C2 0); lia|].
  split; [apply (C3 0); cbn; lia|].
  split; [apply (C3 1); cbn; lia|].
  split; [apply (C3 2); cbn; lia|].
  apply (C4 0). lia.
Defined.

Lemma insert_knot_failures_witness :
  ts_bspline_insert_knot true Examples.bezier3 B32.half 5 =
  (TS_MULTIPLICITY, Examples.bezier3, 0).
Proof.
  apply (insert_knot_failures true Examples.bezier3 B32.half 5 0
           Examples.bezier3_net bezier3_wf ltac:(zlia) bezier3_evaluate);
    [lia | cbn; zlia].
Defined.

Lemma split_keeps_point_witness :
  exists b' net',
    ts_bspline_split false Examples.bezier3 B32.half = (TS_SUCCESS, b', 7) /\
    ts_bspline_evaluate b' B32.half = (2, net') /\
    Net.k net' = 7 /\ Net.s net' = 4 /\
    net_result net' = net_result Examples.bezier3_net.
Proof.
  apply (split_keeps_point false Examples.bezier3 B32.half Examples.bezier3_net
           bezier3_wf bezier3_fits bezier3_evaluate);
    [vm_compute; reflexivity | reflexivity | cbn; zlia | cbn; zlia].
Defined.

Lemma buckle_result_witness :
  exists b',
    ts_bspline_buckle false Examples.line B32.half = (TS_SUCCESS, b') /\
    knots b' = knots Examples.line /\
    lget (ctrlp b') 1 =
    buckle_spec B32.half 1 2 (ctrlp Examples.line) 1 0.
Proof.
  destruct (buckle_result false Examples.line B32.half line_wf)
    as (b' & Hb & _ & _ & _ & _ & _ & _ & Hk & G).
  exists b'. split; [exact Hb|]. split; [exact Hk|].
  apply (G 1 0); cbn; lia.
Defined.

Lemma single_point_wf : bspline_wf Examples.single_point.
Proof. constructor; unfold bspline_inv; cbn; zlia. Qed.

Lemma buckle_single_point_witness :
  exists b',
    ts_bspline_buckle true Examples.single_point B32.half = (TS_SUCCESS, b') /\
    n_ctrlp b' = 1 /\ dim b' = 2 /\
    lget (ctrlp b') 0 = S754_nan /\ lget (ctrlp b') 1 = S754_nan.
Proof.
  destruct (buckle_single_point true Examples.single_point B32.half single_point_wf eq_refl)
    as (b' & Hb & Hn & Hd & G).
  exists b'. split; [exact Hb|]. split; [exact Hn|]. split; [exact Hd|].
  split; apply G; cbn; lia.
Defined.

Lemma opened3_wf : bspline_wf Examples.opened3.
Proof. constructor; unfold bspline_inv; cbn; zlia. Qed.

Lemma opened3_fits : net_fits_int Examples.opened3.
Proof. unfold net_fits_int. vm_compute. discriminate. Qed.

Lemma opened3_sorted : knots_sorted Examples.opened3.
Proof.
  intros i j Hij Hj. cbn in Hj.
  assert (Hi' : 0 <= i < 5) by lia. assert (Hj' : 0 <= j < 5) by lia.
  each_index i; each_index j; try lia; reflexivity.
Qed.

Lemma to_beziers_terminates_witness :
  exists e b',
    ts_bspline_to_beziers 6 false Examples.opened3 = Some (e, b') /\
    (0 <= e -> e = TS_SUCCESS /\ bspline_wf b' /\ knots_sorted b' /\
               deg b' = deg Examples.opened3 /\ dim b' = dim Examples.opened3).
Proof.
  apply (to_beziers_terminates false Examples.opened3 6 opened3_wf opened3_fits
           opened3_sorted); cbn; zlia.
Defined.

